(** * go-grpc-prometheus: client and server metrics, interceptors, stream decorators

    A shallow embedding of [client_metrics.go] and of the server metrics
    file (registry, [Enable*Histogram], [Describe]/[Collect], the four
    interceptors, the two monitored streams, [InitializeMetrics] and
    [preRegisterMethod]), with the properties of the specification proved
    or refuted on it.

    Conventions.
    - A Go pointer that may be [nil] is an [option]; dereferencing [nil]
      panics, which the model renders as the result [None].
    - A [prom.CounterVec] / [prom.HistogramVec] is a descriptor together
      with a finite map from label values to the series; a series that is
      not in the map has not been created yet.
    - Code that mutates the registry runs in a small state-and-panic monad
      over a [World]: the registry plus the chronological list of calls
      made on the reporter and on the wrapped collaborators. *)

From Stdlib Require Import QArith.
From stdpp Require Import gmap strings list fin_maps.

Open Scope string_scope.
Open Scope list_scope.

(** ** State with panics

    [M W A]: a computation over a state [W] that returns an [A] or
    panics ([None]). *)
Definition M (W A : Type) : Type := W → option (A * W).

Global Instance M_ret {W} : MRet (M W) := λ A a w, Some (a, w).

Global Instance M_bind {W} : MBind (M W) :=
  λ A B f c w,
    match c w with
    | Some (a, w') => f a w'
    | None => None
    end.

Definition panic {W A} : M W A := λ _, None.

Definition get {W} : M W W := λ w, Some (w, w).

Definition modify {W} (f : W → W) : M W unit := λ w, Some (tt, f w).

(** [for _, x := range l { body(x) }]. *)
Fixpoint for_each {W A} (l : list A) (body : A → M W unit) : M W unit :=
  match l with
  | [] => mret tt
  | x :: l' => body x;; for_each l' body
  end.

(** Final state of a computation, when it does not panic. *)
Definition exec {W A} (c : M W A) (w : W) : option W :=
  match c w with
  | Some (_, w') => Some w'
  | None => None
  end.

(** A channel being written to: the state is what was sent so far. *)
Abbreviation Chan T := (M (list T) unit).

Definition send {T} (xs : list T) : Chan T := modify (λ ch, ch ++ xs).

(** ** Label taxonomy *)

(** [grpcType]: the shape of a call. *)
Inductive grpcType := Unary | ClientStream | ServerStream | BidiStream.

Global Instance grpcType_eq_dec : EqDecision grpcType.
Proof. solve_decision. Defined.

(** [codes.Code] of google.golang.org/grpc, in numeric order. *)
Inductive Code :=
  | OK | Canceled | Unknown | InvalidArgument | DeadlineExceeded | NotFound
  | AlreadyExists | PermissionDenied | ResourceExhausted | FailedPrecondition
  | Aborted | OutOfRange | Unimplemented | Internal | Unavailable | DataLoss
  | Unauthenticated.

Global Instance Code_eq_dec : EqDecision Code.
Proof. solve_decision. Defined.

(** [Code.String()] of the grpc library. *)
Definition Code_String (c : Code) : string :=
  match c with
  | OK => "OK" | Canceled => "Canceled" | Unknown => "Unknown"
  | InvalidArgument => "InvalidArgument"
  | DeadlineExceeded => "DeadlineExceeded" | NotFound => "NotFound"
  | AlreadyExists => "AlreadyExists"
  | PermissionDenied => "PermissionDenied"
  | ResourceExhausted => "ResourceExhausted"
  | FailedPrecondition => "FailedPrecondition" | Aborted => "Aborted"
  | OutOfRange => "OutOfRange" | Unimplemented => "Unimplemented"
  | Internal => "Internal" | Unavailable => "Unavailable"
  | DataLoss => "DataLoss" | Unauthenticated => "Unauthenticated"
  end.

(** Modelled from the spec: the table [allCodes] is declared elsewhere in
    the package; the specification describes it as "every known status
    code in the taxonomy". *)
Definition allCodes : list Code :=
  [ OK; Canceled; Unknown; InvalidArgument; DeadlineExceeded; NotFound;
    AlreadyExists; PermissionDenied; Unauthenticated; ResourceExhausted;
    FailedPrecondition; Aborted; OutOfRange; Unimplemented; Internal;
    Unavailable; DataLoss ].

(** ** Errors and statuses *)

(** A non-nil Go [error]: the sentinel [io.EOF], an error carrying a gRPC
    status, or any other error.  A nil error is [None : option error]. *)
Inductive error :=
  | io_EOF
  | statusError (c : Code) (msg : string)
  | plainError (msg : string).

Global Instance error_eq_dec : EqDecision error.
Proof. solve_decision. Defined.

Definition error_Error (e : error) : string :=
  match e with
  | io_EOF => "EOF"
  | statusError _ msg => msg
  | plainError msg => msg
  end.

Record Status := { st_code : Code; st_message : string }.

(** [status.FromError]: a nil error gives the nil status, an error that
    carries a status gives it back, any other error gives a status with
    code [Unknown]; the boolean says whether a status was found. *)
Definition status_FromError (err : option error) : option Status * bool :=
  match err with
  | None => (None, true)
  | Some (statusError c msg) => (Some {| st_code := c; st_message := msg |}, true)
  | Some e => (Some {| st_code := Unknown; st_message := error_Error e |}, false)
  end.

(** [Status.Code()], on a possibly nil status: the nil status has code [OK]. *)
Definition Status_Code (st : option Status) : Code :=
  match st with
  | None => OK
  | Some s => st_code s
  end.

(** [grpc.Code(err)]. *)
Definition grpc_Code (err : option error) : Code :=
  match err with
  | None => OK
  | Some (statusError c _) => c
  | Some _ => Unknown
  end.

(** ** The metrics store (prometheus client library) *)

(** Bucket bounds are only stored and passed on, never computed with. *)
Definition float64 : Type := Q.

(** [prom.DefBuckets]. *)
Definition DefBuckets : list float64 :=
  [ Qmake 5 1000; Qmake 1 100; Qmake 25 1000; Qmake 5 100; Qmake 1 10;
    Qmake 25 100; Qmake 5 10; Qmake 1 1; Qmake 25 10; Qmake 5 1;
    Qmake 10 1 ].

Record CounterOpts := { co_Name : string; co_Help : string }.

Record HistogramOpts :=
  { Name : string; Help : string; Buckets : list float64 }.

Record Desc :=
  { fqName : string; help : string; variableLabels : list string }.

(** Label values, in the order of the vector's variable labels. *)
Abbreviation LabelValues := (list string).

(** A counter vector: its descriptor and the series created so far, each
    with its current count. *)
Record CounterVec :=
  { cv_desc : Desc; cv_series : gmap LabelValues nat }.

(** A histogram vector: descriptor, the bucket bounds it was built with,
    and per series the number of observations.  The observed values are
    durations of real time and are not represented. *)
Record HistogramVec :=
  { hv_desc : Desc; hv_buckets : list float64;
    hv_series : gmap LabelValues nat }.

Definition NewCounterVec (opts : CounterOpts) (labelNames : list string)
  : CounterVec :=
  {| cv_desc := {| fqName := co_Name opts; help := co_Help opts;
                   variableLabels := labelNames |};
     cv_series := ∅ |}.

Definition NewHistogramVec (opts : HistogramOpts) (labelNames : list string)
  : HistogramVec :=
  {| hv_desc := {| fqName := Name opts; help := Help opts;
                   variableLabels := labelNames |};
     hv_buckets := Buckets opts;
     hv_series := ∅ |}.

(** Looking a series up creates it with value zero when it is absent.
    (The library also checks the number of label values against the
    vector's label names; every call site below passes as many values as
    the vector was declared with, and that check is left out.) *)
Definition touch (lvs : LabelValues) (s : gmap LabelValues nat)
  : gmap LabelValues nat :=
  match s !! lvs with
  | Some _ => s
  | None => <[lvs := 0]> s
  end.

(** Current value of a series; [0] when it does not exist. *)
Definition series_value (s : gmap LabelValues nat) (lvs : LabelValues) : nat :=
  default 0 (s !! lvs).

Definition bump (lvs : LabelValues) (s : gmap LabelValues nat)
  : gmap LabelValues nat :=
  <[lvs := S (series_value s lvs)]> s.

(** [v.GetMetricWithLabelValues(lvs...)], result dropped. *)
Definition CounterVec_GetMetricWithLabelValues
    (lvs : LabelValues) (v : CounterVec) : CounterVec :=
  {| cv_desc := cv_desc v; cv_series := touch lvs (cv_series v) |}.

(** [v.WithLabelValues(lvs...).Inc()]. *)
Definition CounterVec_Inc (lvs : LabelValues) (v : CounterVec) : CounterVec :=
  {| cv_desc := cv_desc v; cv_series := bump lvs (cv_series v) |}.

Definition HistogramVec_GetMetricWithLabelValues
    (lvs : LabelValues) (v : HistogramVec) : HistogramVec :=
  {| hv_desc := hv_desc v; hv_buckets := hv_buckets v;
     hv_series := touch lvs (hv_series v) |}.

(** [v.WithLabelValues(lvs...).Observe(d)]. *)
Definition HistogramVec_Observe (lvs : LabelValues) (v : HistogramVec)
  : HistogramVec :=
  {| hv_desc := hv_desc v; hv_buckets := hv_buckets v;
     hv_series := bump lvs (hv_series v) |}.

(** What a collector sends on the [Collect] channel: one sample per
    existing series. *)
Record Metric :=
  { m_desc : Desc; m_labels : LabelValues; m_value : nat }.

Definition series_metrics (d : Desc) (s : gmap LabelValues nat) : list Metric :=
  (λ kv, {| m_desc := d; m_labels := kv.1; m_value := kv.2 |})
    <$> map_to_list s.

(** [v.Describe(ch)] and [v.Collect(ch)]; the receiver may be nil for a
    histogram of the registry that was never created. *)
Definition CounterVec_Describe (v : CounterVec) : Chan Desc :=
  send [cv_desc v].

Definition CounterVec_Collect (v : CounterVec) : Chan Metric :=
  send (series_metrics (cv_desc v) (cv_series v)).

Definition HistogramVec_Describe (v : option HistogramVec) : Chan Desc :=
  match v with
  | Some h => send [hv_desc h]
  | None => panic
  end.

Definition HistogramVec_Collect (v : option HistogramVec) : Chan Metric :=
  match v with
  | Some h => send (series_metrics (hv_desc h) (hv_series h))
  | None => panic
  end.

Definition counter_value (v : CounterVec) (lvs : LabelValues) : nat :=
  series_value (cv_series v) lvs.

Definition histogram_count (v : option HistogramVec) (lvs : LabelValues) : nat :=
  match v with
  | Some h => series_value (hv_series h) lvs
  | None => 0
  end.

(** ** Histogram options *)

(** [HistogramOption]: a function that updates a [prom.HistogramOpts] in place. *)
Definition HistogramOption : Type := HistogramOpts → HistogramOpts.


(** [for _, o := range opts { o(&target) }]: the options run in order. *)
Definition apply_options (opts : list HistogramOption) (target : HistogramOpts)
  : HistogramOpts :=
  foldl (λ acc o, o acc) target opts.

(** ** The registries *)

(** [ServerMetrics]: the metrics of a gRPC server. *)
Record ServerMetrics :=
  { serverStartedCounter : CounterVec;
    serverHandledCounter : CounterVec;
    serverStreamMsgReceived : CounterVec;
    serverStreamMsgSent : CounterVec;
    serverHandledHistogramEnabled : bool;
    serverHandledHistogramOpts : HistogramOpts;
    serverHandledHistogram : option HistogramVec }.

(** [ClientMetrics]: the metrics of a gRPC client. *)
Record ClientMetrics :=
  { clientStartedCounter : CounterVec;
    clientStartedCounterOpts : CounterOpts;
    clientHandledCounter : CounterVec;
    clientStreamMsgReceived : CounterVec;
    clientStreamMsgSent : CounterVec;
    clientHandledHistogramEnabled : bool;
    clientHandledHistogramOpts : HistogramOpts;
    clientHandledHistogram : option HistogramVec;
    clientStreamRecvHistogramEnabled : bool;
    clientStreamRecvHistogramOpts : HistogramOpts;
    clientStreamRecvHistogram : option HistogramVec;
    clientStreamSendHistogramEnabled : bool;
    clientStreamSendHistogramOpts : HistogramOpts;
    clientStreamSendHistogram : option HistogramVec;
    clientMsgSizeReceivedHistogramEnabled : bool;
    clientMsgSizeReceivedHistogramOpts : HistogramOpts;
    clientMsgSizeReceivedHistogram : option HistogramVec;
    clientMsgSizeSentHistogramEnabled : bool;
    clientMsgSizeSentHistogramOpts : HistogramOpts;
    clientMsgSizeSentHistogram : option HistogramVec }.

(** Field assignments [m.f = x]. *)
Definition set_serverStartedCounter (x : CounterVec) (m : ServerMetrics) : ServerMetrics :=
  {| serverStartedCounter := x;
     serverHandledCounter := serverHandledCounter m;
     serverStreamMsgReceived := serverStreamMsgReceived m;
     serverStreamMsgSent := serverStreamMsgSent m;
     serverHandledHistogramEnabled := serverHandledHistogramEnabled m;
     serverHandledHistogramOpts := serverHandledHistogramOpts m;
     serverHandledHistogram := serverHandledHistogram m |}.

Definition set_serverHandledCounter (x : CounterVec) (m : ServerMetrics) : ServerMetrics :=
  {| serverStartedCounter := serverStartedCounter m;
     serverHandledCounter := x;
     serverStreamMsgReceived := serverStreamMsgReceived m;
     serverStreamMsgSent := serverStreamMsgSent m;
     serverHandledHistogramEnabled := serverHandledHistogramEnabled m;
     serverHandledHistogramOpts := serverHandledHistogramOpts m;
     serverHandledHistogram := serverHandledHistogram m |}.

Definition set_serverStreamMsgReceived (x : CounterVec) (m : ServerMetrics) : ServerMetrics :=
  {| serverStartedCounter := serverStartedCounter m;
     serverHandledCounter := serverHandledCounter m;
     serverStreamMsgReceived := x;
     serverStreamMsgSent := serverStreamMsgSent m;
     serverHandledHistogramEnabled := serverHandledHistogramEnabled m;
     serverHandledHistogramOpts := serverHandledHistogramOpts m;
     serverHandledHistogram := serverHandledHistogram m |}.

Definition set_serverStreamMsgSent (x : CounterVec) (m : ServerMetrics) : ServerMetrics :=
  {| serverStartedCounter := serverStartedCounter m;
     serverHandledCounter := serverHandledCounter m;
     serverStreamMsgReceived := serverStreamMsgReceived m;
     serverStreamMsgSent := x;
     serverHandledHistogramEnabled := serverHandledHistogramEnabled m;
     serverHandledHistogramOpts := serverHandledHistogramOpts m;
     serverHandledHistogram := serverHandledHistogram m |}.

Definition set_serverHandledHistogramEnabled (x : bool) (m : ServerMetrics) : ServerMetrics :=
  {| serverStartedCounter := serverStartedCounter m;
     serverHandledCounter := serverHandledCounter m;
     serverStreamMsgReceived := serverStreamMsgReceived m;
     serverStreamMsgSent := serverStreamMsgSent m;
     serverHandledHistogramEnabled := x;
     serverHandledHistogramOpts := serverHandledHistogramOpts m;
     serverHandledHistogram := serverHandledHistogram m |}.

Definition set_serverHandledHistogramOpts (x : HistogramOpts) (m : ServerMetrics) : ServerMetrics :=
  {| serverStartedCounter := serverStartedCounter m;
     serverHandledCounter := serverHandledCounter m;
     serverStreamMsgReceived := serverStreamMsgReceived m;
     serverStreamMsgSent := serverStreamMsgSent m;
     serverHandledHistogramEnabled := serverHandledHistogramEnabled m;
     serverHandledHistogramOpts := x;
     serverHandledHistogram := serverHandledHistogram m |}.

Definition set_serverHandledHistogram (x : option HistogramVec) (m : ServerMetrics) : ServerMetrics :=
  {| serverStartedCounter := serverStartedCounter m;
     serverHandledCounter := serverHandledCounter m;
     serverStreamMsgReceived := serverStreamMsgReceived m;
     serverStreamMsgSent := serverStreamMsgSent m;
     serverHandledHistogramEnabled := serverHandledHistogramEnabled m;
     serverHandledHistogramOpts := serverHandledHistogramOpts m;
     serverHandledHistogram := x |}.

Definition set_clientStartedCounter (x : CounterVec) (m : ClientMetrics) : ClientMetrics :=
  {| clientStartedCounter := x;
     clientStartedCounterOpts := clientStartedCounterOpts m;
     clientHandledCounter := clientHandledCounter m;
     clientStreamMsgReceived := clientStreamMsgReceived m;
     clientStreamMsgSent := clientStreamMsgSent m;
     clientHandledHistogramEnabled := clientHandledHistogramEnabled m;
     clientHandledHistogramOpts := clientHandledHistogramOpts m;
     clientHandledHistogram := clientHandledHistogram m;
     clientStreamRecvHistogramEnabled := clientStreamRecvHistogramEnabled m;
     clientStreamRecvHistogramOpts := clientStreamRecvHistogramOpts m;
     clientStreamRecvHistogram := clientStreamRecvHistogram m;
     clientStreamSendHistogramEnabled := clientStreamSendHistogramEnabled m;
     clientStreamSendHistogramOpts := clientStreamSendHistogramOpts m;
     clientStreamSendHistogram := clientStreamSendHistogram m;
     clientMsgSizeReceivedHistogramEnabled := clientMsgSizeReceivedHistogramEnabled m;
     clientMsgSizeReceivedHistogramOpts := clientMsgSizeReceivedHistogramOpts m;
     clientMsgSizeReceivedHistogram := clientMsgSizeReceivedHistogram m;
     clientMsgSizeSentHistogramEnabled := clientMsgSizeSentHistogramEnabled m;
     clientMsgSizeSentHistogramOpts := clientMsgSizeSentHistogramOpts m;
     clientMsgSizeSentHistogram := clientMsgSizeSentHistogram m |}.

Definition set_clientHandledCounter (x : CounterVec) (m : ClientMetrics) : ClientMetrics :=
  {| clientStartedCounter := clientStartedCounter m;
     clientStartedCounterOpts := clientStartedCounterOpts m;
     clientHandledCounter := x;
     clientStreamMsgReceived := clientStreamMsgReceived m;
     clientStreamMsgSent := clientStreamMsgSent m;
     clientHandledHistogramEnabled := clientHandledHistogramEnabled m;
     clientHandledHistogramOpts := clientHandledHistogramOpts m;
     clientHandledHistogram := clientHandledHistogram m;
     clientStreamRecvHistogramEnabled := clientStreamRecvHistogramEnabled m;
     clientStreamRecvHistogramOpts := clientStreamRecvHistogramOpts m;
     clientStreamRecvHistogram := clientStreamRecvHistogram m;
     clientStreamSendHistogramEnabled := clientStreamSendHistogramEnabled m;
     clientStreamSendHistogramOpts := clientStreamSendHistogramOpts m;
     clientStreamSendHistogram := clientStreamSendHistogram m;
     clientMsgSizeReceivedHistogramEnabled := clientMsgSizeReceivedHistogramEnabled m;
     clientMsgSizeReceivedHistogramOpts := clientMsgSizeReceivedHistogramOpts m;
     clientMsgSizeReceivedHistogram := clientMsgSizeReceivedHistogram m;
     clientMsgSizeSentHistogramEnabled := clientMsgSizeSentHistogramEnabled m;
     clientMsgSizeSentHistogramOpts := clientMsgSizeSentHistogramOpts m;
     clientMsgSizeSentHistogram := clientMsgSizeSentHistogram m |}.

Definition set_clientStreamMsgReceived (x : CounterVec) (m : ClientMetrics) : ClientMetrics :=
  {| clientStartedCounter := clientStartedCounter m;
     clientStartedCounterOpts := clientStartedCounterOpts m;
     clientHandledCounter := clientHandledCounter m;
     clientStreamMsgReceived := x;
     clientStreamMsgSent := clientStreamMsgSent m;
     clientHandledHistogramEnabled := clientHandledHistogramEnabled m;
     clientHandledHistogramOpts := clientHandledHistogramOpts m;
     clientHandledHistogram := clientHandledHistogram m;
     clientStreamRecvHistogramEnabled := clientStreamRecvHistogramEnabled m;
     clientStreamRecvHistogramOpts := clientStreamRecvHistogramOpts m;
     clientStreamRecvHistogram := clientStreamRecvHistogram m;
     clientStreamSendHistogramEnabled := clientStreamSendHistogramEnabled m;
     clientStreamSendHistogramOpts := clientStreamSendHistogramOpts m;
     clientStreamSendHistogram := clientStreamSendHistogram m;
     clientMsgSizeReceivedHistogramEnabled := clientMsgSizeReceivedHistogramEnabled m;
     clientMsgSizeReceivedHistogramOpts := clientMsgSizeReceivedHistogramOpts m;
     clientMsgSizeReceivedHistogram := clientMsgSizeReceivedHistogram m;
     clientMsgSizeSentHistogramEnabled := clientMsgSizeSentHistogramEnabled m;
     clientMsgSizeSentHistogramOpts := clientMsgSizeSentHistogramOpts m;
     clientMsgSizeSentHistogram := clientMsgSizeSentHistogram m |}.

Definition set_clientStreamMsgSent (x : CounterVec) (m : ClientMetrics) : ClientMetrics :=
  {| clientStartedCounter := clientStartedCounter m;
     clientStartedCounterOpts := clientStartedCounterOpts m;
     clientHandledCounter := clientHandledCounter m;
     clientStreamMsgReceived := clientStreamMsgReceived m;
     clientStreamMsgSent := x;
     clientHandledHistogramEnabled := clientHandledHistogramEnabled m;
     clientHandledHistogramOpts := clientHandledHistogramOpts m;
     clientHandledHistogram := clientHandledHistogram m;
     clientStreamRecvHistogramEnabled := clientStreamRecvHistogramEnabled m;
     clientStreamRecvHistogramOpts := clientStreamRecvHistogramOpts m;
     clientStreamRecvHistogram := clientStreamRecvHistogram m;
     clientStreamSendHistogramEnabled := clientStreamSendHistogramEnabled m;
     clientStreamSendHistogramOpts := clientStreamSendHistogramOpts m;
     clientStreamSendHistogram := clientStreamSendHistogram m;
     clientMsgSizeReceivedHistogramEnabled := clientMsgSizeReceivedHistogramEnabled m;
     clientMsgSizeReceivedHistogramOpts := clientMsgSizeReceivedHistogramOpts m;
     clientMsgSizeReceivedHistogram := clientMsgSizeReceivedHistogram m;
     clientMsgSizeSentHistogramEnabled := clientMsgSizeSentHistogramEnabled m;
     clientMsgSizeSentHistogramOpts := clientMsgSizeSentHistogramOpts m;
     clientMsgSizeSentHistogram := clientMsgSizeSentHistogram m |}.

Definition set_clientHandledHistogramEnabled (x : bool) (m : ClientMetrics) : ClientMetrics :=
  {| clientStartedCounter := clientStartedCounter m;
     clientStartedCounterOpts := clientStartedCounterOpts m;
     clientHandledCounter := clientHandledCounter m;
     clientStreamMsgReceived := clientStreamMsgReceived m;
     clientStreamMsgSent := clientStreamMsgSent m;
     clientHandledHistogramEnabled := x;
     clientHandledHistogramOpts := clientHandledHistogramOpts m;
     clientHandledHistogram := clientHandledHistogram m;
     clientStreamRecvHistogramEnabled := clientStreamRecvHistogramEnabled m;
     clientStreamRecvHistogramOpts := clientStreamRecvHistogramOpts m;
     clientStreamRecvHistogram := clientStreamRecvHistogram m;
     clientStreamSendHistogramEnabled := clientStreamSendHistogramEnabled m;
     clientStreamSendHistogramOpts := clientStreamSendHistogramOpts m;
     clientStreamSendHistogram := clientStreamSendHistogram m;
     clientMsgSizeReceivedHistogramEnabled := clientMsgSizeReceivedHistogramEnabled m;
     clientMsgSizeReceivedHistogramOpts := clientMsgSizeReceivedHistogramOpts m;
     clientMsgSizeReceivedHistogram := clientMsgSizeReceivedHistogram m;
     clientMsgSizeSentHistogramEnabled := clientMsgSizeSentHistogramEnabled m;
     clientMsgSizeSentHistogramOpts := clientMsgSizeSentHistogramOpts m;
     clientMsgSizeSentHistogram := clientMsgSizeSentHistogram m |}.

Definition set_clientHandledHistogramOpts (x : HistogramOpts) (m : ClientMetrics) : ClientMetrics :=
  {| clientStartedCounter := clientStartedCounter m;
     clientStartedCounterOpts := clientStartedCounterOpts m;
     clientHandledCounter := clientHandledCounter m;
     clientStreamMsgReceived := clientStreamMsgReceived m;
     clientStreamMsgSent := clientStreamMsgSent m;
     clientHandledHistogramEnabled := clientHandledHistogramEnabled m;
     clientHandledHistogramOpts := x;
     clientHandledHistogram := clientHandledHistogram m;
     clientStreamRecvHistogramEnabled := clientStreamRecvHistogramEnabled m;
     clientStreamRecvHistogramOpts := clientStreamRecvHistogramOpts m;
     clientStreamRecvHistogram := clientStreamRecvHistogram m;
     clientStreamSendHistogramEnabled := clientStreamSendHistogramEnabled m;
     clientStreamSendHistogramOpts := clientStreamSendHistogramOpts m;
     clientStreamSendHistogram := clientStreamSendHistogram m;
     clientMsgSizeReceivedHistogramEnabled := clientMsgSizeReceivedHistogramEnabled m;
     clientMsgSizeReceivedHistogramOpts := clientMsgSizeReceivedHistogramOpts m;
     clientMsgSizeReceivedHistogram := clientMsgSizeReceivedHistogram m;
     clientMsgSizeSentHistogramEnabled := clientMsgSizeSentHistogramEnabled m;
     clientMsgSizeSentHistogramOpts := clientMsgSizeSentHistogramOpts m;
     clientMsgSizeSentHistogram := clientMsgSizeSentHistogram m |}.

Definition set_clientHandledHistogram (x : option HistogramVec) (m : ClientMetrics) : ClientMetrics :=
  {| clientStartedCounter := clientStartedCounter m;
     clientStartedCounterOpts := clientStartedCounterOpts m;
     clientHandledCounter := clientHandledCounter m;
     clientStreamMsgReceived := clientStreamMsgReceived m;
     clientStreamMsgSent := clientStreamMsgSent m;
     clientHandledHistogramEnabled := clientHandledHistogramEnabled m;
     clientHandledHistogramOpts := clientHandledHistogramOpts m;
     clientHandledHistogram := x;
     clientStreamRecvHistogramEnabled := clientStreamRecvHistogramEnabled m;
     clientStreamRecvHistogramOpts := clientStreamRecvHistogramOpts m;
     clientStreamRecvHistogram := clientStreamRecvHistogram m;
     clientStreamSendHistogramEnabled := clientStreamSendHistogramEnabled m;
     clientStreamSendHistogramOpts := clientStreamSendHistogramOpts m;
     clientStreamSendHistogram := clientStreamSendHistogram m;
     clientMsgSizeReceivedHistogramEnabled := clientMsgSizeReceivedHistogramEnabled m;
     clientMsgSizeReceivedHistogramOpts := clientMsgSizeReceivedHistogramOpts m;
     clientMsgSizeReceivedHistogram := clientMsgSizeReceivedHistogram m;
     clientMsgSizeSentHistogramEnabled := clientMsgSizeSentHistogramEnabled m;
     clientMsgSizeSentHistogramOpts := clientMsgSizeSentHistogramOpts m;
     clientMsgSizeSentHistogram := clientMsgSizeSentHistogram m |}.

Definition set_clientStreamRecvHistogramEnabled (x : bool) (m : ClientMetrics) : ClientMetrics :=
  {| clientStartedCounter := clientStartedCounter m;
     clientStartedCounterOpts := clientStartedCounterOpts m;
     clientHandledCounter := clientHandledCounter m;
     clientStreamMsgReceived := clientStreamMsgReceived m;
     clientStreamMsgSent := clientStreamMsgSent m;
     clientHandledHistogramEnabled := clientHandledHistogramEnabled m;
     clientHandledHistogramOpts := clientHandledHistogramOpts m;
     clientHandledHistogram := clientHandledHistogram m;
     clientStreamRecvHistogramEnabled := x;
     clientStreamRecvHistogramOpts := clientStreamRecvHistogramOpts m;
     clientStreamRecvHistogram := clientStreamRecvHistogram m;
     clientStreamSendHistogramEnabled := clientStreamSendHistogramEnabled m;
     clientStreamSendHistogramOpts := clientStreamSendHistogramOpts m;
     clientStreamSendHistogram := clientStreamSendHistogram m;
     clientMsgSizeReceivedHistogramEnabled := clientMsgSizeReceivedHistogramEnabled m;
     clientMsgSizeReceivedHistogramOpts := clientMsgSizeReceivedHistogramOpts m;
     clientMsgSizeReceivedHistogram := clientMsgSizeReceivedHistogram m;
     clientMsgSizeSentHistogramEnabled := clientMsgSizeSentHistogramEnabled m;
     clientMsgSizeSentHistogramOpts := clientMsgSizeSentHistogramOpts m;
     clientMsgSizeSentHistogram := clientMsgSizeSentHistogram m |}.

Definition set_clientStreamRecvHistogramOpts (x : HistogramOpts) (m : ClientMetrics) : ClientMetrics :=
  {| clientStartedCounter := clientStartedCounter m;
     clientStartedCounterOpts := clientStartedCounterOpts m;
     clientHandledCounter := clientHandledCounter m;
     clientStreamMsgReceived := clientStreamMsgReceived m;
     clientStreamMsgSent := clientStreamMsgSent m;
     clientHandledHistogramEnabled := clientHandledHistogramEnabled m;
     clientHandledHistogramOpts := clientHandledHistogramOpts m;
     clientHandledHistogram := clientHandledHistogram m;
     clientStreamRecvHistogramEnabled := clientStreamRecvHistogramEnabled m;
     clientStreamRecvHistogramOpts := x;
     clientStreamRecvHistogram := clientStreamRecvHistogram m;
     clientStreamSendHistogramEnabled := clientStreamSendHistogramEnabled m;
     clientStreamSendHistogramOpts := clientStreamSendHistogramOpts m;
     clientStreamSendHistogram := clientStreamSendHistogram m;
     clientMsgSizeReceivedHistogramEnabled := clientMsgSizeReceivedHistogramEnabled m;
     clientMsgSizeReceivedHistogramOpts := clientMsgSizeReceivedHistogramOpts m;
     clientMsgSizeReceivedHistogram := clientMsgSizeReceivedHistogram m;
     clientMsgSizeSentHistogramEnabled := clientMsgSizeSentHistogramEnabled m;
     clientMsgSizeSentHistogramOpts := clientMsgSizeSentHistogramOpts m;
     clientMsgSizeSentHistogram := clientMsgSizeSentHistogram m |}.

Definition set_clientStreamRecvHistogram (x : option HistogramVec) (m : ClientMetrics) : ClientMetrics :=
  {| clientStartedCounter := clientStartedCounter m;
     clientStartedCounterOpts := clientStartedCounterOpts m;
     clientHandledCounter := clientHandledCounter m;
     clientStreamMsgReceived := clientStreamMsgReceived m;
     clientStreamMsgSent := clientStreamMsgSent m;
     clientHandledHistogramEnabled := clientHandledHistogramEnabled m;
     clientHandledHistogramOpts := clientHandledHistogramOpts m;
     clientHandledHistogram := clientHandledHistogram m;
     clientStreamRecvHistogramEnabled := clientStreamRecvHistogramEnabled m;
     clientStreamRecvHistogramOpts := clientStreamRecvHistogramOpts m;
     clientStreamRecvHistogram := x;
     clientStreamSendHistogramEnabled := clientStreamSendHistogramEnabled m;
     clientStreamSendHistogramOpts := clientStreamSendHistogramOpts m;
     clientStreamSendHistogram := clientStreamSendHistogram m;
     clientMsgSizeReceivedHistogramEnabled := clientMsgSizeReceivedHistogramEnabled m;
     clientMsgSizeReceivedHistogramOpts := clientMsgSizeReceivedHistogramOpts m;
     clientMsgSizeReceivedHistogram := clientMsgSizeReceivedHistogram m;
     clientMsgSizeSentHistogramEnabled := clientMsgSizeSentHistogramEnabled m;
     clientMsgSizeSentHistogramOpts := clientMsgSizeSentHistogramOpts m;
     clientMsgSizeSentHistogram := clientMsgSizeSentHistogram m |}.

Definition set_clientStreamSendHistogramEnabled (x : bool) (m : ClientMetrics) : ClientMetrics :=
  {| clientStartedCounter := clientStartedCounter m;
     clientStartedCounterOpts := clientStartedCounterOpts m;
     clientHandledCounter := clientHandledCounter m;
     clientStreamMsgReceived := clientStreamMsgReceived m;
     clientStreamMsgSent := clientStreamMsgSent m;
     clientHandledHistogramEnabled := clientHandledHistogramEnabled m;
     clientHandledHistogramOpts := clientHandledHistogramOpts m;
     clientHandledHistogram := clientHandledHistogram m;
     clientStreamRecvHistogramEnabled := clientStreamRecvHistogramEnabled m;
     clientStreamRecvHistogramOpts := clientStreamRecvHistogramOpts m;
     clientStreamRecvHistogram := clientStreamRecvHistogram m;
     clientStreamSendHistogramEnabled := x;
     clientStreamSendHistogramOpts := clientStreamSendHistogramOpts m;
     clientStreamSendHistogram := clientStreamSendHistogram m;
     clientMsgSizeReceivedHistogramEnabled := clientMsgSizeReceivedHistogramEnabled m;
     clientMsgSizeReceivedHistogramOpts := clientMsgSizeReceivedHistogramOpts m;
     clientMsgSizeReceivedHistogram := clientMsgSizeReceivedHistogram m;
     clientMsgSizeSentHistogramEnabled := clientMsgSizeSentHistogramEnabled m;
     clientMsgSizeSentHistogramOpts := clientMsgSizeSentHistogramOpts m;
     clientMsgSizeSentHistogram := clientMsgSizeSentHistogram m |}.

Definition set_clientStreamSendHistogramOpts (x : HistogramOpts) (m : ClientMetrics) : ClientMetrics :=
  {| clientStartedCounter := clientStartedCounter m;
     clientStartedCounterOpts := clientStartedCounterOpts m;
     clientHandledCounter := clientHandledCounter m;
     clientStreamMsgReceived := clientStreamMsgReceived m;
     clientStreamMsgSent := clientStreamMsgSent m;
     clientHandledHistogramEnabled := clientHandledHistogramEnabled m;
     clientHandledHistogramOpts := clientHandledHistogramOpts m;
     clientHandledHistogram := clientHandledHistogram m;
     clientStreamRecvHistogramEnabled := clientStreamRecvHistogramEnabled m;
     clientStreamRecvHistogramOpts := clientStreamRecvHistogramOpts m;
     clientStreamRecvHistogram := clientStreamRecvHistogram m;
     clientStreamSendHistogramEnabled := clientStreamSendHistogramEnabled m;
     clientStreamSendHistogramOpts := x;
     clientStreamSendHistogram := clientStreamSendHistogram m;
     clientMsgSizeReceivedHistogramEnabled := clientMsgSizeReceivedHistogramEnabled m;
     clientMsgSizeReceivedHistogramOpts := clientMsgSizeReceivedHistogramOpts m;
     clientMsgSizeReceivedHistogram := clientMsgSizeReceivedHistogram m;
     clientMsgSizeSentHistogramEnabled := clientMsgSizeSentHistogramEnabled m;
     clientMsgSizeSentHistogramOpts := clientMsgSizeSentHistogramOpts m;
     clientMsgSizeSentHistogram := clientMsgSizeSentHistogram m |}.

Definition set_clientStreamSendHistogram (x : option HistogramVec) (m : ClientMetrics) : ClientMetrics :=
  {| clientStartedCounter := clientStartedCounter m;
     clientStartedCounterOpts := clientStartedCounterOpts m;
     clientHandledCounter := clientHandledCounter m;
     clientStreamMsgReceived := clientStreamMsgReceived m;
     clientStreamMsgSent := clientStreamMsgSent m;
     clientHandledHistogramEnabled := clientHandledHistogramEnabled m;
     clientHandledHistogramOpts := clientHandledHistogramOpts m;
     clientHandledHistogram := clientHandledHistogram m;
     clientStreamRecvHistogramEnabled := clientStreamRecvHistogramEnabled m;
     clientStreamRecvHistogramOpts := clientStreamRecvHistogramOpts m;
     clientStreamRecvHistogram := clientStreamRecvHistogram m;
     clientStreamSendHistogramEnabled := clientStreamSendHistogramEnabled m;
     clientStreamSendHistogramOpts := clientStreamSendHistogramOpts m;
     clientStreamSendHistogram := x;
     clientMsgSizeReceivedHistogramEnabled := clientMsgSizeReceivedHistogramEnabled m;
     clientMsgSizeReceivedHistogramOpts := clientMsgSizeReceivedHistogramOpts m;
     clientMsgSizeReceivedHistogram := clientMsgSizeReceivedHistogram m;
     clientMsgSizeSentHistogramEnabled := clientMsgSizeSentHistogramEnabled m;
     clientMsgSizeSentHistogramOpts := clientMsgSizeSentHistogramOpts m;
     clientMsgSizeSentHistogram := clientMsgSizeSentHistogram m |}.

Definition set_clientMsgSizeReceivedHistogramEnabled (x : bool) (m : ClientMetrics) : ClientMetrics :=
  {| clientStartedCounter := clientStartedCounter m;
     clientStartedCounterOpts := clientStartedCounterOpts m;
     clientHandledCounter := clientHandledCounter m;
     clientStreamMsgReceived := clientStreamMsgReceived m;
     clientStreamMsgSent := clientStreamMsgSent m;
     clientHandledHistogramEnabled := clientHandledHistogramEnabled m;
     clientHandledHistogramOpts := clientHandledHistogramOpts m;
     clientHandledHistogram := clientHandledHistogram m;
     clientStreamRecvHistogramEnabled := clientStreamRecvHistogramEnabled m;
     clientStreamRecvHistogramOpts := clientStreamRecvHistogramOpts m;
     clientStreamRecvHistogram := clientStreamRecvHistogram m;
     clientStreamSendHistogramEnabled := clientStreamSendHistogramEnabled m;
     clientStreamSendHistogramOpts := clientStreamSendHistogramOpts m;
     clientStreamSendHistogram := clientStreamSendHistogram m;
     clientMsgSizeReceivedHistogramEnabled := x;
     clientMsgSizeReceivedHistogramOpts := clientMsgSizeReceivedHistogramOpts m;
     clientMsgSizeReceivedHistogram := clientMsgSizeReceivedHistogram m;
     clientMsgSizeSentHistogramEnabled := clientMsgSizeSentHistogramEnabled m;
     clientMsgSizeSentHistogramOpts := clientMsgSizeSentHistogramOpts m;
     clientMsgSizeSentHistogram := clientMsgSizeSentHistogram m |}.

Definition set_clientMsgSizeReceivedHistogramOpts (x : HistogramOpts) (m : ClientMetrics) : ClientMetrics :=
  {| clientStartedCounter := clientStartedCounter m;
     clientStartedCounterOpts := clientStartedCounterOpts m;
     clientHandledCounter := clientHandledCounter m;
     clientStreamMsgReceived := clientStreamMsgReceived m;
     clientStreamMsgSent := clientStreamMsgSent m;
     clientHandledHistogramEnabled := clientHandledHistogramEnabled m;
     clientHandledHistogramOpts := clientHandledHistogramOpts m;
     clientHandledHistogram := clientHandledHistogram m;
     clientStreamRecvHistogramEnabled := clientStreamRecvHistogramEnabled m;
     clientStreamRecvHistogramOpts := clientStreamRecvHistogramOpts m;
     clientStreamRecvHistogram := clientStreamRecvHistogram m;
     clientStreamSendHistogramEnabled := clientStreamSendHistogramEnabled m;
     clientStreamSendHistogramOpts := clientStreamSendHistogramOpts m;
     clientStreamSendHistogram := clientStreamSendHistogram m;
     clientMsgSizeReceivedHistogramEnabled := clientMsgSizeReceivedHistogramEnabled m;
     clientMsgSizeReceivedHistogramOpts := x;
     clientMsgSizeReceivedHistogram := clientMsgSizeReceivedHistogram m;
     clientMsgSizeSentHistogramEnabled := clientMsgSizeSentHistogramEnabled m;
     clientMsgSizeSentHistogramOpts := clientMsgSizeSentHistogramOpts m;
     clientMsgSizeSentHistogram := clientMsgSizeSentHistogram m |}.

Definition set_clientMsgSizeReceivedHistogram (x : option HistogramVec) (m : ClientMetrics) : ClientMetrics :=
  {| clientStartedCounter := clientStartedCounter m;
     clientStartedCounterOpts := clientStartedCounterOpts m;
     clientHandledCounter := clientHandledCounter m;
     clientStreamMsgReceived := clientStreamMsgReceived m;
     clientStreamMsgSent := clientStreamMsgSent m;
     clientHandledHistogramEnabled := clientHandledHistogramEnabled m;
     clientHandledHistogramOpts := clientHandledHistogramOpts m;
     clientHandledHistogram := clientHandledHistogram m;
     clientStreamRecvHistogramEnabled := clientStreamRecvHistogramEnabled m;
     clientStreamRecvHistogramOpts := clientStreamRecvHistogramOpts m;
     clientStreamRecvHistogram := clientStreamRecvHistogram m;
     clientStreamSendHistogramEnabled := clientStreamSendHistogramEnabled m;
     clientStreamSendHistogramOpts := clientStreamSendHistogramOpts m;
     clientStreamSendHistogram := clientStreamSendHistogram m;
     clientMsgSizeReceivedHistogramEnabled := clientMsgSizeReceivedHistogramEnabled m;
     clientMsgSizeReceivedHistogramOpts := clientMsgSizeReceivedHistogramOpts m;
     clientMsgSizeReceivedHistogram := x;
     clientMsgSizeSentHistogramEnabled := clientMsgSizeSentHistogramEnabled m;
     clientMsgSizeSentHistogramOpts := clientMsgSizeSentHistogramOpts m;
     clientMsgSizeSentHistogram := clientMsgSizeSentHistogram m |}.

Definition set_clientMsgSizeSentHistogramEnabled (x : bool) (m : ClientMetrics) : ClientMetrics :=
  {| clientStartedCounter := clientStartedCounter m;
     clientStartedCounterOpts := clientStartedCounterOpts m;
     clientHandledCounter := clientHandledCounter m;
     clientStreamMsgReceived := clientStreamMsgReceived m;
     clientStreamMsgSent := clientStreamMsgSent m;
     clientHandledHistogramEnabled := clientHandledHistogramEnabled m;
     clientHandledHistogramOpts := clientHandledHistogramOpts m;
     clientHandledHistogram := clientHandledHistogram m;
     clientStreamRecvHistogramEnabled := clientStreamRecvHistogramEnabled m;
     clientStreamRecvHistogramOpts := clientStreamRecvHistogramOpts m;
     clientStreamRecvHistogram := clientStreamRecvHistogram m;
     clientStreamSendHistogramEnabled := clientStreamSendHistogramEnabled m;
     clientStreamSendHistogramOpts := clientStreamSendHistogramOpts m;
     clientStreamSendHistogram := clientStreamSendHistogram m;
     clientMsgSizeReceivedHistogramEnabled := clientMsgSizeReceivedHistogramEnabled m;
     clientMsgSizeReceivedHistogramOpts := clientMsgSizeReceivedHistogramOpts m;
     clientMsgSizeReceivedHistogram := clientMsgSizeReceivedHistogram m;
     clientMsgSizeSentHistogramEnabled := x;
     clientMsgSizeSentHistogramOpts := clientMsgSizeSentHistogramOpts m;
     clientMsgSizeSentHistogram := clientMsgSizeSentHistogram m |}.

Definition set_clientMsgSizeSentHistogramOpts (x : HistogramOpts) (m : ClientMetrics) : ClientMetrics :=
  {| clientStartedCounter := clientStartedCounter m;
     clientStartedCounterOpts := clientStartedCounterOpts m;
     clientHandledCounter := clientHandledCounter m;
     clientStreamMsgReceived := clientStreamMsgReceived m;
     clientStreamMsgSent := clientStreamMsgSent m;
     clientHandledHistogramEnabled := clientHandledHistogramEnabled m;
     clientHandledHistogramOpts := clientHandledHistogramOpts m;
     clientHandledHistogram := clientHandledHistogram m;
     clientStreamRecvHistogramEnabled := clientStreamRecvHistogramEnabled m;
     clientStreamRecvHistogramOpts := clientStreamRecvHistogramOpts m;
     clientStreamRecvHistogram := clientStreamRecvHistogram m;
     clientStreamSendHistogramEnabled := clientStreamSendHistogramEnabled m;
     clientStreamSendHistogramOpts := clientStreamSendHistogramOpts m;
     clientStreamSendHistogram := clientStreamSendHistogram m;
     clientMsgSizeReceivedHistogramEnabled := clientMsgSizeReceivedHistogramEnabled m;
     clientMsgSizeReceivedHistogramOpts := clientMsgSizeReceivedHistogramOpts m;
     clientMsgSizeReceivedHistogram := clientMsgSizeReceivedHistogram m;
     clientMsgSizeSentHistogramEnabled := clientMsgSizeSentHistogramEnabled m;
     clientMsgSizeSentHistogramOpts := x;
     clientMsgSizeSentHistogram := clientMsgSizeSentHistogram m |}.

Definition set_clientMsgSizeSentHistogram (x : option HistogramVec) (m : ClientMetrics) : ClientMetrics :=
  {| clientStartedCounter := clientStartedCounter m;
     clientStartedCounterOpts := clientStartedCounterOpts m;
     clientHandledCounter := clientHandledCounter m;
     clientStreamMsgReceived := clientStreamMsgReceived m;
     clientStreamMsgSent := clientStreamMsgSent m;
     clientHandledHistogramEnabled := clientHandledHistogramEnabled m;
     clientHandledHistogramOpts := clientHandledHistogramOpts m;
     clientHandledHistogram := clientHandledHistogram m;
     clientStreamRecvHistogramEnabled := clientStreamRecvHistogramEnabled m;
     clientStreamRecvHistogramOpts := clientStreamRecvHistogramOpts m;
     clientStreamRecvHistogram := clientStreamRecvHistogram m;
     clientStreamSendHistogramEnabled := clientStreamSendHistogramEnabled m;
     clientStreamSendHistogramOpts := clientStreamSendHistogramOpts m;
     clientStreamSendHistogram := clientStreamSendHistogram m;
     clientMsgSizeReceivedHistogramEnabled := clientMsgSizeReceivedHistogramEnabled m;
     clientMsgSizeReceivedHistogramOpts := clientMsgSizeReceivedHistogramOpts m;
     clientMsgSizeReceivedHistogram := clientMsgSizeReceivedHistogram m;
     clientMsgSizeSentHistogramEnabled := clientMsgSizeSentHistogramEnabled m;
     clientMsgSizeSentHistogramOpts := clientMsgSizeSentHistogramOpts m;
     clientMsgSizeSentHistogram := x |}.

(** ** Worlds and call logs *)

(** The calls a piece of instrumented code makes, in the order it makes
    them: the reporter's methods, and the wrapped collaborators (handler,
    invoker, streamer, the inner stream's [SendMsg]/[RecvMsg]). *)
Inductive Event :=
  | EvNewReporter (rpcType : grpcType) (fullMethod : string)
  | EvSentMessage
  | EvReceivedMessage
  | EvHandled (code : Code)
  | EvSendMessageTimer
  | EvReceiveMessageTimer
  | EvObserveDuration
  | EvHandler
  | EvInvoker
  | EvStreamer
  | EvInnerSendMsg
  | EvInnerRecvMsg.

Global Instance Event_eq_dec : EqDecision Event.
Proof. solve_decision. Defined.

(** The registry [Mt] the code points to, and the log of calls so far. *)
Record World (Mt : Type) := { metrics : Mt; trace : list Event }.
Arguments metrics {Mt} _.
Arguments trace {Mt} _.

Definition emit {Mt} (e : Event) : M (World Mt) unit :=
  modify (λ w, {| metrics := metrics w; trace := trace w ++ [e] |}).

Definition modify_metrics {Mt} (f : Mt → Mt) : M (World Mt) unit :=
  modify (λ w, {| metrics := f (metrics w); trace := trace w |}).

Definition get_metrics {Mt} : M (World Mt) Mt :=
  w ← get; mret (metrics w).

(** A call to a wrapped collaborator: it is logged, and what it returns is
    given from outside. *)
Definition external {Mt A} (e : Event) (result : A) : M (World Mt) A :=
  emit e;; mret result.

(** [v.WithLabelValues(lvs...).Observe(d)] through a pointer that may be
    nil. *)
Definition observe (lvs : LabelValues) (v : option HistogramVec)
  : option (option HistogramVec) :=
  match v with
  | Some h => Some (Some (HistogramVec_Observe lvs h))
  | None => None
  end.

(** How often a log contains a call. *)
Definition calls (P : Event → bool) (t : list Event) : nat :=
  length (filter (λ e, P e = true) t).

Definition is_Handled (e : Event) : bool :=
  match e with EvHandled _ => true | _ => false end.

Definition is_NewReporter (e : Event) : bool :=
  match e with EvNewReporter _ _ => true | _ => false end.

Definition is_ObserveDuration (e : Event) : bool :=
  match e with EvObserveDuration => true | _ => false end.

(** ** Descriptors of calls *)

(** [grpc.StreamServerInfo]. *)
Record StreamServerInfo :=
  { ssi_FullMethod : string; IsClientStream : bool; IsServerStream : bool }.

(** [grpc.UnaryServerInfo]. *)
Record UnaryServerInfo := { usi_FullMethod : string }.

(** [grpc.StreamDesc]. *)
Record StreamDesc :=
  { StreamName : string; ClientStreams : bool; ServerStreams : bool }.

(** [grpc.MethodInfo]. *)
Record MethodInfo :=
  { mi_Name : string; mi_IsClientStream : bool; mi_IsServerStream : bool }.

(** [grpc.ServiceInfo]. *)
Record ServiceInfo := { Methods : list MethodInfo }.

Definition streamRpcType (info : StreamServerInfo) : grpcType :=
  if IsClientStream info && negb (IsServerStream info) then ClientStream
  else if negb (IsClientStream info) && IsServerStream info then ServerStream
  else BidiStream.

Definition clientStreamType (desc : StreamDesc) : grpcType :=
  if ClientStreams desc && negb (ServerStreams desc) then ClientStream
  else if negb (ClientStreams desc) && ServerStreams desc then ServerStream
  else BidiStream.

(** Modelled from the spec: [typeFromMethodInfo] is declared elsewhere in the
    package.  "Derived from the call descriptor's client/server
    streaming flags (both false -> Unary; client-only -> ClientStream;
    server-only -> ServerStream; both -> BidiStream)." *)
Definition typeFromMethodInfo (mInfo : MethodInfo) : grpcType :=
  match mi_IsClientStream mInfo, mi_IsServerStream mInfo with
  | false, false => Unary
  | true, false => ClientStream
  | false, true => ServerStream
  | true, true => BidiStream
  end.

(** ** Construction and histogram enablement *)

Definition NewServerMetrics : ServerMetrics :=
  {| serverStartedCounter :=
       NewCounterVec
         {| co_Name := "grpc_server_started_total";
            co_Help := "Total number of RPCs started on the server." |}
         ["grpc_type"; "grpc_service"; "grpc_method"];
     serverHandledCounter :=
       NewCounterVec
         {| co_Name := "grpc_server_handled_total";
            co_Help := "Total number of RPCs completed on the server, regardless of success or failure." |}
         ["grpc_type"; "grpc_service"; "grpc_method"; "grpc_code"];
     serverStreamMsgReceived :=
       NewCounterVec
         {| co_Name := "grpc_server_msg_received_total";
            co_Help := "Total number of RPC stream messages received on the server." |}
         ["grpc_type"; "grpc_service"; "grpc_method"];
     serverStreamMsgSent :=
       NewCounterVec
         {| co_Name := "grpc_server_msg_sent_total";
            co_Help := "Total number of gRPC stream messages sent by the server." |}
         ["grpc_type"; "grpc_service"; "grpc_method"];
     serverHandledHistogramEnabled := false;
     serverHandledHistogramOpts :=
       {| Name := "grpc_server_handling_seconds";
          Help := "Histogram of response latency (seconds) of gRPC that had been application-level handled by the server.";
          Buckets := DefBuckets |};
     serverHandledHistogram := None |}.

Definition EnableHandlingTimeHistogram (opts : list HistogramOption)
    (m : ServerMetrics) : ServerMetrics :=
  let m := set_serverHandledHistogramOpts
             (apply_options opts (serverHandledHistogramOpts m)) m in
  let m :=
    if negb (serverHandledHistogramEnabled m) then
      set_serverHandledHistogram
        (Some (NewHistogramVec (serverHandledHistogramOpts m)
                 ["grpc_type"; "grpc_service"; "grpc_method"])) m
    else m in
  set_serverHandledHistogramEnabled true m.

Definition EnableClientHandlingTimeHistogram (opts : list HistogramOption)
    (m : ClientMetrics) : ClientMetrics :=
  let m := set_clientHandledHistogramOpts
             (apply_options opts (clientHandledHistogramOpts m)) m in
  let m :=
    if negb (clientHandledHistogramEnabled m) then
      set_clientHandledHistogram
        (Some (NewHistogramVec (clientHandledHistogramOpts m)
                 ["grpc_type"; "grpc_service"; "grpc_method"])) m
    else m in
  set_clientHandledHistogramEnabled true m.

Definition EnableClientStreamReceiveTimeHistogram (opts : list HistogramOption)
    (m : ClientMetrics) : ClientMetrics :=
  let m := set_clientStreamRecvHistogramOpts
             (apply_options opts (clientStreamRecvHistogramOpts m)) m in
  let m :=
    if negb (clientStreamRecvHistogramEnabled m) then
      set_clientStreamRecvHistogram
        (Some (NewHistogramVec (clientStreamRecvHistogramOpts m)
                 ["grpc_type"; "grpc_service"; "grpc_method"])) m
    else m in
  set_clientStreamRecvHistogramEnabled true m.

Definition EnableClientStreamSendTimeHistogram (opts : list HistogramOption)
    (m : ClientMetrics) : ClientMetrics :=
  let m := set_clientStreamSendHistogramOpts
             (apply_options opts (clientStreamSendHistogramOpts m)) m in
  let m :=
    if negb (clientStreamSendHistogramEnabled m) then
      set_clientStreamSendHistogram
        (Some (NewHistogramVec (clientStreamSendHistogramOpts m)
                 ["grpc_type"; "grpc_service"; "grpc_method"])) m
    else m in
  set_clientStreamSendHistogramEnabled true m.

Definition EnableMsgSizeReceivedBytesHistogram (opts : list HistogramOption)
    (m : ClientMetrics) : ClientMetrics :=
  let m := set_clientMsgSizeReceivedHistogramOpts
             (apply_options opts (clientMsgSizeReceivedHistogramOpts m)) m in
  let m :=
    if negb (clientMsgSizeReceivedHistogramEnabled m) then
      set_clientMsgSizeReceivedHistogram
        (Some (NewHistogramVec (clientMsgSizeReceivedHistogramOpts m)
                 ["grpc_service"; "grpc_method"; "grpc_stats"])) m
    else m in
  set_clientMsgSizeReceivedHistogramEnabled true m.

Definition EnableMsgSizeSentBytesHistogram (opts : list HistogramOption)
    (m : ClientMetrics) : ClientMetrics :=
  let m := set_clientMsgSizeSentHistogramOpts
             (apply_options opts (clientMsgSizeSentHistogramOpts m)) m in
  let m :=
    if negb (clientMsgSizeSentHistogramEnabled m) then
      set_clientMsgSizeSentHistogram
        (Some (NewHistogramVec (clientMsgSizeSentHistogramOpts m)
                 ["grpc_service"; "grpc_method"; "grpc_stats"])) m
    else m in
  set_clientMsgSizeSentHistogramEnabled true m.

(** ** The collector contract *)

(** [if enabled { h.Describe(ch) }] and the same for [Collect]. *)
Definition when {W} (b : bool) (c : M W unit) : M W unit :=
  if b then c else mret tt.

Definition ServerMetrics_Describe (m : ServerMetrics) : Chan Desc :=
  CounterVec_Describe (serverStartedCounter m);;
  CounterVec_Describe (serverHandledCounter m);;
  CounterVec_Describe (serverStreamMsgReceived m);;
  CounterVec_Describe (serverStreamMsgSent m);;
  when (serverHandledHistogramEnabled m)
    (HistogramVec_Describe (serverHandledHistogram m)).

Definition ServerMetrics_Collect (m : ServerMetrics) : Chan Metric :=
  CounterVec_Collect (serverStartedCounter m);;
  CounterVec_Collect (serverHandledCounter m);;
  CounterVec_Collect (serverStreamMsgReceived m);;
  CounterVec_Collect (serverStreamMsgSent m);;
  when (serverHandledHistogramEnabled m)
    (HistogramVec_Collect (serverHandledHistogram m)).

Definition ClientMetrics_Describe (m : ClientMetrics) : Chan Desc :=
  CounterVec_Describe (clientStartedCounter m);;
  CounterVec_Describe (clientHandledCounter m);;
  CounterVec_Describe (clientStreamMsgReceived m);;
  CounterVec_Describe (clientStreamMsgSent m);;
  when (clientHandledHistogramEnabled m)
    (HistogramVec_Describe (clientHandledHistogram m));;
  when (clientStreamRecvHistogramEnabled m)
    (HistogramVec_Describe (clientStreamRecvHistogram m));;
  when (clientStreamSendHistogramEnabled m)
    (HistogramVec_Describe (clientStreamSendHistogram m));;
  when (clientMsgSizeReceivedHistogramEnabled m)
    (HistogramVec_Describe (clientMsgSizeReceivedHistogram m));;
  when (clientMsgSizeSentHistogramEnabled m)
    (HistogramVec_Describe (clientMsgSizeSentHistogram m)).

Definition ClientMetrics_Collect (m : ClientMetrics) : Chan Metric :=
  CounterVec_Collect (clientStartedCounter m);;
  CounterVec_Collect (clientHandledCounter m);;
  CounterVec_Collect (clientStreamMsgReceived m);;
  CounterVec_Collect (clientStreamMsgSent m);;
  when (clientHandledHistogramEnabled m)
    (HistogramVec_Collect (clientHandledHistogram m));;
  when (clientStreamRecvHistogramEnabled m)
    (HistogramVec_Collect (clientStreamRecvHistogram m));;
  when (clientStreamSendHistogramEnabled m)
    (HistogramVec_Collect (clientStreamSendHistogram m));;
  when (clientMsgSizeReceivedHistogramEnabled m)
    (HistogramVec_Collect (clientMsgSizeReceivedHistogram m));;
  when (clientMsgSizeSentHistogramEnabled m)
    (HistogramVec_Collect (clientMsgSizeSentHistogram m)).

(** ** A concrete choice of the parameters

    The interceptors below take the string of a call shape, the split of
    a full method name, the counter options and the default message-size
    buckets as parameters.  This is one choice of them, for running the
    model on concrete calls. *)
Definition example_grpcType_string (t : grpcType) : string :=
  match t with
  | Unary => "unary"
  | ClientStream => "client_stream"
  | ServerStream => "server_stream"
  | BidiStream => "bidi_stream"
  end.

(** The part of a string before its first slash, and the part after. *)
Fixpoint split_at_slash (s : string) : option (string * string) :=
  match s with
  | EmptyString => None
  | String c s' =>
      if Ascii.eqb c (Ascii.ascii_of_nat 47) then Some (EmptyString, s')
      else match split_at_slash s' with
           | Some (a, b) => Some (String c a, b)
           | None => None
           end
  end.

(** "/pkg.Service/Method" gives ("pkg.Service", "Method"). *)
Definition example_splitMethodName (fullMethod : string) : string * string :=
  let trimmed :=
    match fullMethod with
    | String c s' => if Ascii.eqb c (Ascii.ascii_of_nat 47) then s' else fullMethod
    | EmptyString => fullMethod
    end in
  match split_at_slash trimmed with
  | Some p => p
  | None => ("unknown", "unknown")
  end.

Definition example_CounterOption : Type := CounterOpts → CounterOpts.

Definition example_counterOptions_apply (opts : list example_CounterOption)
    (o : CounterOpts) : CounterOpts :=
  foldl (λ acc f, f acc) o opts.

Definition example_defMsgBytesBuckets : list float64 :=
  [Qmake 64 1; Qmake 1024 1; Qmake 65536 1].

(** ** Reporters, interceptors and stream decorators *)

Section Instrumentation.

(** Declared elsewhere in the package and taken as parameters: the
    string of a [grpcType] (label "grpc_type"), the split of a full method
    name into service and method, the client counter options with their
    [apply], and the default buckets of the message-size histograms. *)
Variable grpcType_string : grpcType → string.
Variable splitMethodName : string → string * string.
Variable CounterOption : Type.
Variable counterOptions_apply : list CounterOption → CounterOpts → CounterOpts.
Variable defMsgBytesBuckets : list float64.

Definition NewClientMetrics (counterOpts : list CounterOption) : ClientMetrics :=
  let opts := counterOpts in
  {| clientStartedCounter :=
       NewCounterVec
         (counterOptions_apply opts
            {| co_Name := "grpc_client_started_total";
               co_Help := "Total number of RPCs started on the client." |})
         ["grpc_type"; "grpc_service"; "grpc_method"];
     clientStartedCounterOpts := {| co_Name := ""; co_Help := "" |};
     clientHandledCounter :=
       NewCounterVec
         (counterOptions_apply opts
            {| co_Name := "grpc_client_handled_total";
               co_Help := "Total number of RPCs completed by the client, regardless of success or failure." |})
         ["grpc_type"; "grpc_service"; "grpc_method"; "grpc_code"];
     clientStreamMsgReceived :=
       NewCounterVec
         (counterOptions_apply opts
            {| co_Name := "grpc_client_msg_received_total";
               co_Help := "Total number of RPC stream messages received by the client." |})
         ["grpc_type"; "grpc_service"; "grpc_method"];
     clientStreamMsgSent :=
       NewCounterVec
         (counterOptions_apply opts
            {| co_Name := "grpc_client_msg_sent_total";
               co_Help := "Total number of gRPC stream messages sent by the client." |})
         ["grpc_type"; "grpc_service"; "grpc_method"];
     clientHandledHistogramEnabled := false;
     clientHandledHistogramOpts :=
       {| Name := "grpc_client_handling_seconds";
          Help := "Histogram of response latency (seconds) of the gRPC until it is finished by the application.";
          Buckets := DefBuckets |};
     clientHandledHistogram := None;
     clientStreamRecvHistogramEnabled := false;
     clientStreamRecvHistogramOpts :=
       {| Name := "grpc_client_msg_recv_handling_seconds";
          Help := "Histogram of response latency (seconds) of the gRPC single message receive.";
          Buckets := DefBuckets |};
     clientStreamRecvHistogram := None;
     clientStreamSendHistogramEnabled := false;
     clientStreamSendHistogramOpts :=
       {| Name := "grpc_client_msg_send_handling_seconds";
          Help := "Histogram of response latency (seconds) of the gRPC single message send.";
          Buckets := DefBuckets |};
     clientStreamSendHistogram := None;
     clientMsgSizeReceivedHistogramEnabled := false;
     clientMsgSizeReceivedHistogramOpts :=
       {| Name := "grpc_client_msg_size_received_bytes";
          Help := "Histogram of message sizes received by the client.";
          Buckets := defMsgBytesBuckets |};
     clientMsgSizeReceivedHistogram := None;
     clientMsgSizeSentHistogramEnabled := false;
     clientMsgSizeSentHistogramOpts :=
       {| Name := "grpc_client_msg_size_sent_bytes";
          Help := "Histogram of message sizes sent by the client.";
          Buckets := defMsgBytesBuckets |};
     clientMsgSizeSentHistogram := None |}.

(** A nil pointer dereference panics. *)
Definition deref {W A} (p : option A) : M W A :=
  match p with
  | Some a => mret a
  | None => panic
  end.

(** *** The server reporter *)

(** The reporter of one call on the server: its label tuple.  (The start
    time is real time and is not represented; the registry it points to is
    the one of the world.)  Every method of a reporter enters its own call
    in the log of the world and then acts on the registry. *)
Record serverReporter :=
  { sr_rpcType : grpcType; sr_serviceName : string; sr_methodName : string }.

Definition serverReporter_labels (r : serverReporter) : LabelValues :=
  [grpcType_string (sr_rpcType r); sr_serviceName r; sr_methodName r].

(** Modelled from the spec: [newServerReporter] is declared elsewhere in the
    package.  "Created (on call entry): increments the started
    counter for the call's label tuple; starts an internal timer if a
    handling-time histogram is enabled." *)
Definition newServerReporter (rpcType : grpcType) (fullMethod : string)
  : M (World ServerMetrics) serverReporter :=
  emit (EvNewReporter rpcType fullMethod);;
  let '(serviceName, methodName) := splitMethodName fullMethod in
  let r := {| sr_rpcType := rpcType; sr_serviceName := serviceName;
              sr_methodName := methodName |} in
  modify_metrics (λ m,
    set_serverStartedCounter
      (CounterVec_Inc (serverReporter_labels r) (serverStartedCounter m)) m);;
  mret r.

(** Modelled from the spec: [serverReporter.ReceivedMessage] is declared
    elsewhere in the package.  "received_message() increments messages
    received". *)
Definition serverReporter_ReceivedMessage (r : serverReporter)
  : M (World ServerMetrics) unit :=
  emit EvReceivedMessage;;
  modify_metrics (λ m,
    set_serverStreamMsgReceived
      (CounterVec_Inc (serverReporter_labels r) (serverStreamMsgReceived m)) m).

(** Modelled from the spec: [serverReporter.SentMessage] is declared
    elsewhere in the package.  "sent_message() increments messages
    sent". *)
Definition serverReporter_SentMessage (r : serverReporter)
  : M (World ServerMetrics) unit :=
  emit EvSentMessage;;
  modify_metrics (λ m,
    set_serverStreamMsgSent
      (CounterVec_Inc (serverReporter_labels r) (serverStreamMsgSent m)) m).

(** Modelled from the spec: [serverReporter.Handled] is declared elsewhere
    in the package.  "Handled: given a resolved status code, increments
    the handled counter for (shape, service, method, code) and, if the
    handling-time histogram is enabled, observes elapsed time since
    Created." *)
Definition serverReporter_Handled (r : serverReporter) (code : Code)
  : M (World ServerMetrics) unit :=
  emit (EvHandled code);;
  modify_metrics (λ m,
    set_serverHandledCounter
      (CounterVec_Inc (serverReporter_labels r ++ [Code_String code])
         (serverHandledCounter m)) m);;
  m ← get_metrics;
  when (serverHandledHistogramEnabled m)
    (h ← deref (observe (serverReporter_labels r) (serverHandledHistogram m));
     modify_metrics (set_serverHandledHistogram h)).

(** *** The server interceptors *)

Definition UnaryServerInterceptor {Req Resp : Type}
    (req : Req) (info : UnaryServerInfo)
    (handler : Req → Resp * option error)
  : M (World ServerMetrics) (Resp * option error) :=
  monitor ← newServerReporter Unary (usi_FullMethod info);
  serverReporter_ReceivedMessage monitor;;
  '(resp, err) ← external EvHandler (handler req);
  serverReporter_Handled monitor (grpc_Code err);;
  when (bool_decide (err = None)) (serverReporter_SentMessage monitor);;
  mret (resp, err).

(** [monitoredServerStream]: the wrapped [grpc.ServerStream] and the
    reporter of the call. *)
Record monitoredServerStream (SS : Type) :=
  { mss_ServerStream : SS; mss_monitor : serverReporter }.
Arguments mss_ServerStream {SS} _.
Arguments mss_monitor {SS} _.

(** In both decorators, [inner] is what the wrapped stream's method
    returns to this call. *)
Definition monitoredServerStream_SendMsg {SS} (s : monitoredServerStream SS)
    (inner : option error) : M (World ServerMetrics) (option error) :=
  err ← external EvInnerSendMsg inner;
  when (bool_decide (err = None)) (serverReporter_SentMessage (mss_monitor s));;
  mret err.

Definition monitoredServerStream_RecvMsg {SS} (s : monitoredServerStream SS)
    (inner : option error) : M (World ServerMetrics) (option error) :=
  err ← external EvInnerRecvMsg inner;
  when (bool_decide (err = None))
    (serverReporter_ReceivedMessage (mss_monitor s));;
  mret err.

(** One use of a stream by its owner: a send or a receive, with the
    answer of the wrapped stream. *)
Inductive StreamOp :=
  | OpSendMsg (inner : option error)
  | OpRecvMsg (inner : option error).

(** What a streaming handler does in one call: the operations it performs
    on the stream it is handed, in order, and the error it returns. *)
Record StreamHandler :=
  { sh_ops : list StreamOp; sh_err : option error }.

Definition monitoredServerStream_op {SS} (s : monitoredServerStream SS)
    (op : StreamOp) : M (World ServerMetrics) unit :=
  match op with
  | OpSendMsg inner => monitoredServerStream_SendMsg s inner;; mret tt
  | OpRecvMsg inner => monitoredServerStream_RecvMsg s inner;; mret tt
  end.

Definition monitoredServerStream_run {SS} (s : monitoredServerStream SS)
    (ops : list StreamOp) : M (World ServerMetrics) unit :=
  for_each ops (monitoredServerStream_op s).

(** [handler(srv, stream)]. *)
Definition call_StreamHandler {SS} (handler : StreamHandler)
    (stream : monitoredServerStream SS)
  : M (World ServerMetrics) (option error) :=
  emit EvHandler;;
  monitoredServerStream_run stream (sh_ops handler);;
  mret (sh_err handler).

Definition StreamServerInterceptor {SS : Type} (ss : SS)
    (info : StreamServerInfo) (handler : StreamHandler)
  : M (World ServerMetrics) (option error) :=
  monitor ← newServerReporter (streamRpcType info) (ssi_FullMethod info);
  err ← call_StreamHandler handler
          {| mss_ServerStream := ss; mss_monitor := monitor |};
  serverReporter_Handled monitor (grpc_Code err);;
  mret err.

(** *** Pre-registration *)

Definition preRegisterMethod (serviceName : string) (mInfo : MethodInfo)
  : M ServerMetrics unit :=
  let methodName := mi_Name mInfo in
  let methodType := grpcType_string (typeFromMethodInfo mInfo) in
  modify (λ metrics,
    set_serverStartedCounter
      (CounterVec_GetMetricWithLabelValues
         [methodType; serviceName; methodName]
         (serverStartedCounter metrics)) metrics);;
  modify (λ metrics,
    set_serverStreamMsgReceived
      (CounterVec_GetMetricWithLabelValues
         [methodType; serviceName; methodName]
         (serverStreamMsgReceived metrics)) metrics);;
  modify (λ metrics,
    set_serverStreamMsgSent
      (CounterVec_GetMetricWithLabelValues
         [methodType; serviceName; methodName]
         (serverStreamMsgSent metrics)) metrics);;
  metrics ← get;
  when (serverHandledHistogramEnabled metrics)
    (h ← deref (serverHandledHistogram metrics);
     modify (set_serverHandledHistogram
               (Some (HistogramVec_GetMetricWithLabelValues
                        [methodType; serviceName; methodName] h))));;
  for_each allCodes (λ code,
    modify (λ metrics,
      set_serverHandledCounter
        (CounterVec_GetMetricWithLabelValues
           [methodType; serviceName; methodName; Code_String code]
           (serverHandledCounter metrics)) metrics)).

(** [serviceInfo] is the map returned by [server.GetServiceInfo()], as
    the list of its entries in the order the [range] visits them. *)
Definition InitializeMetrics (serviceInfo : list (string * ServiceInfo))
  : M ServerMetrics unit :=
  for_each serviceInfo (λ '(serviceName, info),
    for_each (Methods info) (λ mInfo,
      preRegisterMethod serviceName mInfo)).

(** *** The client reporter *)

Record clientReporter :=
  { cr_rpcType : grpcType; cr_serviceName : string; cr_methodName : string }.

Definition clientReporter_labels (r : clientReporter) : LabelValues :=
  [grpcType_string (cr_rpcType r); cr_serviceName r; cr_methodName r].

(** Modelled from the spec: [newClientReporter] is declared elsewhere in the
    package.  "Created (on call entry): increments the started
    counter for the call's label tuple; starts an internal timer if a
    handling-time histogram is enabled." *)
Definition newClientReporter (rpcType : grpcType) (fullMethod : string)
  : M (World ClientMetrics) clientReporter :=
  emit (EvNewReporter rpcType fullMethod);;
  let '(serviceName, methodName) := splitMethodName fullMethod in
  let r := {| cr_rpcType := rpcType; cr_serviceName := serviceName;
              cr_methodName := methodName |} in
  modify_metrics (λ m,
    set_clientStartedCounter
      (CounterVec_Inc (clientReporter_labels r) (clientStartedCounter m)) m);;
  mret r.

(** Modelled from the spec: [clientReporter.ReceivedMessage] is declared
    elsewhere in the package.  "received_message() increments messages
    received". *)
Definition clientReporter_ReceivedMessage (r : clientReporter)
  : M (World ClientMetrics) unit :=
  emit EvReceivedMessage;;
  modify_metrics (λ m,
    set_clientStreamMsgReceived
      (CounterVec_Inc (clientReporter_labels r) (clientStreamMsgReceived m)) m).

(** Modelled from the spec: [clientReporter.SentMessage] is declared
    elsewhere in the package.  "sent_message() increments messages
    sent". *)
Definition clientReporter_SentMessage (r : clientReporter)
  : M (World ClientMetrics) unit :=
  emit EvSentMessage;;
  modify_metrics (λ m,
    set_clientStreamMsgSent
      (CounterVec_Inc (clientReporter_labels r) (clientStreamMsgSent m)) m).

(** Modelled from the spec: [clientReporter.Handled] is declared elsewhere
    in the package.  "Handled: given a resolved status code, increments
    the handled counter for (shape, service, method, code) and, if the
    handling-time histogram is enabled, observes elapsed time since
    Created." *)
Definition clientReporter_Handled (r : clientReporter) (code : Code)
  : M (World ClientMetrics) unit :=
  emit (EvHandled code);;
  modify_metrics (λ m,
    set_clientHandledCounter
      (CounterVec_Inc (clientReporter_labels r ++ [Code_String code])
         (clientHandledCounter m)) m);;
  m ← get_metrics;
  when (clientHandledHistogramEnabled m)
    (h ← deref (observe (clientReporter_labels r) (clientHandledHistogram m));
     modify_metrics (set_clientHandledHistogram h)).

(** A per-message timer: bound to a series of the send or of the receive
    histogram, or doing nothing. *)
Inductive timer :=
  | emptyTimer
  | sendTimer (lvs : LabelValues)
  | recvTimer (lvs : LabelValues).

(** Modelled from the spec: [clientReporter.SendMessageTimer] and
    [ReceiveMessageTimer] are declared elsewhere in the package.  "For
    client-role reporters these may additionally record per-message
    send/receive latency if the corresponding optional histograms are
    enabled". *)
Definition clientReporter_SendMessageTimer (r : clientReporter)
  : M (World ClientMetrics) timer :=
  emit EvSendMessageTimer;;
  m ← get_metrics;
  if clientStreamSendHistogramEnabled m
  then mret (sendTimer (clientReporter_labels r))
  else mret emptyTimer.

Definition clientReporter_ReceiveMessageTimer (r : clientReporter)
  : M (World ClientMetrics) timer :=
  emit EvReceiveMessageTimer;;
  m ← get_metrics;
  if clientStreamRecvHistogramEnabled m
  then mret (recvTimer (clientReporter_labels r))
  else mret emptyTimer.

(** Modelled from the spec: [timer.ObserveDuration] is declared elsewhere
    in the package.  "the returned timer must be stopped and its elapsed
    duration observed" in the histogram it was made for. *)
Definition timer_ObserveDuration (t : timer) : M (World ClientMetrics) unit :=
  emit EvObserveDuration;;
  match t with
  | emptyTimer => mret tt
  | sendTimer lvs =>
      m ← get_metrics;
      h ← deref (observe lvs (clientStreamSendHistogram m));
      modify_metrics (set_clientStreamSendHistogram h)
  | recvTimer lvs =>
      m ← get_metrics;
      h ← deref (observe lvs (clientStreamRecvHistogram m));
      modify_metrics (set_clientStreamRecvHistogram h)
  end.

(** *** The client interceptors *)

(** [invoker] stands for the outcome of
    [invoker(ctx, method, req, reply, cc, opts...)]. *)
Definition UnaryClientInterceptor {Req : Type} (method : string) (req : Req)
    (invoker : string → Req → option error)
  : M (World ClientMetrics) (option error) :=
  monitor ← newClientReporter Unary method;
  clientReporter_SentMessage monitor;;
  err ← external EvInvoker (invoker method req);
  when (bool_decide (err = None)) (clientReporter_ReceivedMessage monitor);;
  let '(st, _) := status_FromError err in
  clientReporter_Handled monitor (Status_Code st);;
  mret err.

(** [monitoredClientStream]: the wrapped [grpc.ClientStream] and the
    reporter of the call. *)
Record monitoredClientStream (CS : Type) :=
  { mcs_ClientStream : CS; mcs_monitor : clientReporter }.
Arguments mcs_ClientStream {CS} _.
Arguments mcs_monitor {CS} _.

(** [streamer] stands for the outcome of
    [streamer(ctx, desc, cc, method, opts...)]; the result [(nil, err)] is
    [(None, err)]. *)
Definition StreamClientInterceptor {CS : Type} (desc : StreamDesc)
    (method : string) (streamer : StreamDesc → string → CS * option error)
  : M (World ClientMetrics) (option (monitoredClientStream CS) * option error) :=
  monitor ← newClientReporter (clientStreamType desc) method;
  '(clientStream, err) ← external EvStreamer (streamer desc method);
  if bool_decide (err ≠ None) then
    let '(st, _) := status_FromError err in
    clientReporter_Handled monitor (Status_Code st);;
    mret (None, err)
  else
    mret (Some {| mcs_ClientStream := clientStream; mcs_monitor := monitor |},
          None).

Definition monitoredClientStream_SendMsg {CS} (s : monitoredClientStream CS)
    (inner : option error) : M (World ClientMetrics) (option error) :=
  timer ← clientReporter_SendMessageTimer (mcs_monitor s);
  err ← external EvInnerSendMsg inner;
  timer_ObserveDuration timer;;
  when (bool_decide (err = None)) (clientReporter_SentMessage (mcs_monitor s));;
  mret err.

Definition monitoredClientStream_RecvMsg {CS} (s : monitoredClientStream CS)
    (inner : option error) : M (World ClientMetrics) (option error) :=
  timer ← clientReporter_ReceiveMessageTimer (mcs_monitor s);
  err ← external EvInnerRecvMsg inner;
  timer_ObserveDuration timer;;
  (if bool_decide (err = None) then
     clientReporter_ReceivedMessage (mcs_monitor s)
   else if bool_decide (err = Some io_EOF) then
     clientReporter_Handled (mcs_monitor s) OK
   else
     let '(st, _) := status_FromError err in
     clientReporter_Handled (mcs_monitor s) (Status_Code st));;
  mret err.

(** The life of a decorated client stream: the operations its owner
    performs on it, in order. *)
Definition monitoredClientStream_op {CS} (s : monitoredClientStream CS)
    (op : StreamOp) : M (World ClientMetrics) unit :=
  match op with
  | OpSendMsg inner => monitoredClientStream_SendMsg s inner;; mret tt
  | OpRecvMsg inner => monitoredClientStream_RecvMsg s inner;; mret tt
  end.

Definition monitoredClientStream_run {CS} (s : monitoredClientStream CS)
    (ops : list StreamOp) : M (World ClientMetrics) unit :=
  for_each ops (monitoredClientStream_op s).

(** ** Notions used in the statements *)

(** The label values of a call of shape [rpcType] on [fullMethod]. *)
Definition call_labels (rpcType : grpcType) (fullMethod : string) : LabelValues :=
  [grpcType_string rpcType; (splitMethodName fullMethod).1;
   (splitMethodName fullMethod).2].

(** A histogram of the registry is usable: it is not both enabled and nil. *)
Definition histogram_ok (enabled : bool) (h : option HistogramVec) : bool :=
  match enabled, h with
  | true, None => false
  | _, _ => true
  end.

Definition ServerMetrics_wf (m : ServerMetrics) : Prop :=
  histogram_ok (serverHandledHistogramEnabled m) (serverHandledHistogram m) = true.

Definition ClientMetrics_wf (m : ClientMetrics) : Prop :=
  histogram_ok (clientHandledHistogramEnabled m) (clientHandledHistogram m)
  && histogram_ok (clientStreamRecvHistogramEnabled m) (clientStreamRecvHistogram m)
  && histogram_ok (clientStreamSendHistogramEnabled m) (clientStreamSendHistogram m)
  && histogram_ok (clientMsgSizeReceivedHistogramEnabled m)
       (clientMsgSizeReceivedHistogram m)
  && histogram_ok (clientMsgSizeSentHistogramEnabled m)
       (clientMsgSizeSentHistogram m) = true.

(** The inclusion rule of the collector contract in the specification's
    words: every mandatory counter, and every enabled histogram. *)
Inductive Family :=
  | CounterFamily (v : CounterVec)
  | HistogramFamily (h : HistogramVec).

Definition Family_desc (f : Family) : Desc :=
  match f with
  | CounterFamily v => cv_desc v
  | HistogramFamily h => hv_desc h
  end.

Definition Family_metrics (f : Family) : list Metric :=
  match f with
  | CounterFamily v => series_metrics (cv_desc v) (cv_series v)
  | HistogramFamily h => series_metrics (hv_desc h) (hv_series h)
  end.

Definition enabled_family (enabled : bool) (h : option HistogramVec)
  : list Family :=
  match enabled, h with
  | true, Some v => [HistogramFamily v]
  | _, _ => []
  end.

Definition ServerMetrics_families (m : ServerMetrics) : list Family :=
  [ CounterFamily (serverStartedCounter m);
    CounterFamily (serverHandledCounter m);
    CounterFamily (serverStreamMsgReceived m);
    CounterFamily (serverStreamMsgSent m) ]
  ++ enabled_family (serverHandledHistogramEnabled m) (serverHandledHistogram m).

Definition ClientMetrics_families (m : ClientMetrics) : list Family :=
  [ CounterFamily (clientStartedCounter m);
    CounterFamily (clientHandledCounter m);
    CounterFamily (clientStreamMsgReceived m);
    CounterFamily (clientStreamMsgSent m) ]
  ++ enabled_family (clientHandledHistogramEnabled m) (clientHandledHistogram m)
  ++ enabled_family (clientStreamRecvHistogramEnabled m)
       (clientStreamRecvHistogram m)
  ++ enabled_family (clientStreamSendHistogramEnabled m)
       (clientStreamSendHistogram m)
  ++ enabled_family (clientMsgSizeReceivedHistogramEnabled m)
       (clientMsgSizeReceivedHistogram m)
  ++ enabled_family (clientMsgSizeSentHistogramEnabled m)
       (clientMsgSizeSentHistogram m).

(** Number of enabled histograms of a registry. *)
Definition ServerMetrics_enabled (m : ServerMetrics) : nat :=
  Nat.b2n (serverHandledHistogramEnabled m).

Definition ClientMetrics_enabled (m : ClientMetrics) : nat :=
  Nat.b2n (clientHandledHistogramEnabled m)
  + Nat.b2n (clientStreamRecvHistogramEnabled m)
  + Nat.b2n (clientStreamSendHistogramEnabled m)
  + Nat.b2n (clientMsgSizeReceivedHistogramEnabled m)
  + Nat.b2n (clientMsgSizeSentHistogramEnabled m).

(** What enabling a histogram does, stated once for the six operations:
    [enabled], [options] and [histogram] read the three fields of the
    histogram in the registry, [labelNames] are its label names. *)
Definition Enable_contract {Mt : Type}
    (enabled : Mt → bool) (options : Mt → HistogramOpts)
    (histogram : Mt → option HistogramVec) (labelNames : list string)
    (enable : list HistogramOption → Mt → Mt) : Prop :=
  ∀ (opts opts' : list HistogramOption) (m : Mt),
    enabled (enable opts m) = true
    ∧ options (enable opts m) = apply_options opts (options m)
    ∧ histogram (enable opts m) =
        (if enabled m then histogram m
         else Some (NewHistogramVec (apply_options opts (options m)) labelNames))
    ∧ histogram (enable opts' (enable opts m)) = histogram (enable opts m)
    ∧ enable [] (enable opts m) = enable opts m.

(** Successful sends and receives of a run, and all of them. *)
Definition is_send (op : StreamOp) : bool :=
  match op with OpSendMsg _ => true | OpRecvMsg _ => false end.

Definition is_recv (op : StreamOp) : bool :=
  match op with OpSendMsg _ => false | OpRecvMsg _ => true end.

Definition op_ok (op : StreamOp) : bool :=
  match op with
  | OpSendMsg None | OpRecvMsg None => true
  | _ => false
  end.

Definition count_ops (P : StreamOp → bool) (ops : list StreamOp) : nat :=
  length (filter (λ op, P op = true) ops).

Definition sends_ok : list StreamOp → nat :=
  count_ops (λ op, is_send op && op_ok op).
Definition recvs_ok : list StreamOp → nat :=
  count_ops (λ op, is_recv op && op_ok op).
Definition sends : list StreamOp → nat := count_ops is_send.
Definition recvs : list StreamOp → nat := count_ops is_recv.
Definition recvs_failed : list StreamOp → nat :=
  count_ops (λ op, is_recv op && negb (op_ok op)).

(** [n] more for the series [lvs], nothing for any other. *)
Definition plus_at (lvs : LabelValues) (n : nat) (lvs' : LabelValues) : nat :=
  if decide (lvs' = lvs) then n else 0.

(** The calls a decorated stream makes for one operation of its owner. *)
Definition server_op_events (op : StreamOp) : list Event :=
  match op with
  | OpSendMsg inner =>
      EvInnerSendMsg :: (if inner is None then [EvSentMessage] else [])
  | OpRecvMsg inner =>
      EvInnerRecvMsg :: (if inner is None then [EvReceivedMessage] else [])
  end.

Definition client_op_events (op : StreamOp) : list Event :=
  match op with
  | OpSendMsg inner =>
      [EvSendMessageTimer; EvInnerSendMsg; EvObserveDuration]
      ++ (if inner is None then [EvSentMessage] else [])
  | OpRecvMsg inner =>
      [EvReceiveMessageTimer; EvInnerRecvMsg; EvObserveDuration]
      ++ [match inner with
          | None => EvReceivedMessage
          | Some io_EOF => EvHandled OK
          | Some e => EvHandled (Status_Code (status_FromError (Some e)).1)
          end]
  end.

(** The counter [v'] is [v] with [n] more on the series [lvs]. *)
Definition counter_plus (v v' : CounterVec) (lvs : LabelValues) (n : nat)
  : Prop :=
  ∀ lvs', counter_value v' lvs' = counter_value v lvs' + plus_at lvs n lvs'.

(** The same for the number of observations of a histogram that may be
    nil. *)
Definition histogram_plus (h h' : option HistogramVec) (lvs : LabelValues)
    (n : nat) : Prop :=
  ∀ lvs', histogram_count h' lvs' = histogram_count h lvs' + plus_at lvs n lvs'.

(** The histogram flags of two client registries agree. *)
Definition same_flags (m m' : ClientMetrics) : Prop :=
  clientHandledHistogramEnabled m' = clientHandledHistogramEnabled m
  ∧ clientStreamRecvHistogramEnabled m' = clientStreamRecvHistogramEnabled m
  ∧ clientStreamSendHistogramEnabled m' = clientStreamSendHistogramEnabled m
  ∧ clientMsgSizeReceivedHistogramEnabled m'
    = clientMsgSizeReceivedHistogramEnabled m
  ∧ clientMsgSizeSentHistogramEnabled m' = clientMsgSizeSentHistogramEnabled m.

(** What [StreamClientInterceptor] returns for an outcome of the streamer. *)
Definition StreamClientInterceptor_result {CS : Type} (monitor : clientReporter)
    (outcome : CS * option error)
  : option (monitoredClientStream CS) * option error :=
  match outcome.2 with
  | None => (Some {| mcs_ClientStream := outcome.1; mcs_monitor := monitor |},
             None)
  | Some e => (None, Some e)
  end.

(** The reporter made for a call. *)
Definition call_reporter (rpcType : grpcType) (fullMethod : string)
  : clientReporter :=
  {| cr_rpcType := rpcType;
     cr_serviceName := (splitMethodName fullMethod).1;
     cr_methodName := (splitMethodName fullMethod).2 |}.

(** The label values under which a method is pre-registered. *)
Definition method_labels (serviceName : string) (mInfo : MethodInfo)
  : LabelValues :=
  [grpcType_string (typeFromMethodInfo mInfo); serviceName; mi_Name mInfo].

(** The series [lvs] of a vector exists. *)
Definition counter_has (v : CounterVec) (lvs : LabelValues) : Prop :=
  is_Some (cv_series v !! lvs).

Definition histogram_has (v : option HistogramVec) (lvs : LabelValues) : Prop :=
  ∃ h, v = Some h ∧ is_Some (hv_series h !! lvs).

(** Every series of a method exists in the registry: started, received,
    sent, the handling-time histogram when it is enabled, and handled for
    every status code. *)
Definition registered (m : ServerMetrics) (serviceName : string)
    (mInfo : MethodInfo) : Prop :=
  let lvs := method_labels serviceName mInfo in
  counter_has (serverStartedCounter m) lvs
  ∧ counter_has (serverStreamMsgReceived m) lvs
  ∧ counter_has (serverStreamMsgSent m) lvs
  ∧ (serverHandledHistogramEnabled m = true →
     histogram_has (serverHandledHistogram m) lvs)
  ∧ ∀ code : Code,
      counter_has (serverHandledCounter m) (lvs ++ [Code_String code]).

(** No series of [v] is lost or changed in [v']: the descriptor is the
    same, every series of [v] exists in [v'], and every label tuple has
    the same value in both (zero for a series that does not exist). *)
Definition counter_extends (v v' : CounterVec) : Prop :=
  cv_desc v' = cv_desc v
  ∧ (∀ lvs, counter_has v lvs → counter_has v' lvs)
  ∧ ∀ lvs, counter_value v' lvs = counter_value v lvs.

Definition histogram_extends (h h' : option HistogramVec) : Prop :=
  match h, h' with
  | Some v, Some v' =>
      hv_desc v' = hv_desc v ∧ hv_buckets v' = hv_buckets v
      ∧ (∀ lvs, is_Some (hv_series v !! lvs) → is_Some (hv_series v' !! lvs))
      ∧ ∀ lvs, series_value (hv_series v') lvs = series_value (hv_series v) lvs
  | None, None => True
  | _, _ => False
  end.


(** [m'] is [m] with more series, none of them counted up. *)
Definition ServerMetrics_extends (m m' : ServerMetrics) : Prop :=
  counter_extends (serverStartedCounter m) (serverStartedCounter m')
  ∧ counter_extends (serverHandledCounter m) (serverHandledCounter m')
  ∧ counter_extends (serverStreamMsgReceived m) (serverStreamMsgReceived m')
  ∧ counter_extends (serverStreamMsgSent m) (serverStreamMsgSent m')
  ∧ serverHandledHistogramEnabled m' = serverHandledHistogramEnabled m
  ∧ serverHandledHistogramOpts m' = serverHandledHistogramOpts m
  ∧ histogram_extends (serverHandledHistogram m) (serverHandledHistogram m')
  ∧ (serverHandledHistogramEnabled m = false →
     serverHandledHistogram m' = serverHandledHistogram m).

(** One round of the loop over the status codes in [preRegisterMethod],
    for the label values [key code]. *)
Definition touch_handled (key : Code → LabelValues) (w : ServerMetrics)
    (code : Code) : ServerMetrics :=
  set_serverHandledCounter
    (CounterVec_GetMetricWithLabelValues (key code) (serverHandledCounter w)) w.

(** Registries reachable through the public operations. *)
Inductive ServerMetrics_reachable : ServerMetrics → Prop :=
  | reach_NewServerMetrics :
      ServerMetrics_reachable NewServerMetrics
  | reach_EnableHandlingTimeHistogram opts m :
      ServerMetrics_reachable m →
      ServerMetrics_reachable (EnableHandlingTimeHistogram opts m)
  | reach_UnaryServerInterceptor (Req Resp : Type) (req : Req) info
        (handler : Req → Resp * option error) m t w' :
      ServerMetrics_reachable m →
      exec (UnaryServerInterceptor req info handler)
        {| metrics := m; trace := t |} = Some w' →
      ServerMetrics_reachable (metrics w')
  | reach_StreamServerInterceptor (SS : Type) (ss : SS) info handler m t w' :
      ServerMetrics_reachable m →
      exec (StreamServerInterceptor ss info handler)
        {| metrics := m; trace := t |} = Some w' →
      ServerMetrics_reachable (metrics w')
  | reach_InitializeMetrics serviceInfo m m' :
      ServerMetrics_reachable m →
      exec (InitializeMetrics serviceInfo) m = Some m' →
      ServerMetrics_reachable m'.

Inductive ClientMetrics_reachable : ClientMetrics → Prop :=
  | reach_NewClientMetrics counterOpts :
      ClientMetrics_reachable (NewClientMetrics counterOpts)
  | reach_EnableClientHandlingTimeHistogram opts m :
      ClientMetrics_reachable m →
      ClientMetrics_reachable (EnableClientHandlingTimeHistogram opts m)
  | reach_EnableClientStreamReceiveTimeHistogram opts m :
      ClientMetrics_reachable m →
      ClientMetrics_reachable (EnableClientStreamReceiveTimeHistogram opts m)
  | reach_EnableClientStreamSendTimeHistogram opts m :
      ClientMetrics_reachable m →
      ClientMetrics_reachable (EnableClientStreamSendTimeHistogram opts m)
  | reach_EnableMsgSizeReceivedBytesHistogram opts m :
      ClientMetrics_reachable m →
      ClientMetrics_reachable (EnableMsgSizeReceivedBytesHistogram opts m)
  | reach_EnableMsgSizeSentBytesHistogram opts m :
      ClientMetrics_reachable m →
      ClientMetrics_reachable (EnableMsgSizeSentBytesHistogram opts m)
  | reach_UnaryClientInterceptor (Req : Type) method (req : Req) invoker m t w' :
      ClientMetrics_reachable m →
      exec (UnaryClientInterceptor method req invoker)
        {| metrics := m; trace := t |} = Some w' →
      ClientMetrics_reachable (metrics w')
  | reach_StreamClientInterceptor (CS : Type) desc method
        (streamer : StreamDesc → string → CS * option error) m t w' :
      ClientMetrics_reachable m →
      exec (StreamClientInterceptor desc method streamer)
        {| metrics := m; trace := t |} = Some w' →
      ClientMetrics_reachable (metrics w')
  | reach_monitoredClientStream (CS : Type) (s : monitoredClientStream CS)
        ops m t w' :
      ClientMetrics_reachable m →
      exec (monitoredClientStream_run s ops)
        {| metrics := m; trace := t |} = Some w' →
      ClientMetrics_reachable (metrics w').

(** A computation does not panic from a state. *)
Definition no_panic {W A} (c : M W A) (w : W) : Prop := is_Some (c w).

(** ** Notions used in the further properties *)

(** Two enabling operations commute, whatever options they are given. *)
Definition commute {Mt : Type} (f g : list HistogramOption → Mt → Mt) : Prop :=
  ∀ (o1 o2 : list HistogramOption) (m : Mt), f o1 (g o2 m) = g o2 (f o1 m).

(** An operation on the server registry keeps the four counters. *)
Definition keeps_server_counters
    (e : list HistogramOption → ServerMetrics → ServerMetrics) : Prop :=
  ∀ (o : list HistogramOption) (m : ServerMetrics),
    serverStartedCounter (e o m) = serverStartedCounter m
    ∧ serverHandledCounter (e o m) = serverHandledCounter m
    ∧ serverStreamMsgReceived (e o m) = serverStreamMsgReceived m
    ∧ serverStreamMsgSent (e o m) = serverStreamMsgSent m.

Definition keeps_client_counters
    (e : list HistogramOption → ClientMetrics → ClientMetrics) : Prop :=
  ∀ (o : list HistogramOption) (m : ClientMetrics),
    clientStartedCounter (e o m) = clientStartedCounter m
    ∧ clientHandledCounter (e o m) = clientHandledCounter m
    ∧ clientStreamMsgReceived (e o m) = clientStreamMsgReceived m
    ∧ clientStreamMsgSent (e o m) = clientStreamMsgSent m.



(** The methods [InitializeMetrics] visits, each with the name of its
    service, in the order of the visit. *)
Definition listed_methods (serviceInfo : list (string * ServiceInfo))
  : list (string * MethodInfo) :=
  serviceInfo ≫= λ entry, (λ mInfo, (entry.1, mInfo)) <$> Methods entry.2.

(** The label values of the started, received, sent and handling-time
    series of a list of methods, and those of their handled series. *)
Definition method_keys (methods : list (string * MethodInfo))
  : list LabelValues :=
  (λ p, method_labels p.1 p.2) <$> methods.

Definition handled_keys (methods : list (string * MethodInfo))
  : list LabelValues :=
  methods ≫= λ p,
    (λ code, method_labels p.1 p.2 ++ [Code_String code]) <$> allCodes.

(** [s'] is [s] with a series at zero added for every label tuple of
    [keys] that [s] lacks, and nothing else. *)
Definition series_touched (keys : list LabelValues)
    (s s' : gmap LabelValues nat) : Prop :=
  ∀ lvs,
    s' !! lvs
    = match s !! lvs with
      | Some v => Some v
      | None => if decide (lvs ∈ keys) then Some 0 else None
      end.

Definition counter_touched (keys : list LabelValues) (v v' : CounterVec)
  : Prop :=
  cv_desc v' = cv_desc v ∧ series_touched keys (cv_series v) (cv_series v').

Definition histogram_touched (keys : list LabelValues) (enabled : bool)
    (h h' : option HistogramVec) : Prop :=
  if enabled then
    match h, h' with
    | Some v, Some v' =>
        hv_desc v' = hv_desc v ∧ hv_buckets v' = hv_buckets v
        ∧ series_touched keys (hv_series v) (hv_series v')
    | _, _ => False
    end
  else h' = h.

(** [m'] is [m] after the pre-registration of [methods]. *)
Definition ServerMetrics_touched (methods : list (string * MethodInfo))
    (m m' : ServerMetrics) : Prop :=
  counter_touched (method_keys methods)
    (serverStartedCounter m) (serverStartedCounter m')
  ∧ counter_touched (handled_keys methods)
      (serverHandledCounter m) (serverHandledCounter m')
  ∧ counter_touched (method_keys methods)
      (serverStreamMsgReceived m) (serverStreamMsgReceived m')
  ∧ counter_touched (method_keys methods)
      (serverStreamMsgSent m) (serverStreamMsgSent m')
  ∧ serverHandledHistogramEnabled m' = serverHandledHistogramEnabled m
  ∧ serverHandledHistogramOpts m' = serverHandledHistogramOpts m
  ∧ histogram_touched (method_keys methods) (serverHandledHistogramEnabled m)
      (serverHandledHistogram m) (serverHandledHistogram m').

(** A server registry without any series yet. *)
Definition ServerMetrics_no_series (m : ServerMetrics) : Prop :=
  cv_series (serverStartedCounter m) = ∅
  ∧ cv_series (serverHandledCounter m) = ∅
  ∧ cv_series (serverStreamMsgReceived m) = ∅
  ∧ cv_series (serverStreamMsgSent m) = ∅
  ∧ ∀ h, serverHandledHistogram m = Some h → hv_series h = ∅.

(** Two registries describe themselves alike: same descriptors of the
    counters, same histogram flags, same descriptors of the histograms. *)
Definition histogram_desc (h : option HistogramVec) : option Desc :=
  hv_desc <$> h.

Definition ServerMetrics_same_descs (m m' : ServerMetrics) : Prop :=
  cv_desc (serverStartedCounter m') = cv_desc (serverStartedCounter m)
  ∧ cv_desc (serverHandledCounter m') = cv_desc (serverHandledCounter m)
  ∧ cv_desc (serverStreamMsgReceived m') = cv_desc (serverStreamMsgReceived m)
  ∧ cv_desc (serverStreamMsgSent m') = cv_desc (serverStreamMsgSent m)
  ∧ serverHandledHistogramEnabled m' = serverHandledHistogramEnabled m
  ∧ histogram_desc (serverHandledHistogram m')
    = histogram_desc (serverHandledHistogram m).

Definition ClientMetrics_same_descs (m m' : ClientMetrics) : Prop :=
  cv_desc (clientStartedCounter m') = cv_desc (clientStartedCounter m)
  ∧ cv_desc (clientHandledCounter m') = cv_desc (clientHandledCounter m)
  ∧ cv_desc (clientStreamMsgReceived m') = cv_desc (clientStreamMsgReceived m)
  ∧ cv_desc (clientStreamMsgSent m') = cv_desc (clientStreamMsgSent m)
  ∧ same_flags m m'
  ∧ histogram_desc (clientHandledHistogram m')
    = histogram_desc (clientHandledHistogram m)
  ∧ histogram_desc (clientStreamRecvHistogram m')
    = histogram_desc (clientStreamRecvHistogram m)
  ∧ histogram_desc (clientStreamSendHistogram m')
    = histogram_desc (clientStreamSendHistogram m)
  ∧ histogram_desc (clientMsgSizeReceivedHistogram m')
    = histogram_desc (clientMsgSizeReceivedHistogram m)
  ∧ histogram_desc (clientMsgSizeSentHistogram m')
    = histogram_desc (clientMsgSizeSentHistogram m).

(** ** Series of a vector *)

Lemma series_value_bump (lvs lvs' : LabelValues) (s : gmap LabelValues nat) :
  series_value (bump lvs s) lvs' = series_value s lvs' + plus_at lvs 1 lvs'.
Proof.
  unfold series_value, bump, plus_at.
  destruct (decide (lvs' = lvs)) as [->|Hne].
  - rewrite lookup_insert_eq. simpl. unfold series_value. lia.
  - rewrite lookup_insert_ne by congruence. lia.
Qed.

Lemma series_value_touch (lvs lvs' : LabelValues) (s : gmap LabelValues nat) :
  series_value (touch lvs s) lvs' = series_value s lvs'.
Proof.
  unfold series_value, touch.
  destruct (s !! lvs) eqn:E; [done|].
  destruct (decide (lvs' = lvs)) as [->|Hne].
  - by rewrite lookup_insert_eq, E.
  - by rewrite lookup_insert_ne by congruence.
Qed.

Lemma touch_is_Some (lvs lvs' : LabelValues) (s : gmap LabelValues nat) :
  is_Some (touch lvs s !! lvs') ↔ lvs' = lvs ∨ is_Some (s !! lvs').
Proof.
  unfold touch. destruct (s !! lvs) eqn:E.
  - split; [by right|]. intros [->|H]; [by rewrite E|done].
  - destruct (decide (lvs' = lvs)) as [->|Hne].
    + rewrite lookup_insert_eq. split; [by left|eauto].
    + rewrite lookup_insert_ne by congruence. split; [by right|].
      by intros [?|?].
Qed.


Lemma plus_at_add (lvs lvs' : LabelValues) (a b : nat) :
  plus_at lvs a lvs' + plus_at lvs b lvs' = plus_at lvs (a + b) lvs'.
Proof. unfold plus_at. by case_decide. Qed.

Lemma plus_at_0 (lvs lvs' : LabelValues) : plus_at lvs 0 lvs' = 0.
Proof. unfold plus_at. by case_decide. Qed.

(** ** Call shapes *)

(** C2 (as amended): both stream-type functions give [ClientStream] for
    client-streaming only, [ServerStream] for server-streaming only, and
    [BidiStream] for every other combination of the two flags, both flags
    false included; neither ever gives [Unary]. *)
Theorem stream_type_of_flags (name : string) (cs ss : bool) :
  let expected :=
    match cs, ss with
    | true, false => ClientStream
    | false, true => ServerStream
    | true, true => BidiStream
    | false, false => BidiStream
    end in
  clientStreamType
    {| StreamName := name; ClientStreams := cs; ServerStreams := ss |} = expected
  ∧ streamRpcType
    {| ssi_FullMethod := name; IsClientStream := cs; IsServerStream := ss |}
    = expected
  ∧ expected ≠ Unary.
Proof. by destruct cs, ss. Qed.

(** ** Enabling histograms *)

Local Ltac enable_contract :=
  intros opts opts' m; destruct m as []; cbn;
  repeat match goal with
  | |- context [if negb ?b then _ else _] => is_var b; destruct b; cbn
  end; repeat split; reflexivity.

(** C7: enabling a histogram sets its flag and folds the options into the
    stored options; the first call builds the vector from the accumulated
    options, a later call keeps the vector that exists, whatever options
    it is given, and enabling again without options changes nothing.  This
    holds for the server histogram and the five client histograms. *)
Theorem Enable_histogram_idempotent :
  Enable_contract serverHandledHistogramEnabled serverHandledHistogramOpts
    serverHandledHistogram ["grpc_type"; "grpc_service"; "grpc_method"]
    EnableHandlingTimeHistogram
  ∧ Enable_contract clientHandledHistogramEnabled clientHandledHistogramOpts
      clientHandledHistogram ["grpc_type"; "grpc_service"; "grpc_method"]
      EnableClientHandlingTimeHistogram
  ∧ Enable_contract clientStreamRecvHistogramEnabled
      clientStreamRecvHistogramOpts clientStreamRecvHistogram
      ["grpc_type"; "grpc_service"; "grpc_method"]
      EnableClientStreamReceiveTimeHistogram
  ∧ Enable_contract clientStreamSendHistogramEnabled
      clientStreamSendHistogramOpts clientStreamSendHistogram
      ["grpc_type"; "grpc_service"; "grpc_method"]
      EnableClientStreamSendTimeHistogram
  ∧ Enable_contract clientMsgSizeReceivedHistogramEnabled
      clientMsgSizeReceivedHistogramOpts clientMsgSizeReceivedHistogram
      ["grpc_service"; "grpc_method"; "grpc_stats"]
      EnableMsgSizeReceivedBytesHistogram
  ∧ Enable_contract clientMsgSizeSentHistogramEnabled
      clientMsgSizeSentHistogramOpts clientMsgSizeSentHistogram
      ["grpc_service"; "grpc_method"; "grpc_stats"]
      EnableMsgSizeSentBytesHistogram.
Proof.
  refine (conj _ (conj _ (conj _ (conj _ (conj _ _))))).
  - unfold EnableHandlingTimeHistogram. enable_contract.
  - unfold EnableClientHandlingTimeHistogram. enable_contract.
  - unfold EnableClientStreamReceiveTimeHistogram. enable_contract.
  - unfold EnableClientStreamSendTimeHistogram. enable_contract.
  - unfold EnableMsgSizeReceivedBytesHistogram. enable_contract.
  - unfold EnableMsgSizeSentBytesHistogram. enable_contract.
Qed.

(** ** The collector contract *)

Local Ltac run_collector :=
  cbv [ServerMetrics_Describe ServerMetrics_Collect ClientMetrics_Describe
       ClientMetrics_Collect CounterVec_Describe CounterVec_Collect
       HistogramVec_Describe HistogramVec_Collect when send modify panic
       mbind M_bind mret M_ret];
  cbn.

Local Ltac case_histograms :=
  repeat match goal with
  | H : context [histogram_ok ?b ?h] |- _ =>
      is_var b; destruct b; [destruct h|]; cbn in H; try discriminate H
  end.

Lemma ServerMetrics_Describe_families (m : ServerMetrics) (ch : list Desc) :
  ServerMetrics_wf m →
  ServerMetrics_Describe m ch
  = Some (tt, ch ++ (Family_desc <$> ServerMetrics_families m)).
Proof.
  unfold ServerMetrics_wf. destruct m as []; cbn. intros H.
  case_histograms; run_collector; by rewrite <- !app_assoc.
Qed.

Lemma ServerMetrics_Collect_families (m : ServerMetrics) (ch : list Metric) :
  ServerMetrics_wf m →
  ServerMetrics_Collect m ch
  = Some (tt, ch ++ concat (Family_metrics <$> ServerMetrics_families m)).
Proof.
  unfold ServerMetrics_wf. destruct m as []; cbn. intros H.
  case_histograms; run_collector; by rewrite ?app_nil_r, <- ?app_assoc.
Qed.

Lemma ClientMetrics_Describe_families (m : ClientMetrics) (ch : list Desc) :
  ClientMetrics_wf m →
  ClientMetrics_Describe m ch
  = Some (tt, ch ++ (Family_desc <$> ClientMetrics_families m)).
Proof.
  unfold ClientMetrics_wf. destruct m as []; cbn. intros H.
  case_histograms; run_collector; by rewrite <- !app_assoc.
Qed.

Lemma ClientMetrics_Collect_families (m : ClientMetrics) (ch : list Metric) :
  ClientMetrics_wf m →
  ClientMetrics_Collect m ch
  = Some (tt, ch ++ concat (Family_metrics <$> ClientMetrics_families m)).
Proof.
  unfold ClientMetrics_wf. destruct m as []; cbn. intros H.
  case_histograms; run_collector; by rewrite ?app_nil_r, <- ?app_assoc.
Qed.

Lemma ServerMetrics_families_length (m : ServerMetrics) :
  ServerMetrics_wf m →
  length (ServerMetrics_families m) = 4 + ServerMetrics_enabled m.
Proof.
  unfold ServerMetrics_wf. destruct m as []; cbn. intros H.
  by case_histograms.
Qed.

Lemma ClientMetrics_families_length (m : ClientMetrics) :
  ClientMetrics_wf m →
  length (ClientMetrics_families m) = 4 + ClientMetrics_enabled m.
Proof.
  unfold ClientMetrics_wf. destruct m as []; cbn. intros H.
  by case_histograms.
Qed.

(** C8: on a server or client registry whose enabled histograms exist,
    [Describe] sends the descriptors of the four counters and of exactly
    the enabled histograms, [Collect] sends the samples of exactly the
    same families, and there are four families plus one per enabled
    flag. *)
Theorem Describe_Collect_same_families
    (ms : ServerMetrics) (mc : ClientMetrics)
    (descs : list Desc) (samples : list Metric) :
  ServerMetrics_wf ms →
  ClientMetrics_wf mc →
  (ServerMetrics_Describe ms descs
     = Some (tt, descs ++ (Family_desc <$> ServerMetrics_families ms))
   ∧ ServerMetrics_Collect ms samples
     = Some (tt, samples ++ concat (Family_metrics <$> ServerMetrics_families ms))
   ∧ length (ServerMetrics_families ms) = 4 + ServerMetrics_enabled ms)
  ∧ (ClientMetrics_Describe mc descs
       = Some (tt, descs ++ (Family_desc <$> ClientMetrics_families mc))
     ∧ ClientMetrics_Collect mc samples
       = Some (tt, samples ++ concat (Family_metrics <$> ClientMetrics_families mc))
     ∧ length (ClientMetrics_families mc) = 4 + ClientMetrics_enabled mc).
Proof.
  intros Hs Hc. split; split_and!.
  - by apply ServerMetrics_Describe_families.
  - by apply ServerMetrics_Collect_families.
  - by apply ServerMetrics_families_length.
  - by apply ClientMetrics_Describe_families.
  - by apply ClientMetrics_Collect_families.
  - by apply ClientMetrics_families_length.
Qed.

(** ** Counters under the reporter's operations *)

Lemma counter_plus_Inc (v : CounterVec) (lvs : LabelValues) :
  counter_plus v (CounterVec_Inc lvs v) lvs 1.
Proof. intros lvs'. apply series_value_bump. Qed.

Lemma counter_plus_refl (v : CounterVec) (lvs : LabelValues) :
  counter_plus v v lvs 0.
Proof. intros lvs'. rewrite plus_at_0. lia. Qed.

Lemma counter_plus_trans (v1 v2 v3 : CounterVec) lvs (a b : nat) :
  counter_plus v1 v2 lvs a → counter_plus v2 v3 lvs b →
  counter_plus v1 v3 lvs (a + b).
Proof.
  intros H1 H2 lvs'. rewrite H2, H1, <- plus_at_add. lia.
Qed.

Lemma histogram_plus_refl (h : option HistogramVec) (lvs : LabelValues) :
  histogram_plus h h lvs 0.
Proof. intros lvs'. rewrite plus_at_0. lia. Qed.

Lemma histogram_plus_trans (h1 h2 h3 : option HistogramVec) lvs (a b : nat) :
  histogram_plus h1 h2 lvs a → histogram_plus h2 h3 lvs b →
  histogram_plus h1 h3 lvs (a + b).
Proof.
  intros H1 H2 lvs'. rewrite H2, H1, <- plus_at_add. lia.
Qed.

Lemma histogram_plus_Observe (h : HistogramVec) (lvs : LabelValues) :
  histogram_plus (Some h) (Some (HistogramVec_Observe lvs h)) lvs 1.
Proof. intros lvs'. apply series_value_bump. Qed.

Local Ltac run_server :=
  cbv [UnaryServerInterceptor StreamServerInterceptor call_StreamHandler
       monitoredServerStream_SendMsg monitoredServerStream_RecvMsg
       monitoredServerStream_op
       newServerReporter serverReporter_ReceivedMessage
       serverReporter_Handled serverReporter_SentMessage
       external emit modify_metrics get_metrics modify get when deref observe
       mbind M_bind mret M_ret panic exec];
  cbn.

Lemma UnaryServerInterceptor_run {Req Resp : Type} (req : Req)
    (info : UnaryServerInfo) (handler : Req → Resp * option error)
    (w : World ServerMetrics) :
  ServerMetrics_wf (metrics w) →
  let err := (handler req).2 in
  let lvs := call_labels Unary (usi_FullMethod info) in
  ∃ m',
    UnaryServerInterceptor req info handler w
    = Some (handler req,
            {| metrics := m';
               trace := trace w
                 ++ [EvNewReporter Unary (usi_FullMethod info);
                     EvReceivedMessage; EvHandler; EvHandled (grpc_Code err)]
                 ++ (if err is None then [EvSentMessage] else []) |})
    ∧ ServerMetrics_wf m'
    ∧ serverHandledHistogramEnabled m' = serverHandledHistogramEnabled (metrics w)
    ∧ counter_plus (serverStartedCounter (metrics w)) (serverStartedCounter m')
        lvs 1
    ∧ counter_plus (serverStreamMsgReceived (metrics w))
        (serverStreamMsgReceived m') lvs 1
    ∧ counter_plus (serverHandledCounter (metrics w)) (serverHandledCounter m')
        (lvs ++ [Code_String (grpc_Code err)]) 1
    ∧ counter_plus (serverStreamMsgSent (metrics w)) (serverStreamMsgSent m')
        lvs (if err is None then 1 else 0)
    ∧ histogram_plus (serverHandledHistogram (metrics w))
        (serverHandledHistogram m') lvs
        (Nat.b2n (serverHandledHistogramEnabled (metrics w))).
Proof.
  unfold ServerMetrics_wf, call_labels. destruct w as [m t]. destruct m as [].
  cbn. intros H.
  destruct (handler req) as [resp err] eqn:Eh.
  destruct (splitMethodName (usi_FullMethod info)) as [svc mth] eqn:Es.
  case_histograms; destruct err as [e|]; run_server; rewrite Es, Eh; cbn.
  all: eexists; split; [rewrite <- ?app_assoc; reflexivity|]; cbn.
  all: split_and!; try done.
  all: try apply counter_plus_Inc; try apply counter_plus_refl;
       try apply histogram_plus_Observe; try apply histogram_plus_refl.
Qed.

Lemma calls_app (P : Event → bool) (t1 t2 : list Event) :
  calls P (t1 ++ t2) = calls P t1 + calls P t2.
Proof. unfold calls. by rewrite filter_app, length_app. Qed.

Lemma count_ops_cons (P : StreamOp → bool) (op : StreamOp) (ops : list StreamOp) :
  count_ops P (op :: ops) = Nat.b2n (P op) + count_ops P ops.
Proof.
  unfold count_ops. rewrite filter_cons. by destruct (P op); simpl.
Qed.

Lemma monitoredServerStream_op_run {SS : Type} (s : monitoredServerStream SS)
    (op : StreamOp) (w : World ServerMetrics) :
  let lvs := serverReporter_labels (mss_monitor s) in
  ∃ m',
    monitoredServerStream_op s op w
    = Some (tt, {| metrics := m'; trace := trace w ++ server_op_events op |})
    ∧ serverStartedCounter m' = serverStartedCounter (metrics w)
    ∧ serverHandledCounter m' = serverHandledCounter (metrics w)
    ∧ serverHandledHistogramEnabled m' = serverHandledHistogramEnabled (metrics w)
    ∧ serverHandledHistogramOpts m' = serverHandledHistogramOpts (metrics w)
    ∧ serverHandledHistogram m' = serverHandledHistogram (metrics w)
    ∧ counter_plus (serverStreamMsgSent (metrics w)) (serverStreamMsgSent m')
        lvs (Nat.b2n (is_send op && op_ok op))
    ∧ counter_plus (serverStreamMsgReceived (metrics w))
        (serverStreamMsgReceived m') lvs (Nat.b2n (is_recv op && op_ok op)).
Proof.
  destruct s as [ss r], w as [m t], m as [], op as [[e|]|[e|]]; run_server.
  all: eexists; split; [rewrite <- ?app_assoc; reflexivity|]; cbn.
  all: split_and!; try done.
  all: try apply counter_plus_Inc; apply counter_plus_refl.
Qed.

Lemma monitoredServerStream_run_spec {SS : Type} (s : monitoredServerStream SS)
    (ops : list StreamOp) (w : World ServerMetrics) :
  let lvs := serverReporter_labels (mss_monitor s) in
  ∃ m',
    monitoredServerStream_run s ops w
    = Some (tt, {| metrics := m';
                   trace := trace w ++ concat (server_op_events <$> ops) |})
    ∧ serverStartedCounter m' = serverStartedCounter (metrics w)
    ∧ serverHandledCounter m' = serverHandledCounter (metrics w)
    ∧ serverHandledHistogramEnabled m' = serverHandledHistogramEnabled (metrics w)
    ∧ serverHandledHistogramOpts m' = serverHandledHistogramOpts (metrics w)
    ∧ serverHandledHistogram m' = serverHandledHistogram (metrics w)
    ∧ counter_plus (serverStreamMsgSent (metrics w)) (serverStreamMsgSent m')
        lvs (sends_ok ops)
    ∧ counter_plus (serverStreamMsgReceived (metrics w))
        (serverStreamMsgReceived m') lvs (recvs_ok ops).
Proof.
  intros lvs. revert w. induction ops as [|op ops IH]; intros w.
  - exists (metrics w). destruct w as [m t]. cbn. rewrite app_nil_r.
    split_and!; try done; apply counter_plus_refl.
  - destruct (monitoredServerStream_op_run s op w)
      as (m1 & Hrun & Hst & Hh & He & Ho & Hhi & Hsent & Hrecv).
    destruct (IH {| metrics := m1; trace := trace w ++ server_op_events op |})
      as (m2 & Hrun2 & Hst2 & Hh2 & He2 & Ho2 & Hhi2 & Hsent2 & Hrecv2).
    exists m2. cbn [metrics trace] in *. split.
    + unfold monitoredServerStream_run in *. cbn.
      unfold mbind, M_bind at 1. rewrite Hrun, Hrun2.
      by rewrite <- app_assoc.
    + split_and!; try congruence.
      * unfold sends_ok. rewrite count_ops_cons.
        eapply counter_plus_trans; eauto.
      * unfold recvs_ok. rewrite count_ops_cons.
        eapply counter_plus_trans; eauto.
Qed.

Lemma StreamServerInterceptor_run {SS : Type} (ss : SS)
    (info : StreamServerInfo) (handler : StreamHandler)
    (w : World ServerMetrics) :
  ServerMetrics_wf (metrics w) →
  let err := sh_err handler in
  let rpcType := streamRpcType info in
  let lvs := call_labels rpcType (ssi_FullMethod info) in
  ∃ m',
    StreamServerInterceptor ss info handler w
    = Some (err,
            {| metrics := m';
               trace := trace w
                 ++ [EvNewReporter rpcType (ssi_FullMethod info); EvHandler]
                 ++ concat (server_op_events <$> sh_ops handler)
                 ++ [EvHandled (grpc_Code err)] |})
    ∧ ServerMetrics_wf m'
    ∧ serverHandledHistogramEnabled m' = serverHandledHistogramEnabled (metrics w)
    ∧ counter_plus (serverStartedCounter (metrics w)) (serverStartedCounter m')
        lvs 1
    ∧ counter_plus (serverHandledCounter (metrics w)) (serverHandledCounter m')
        (lvs ++ [Code_String (grpc_Code err)]) 1
    ∧ counter_plus (serverStreamMsgSent (metrics w)) (serverStreamMsgSent m')
        lvs (sends_ok (sh_ops handler))
    ∧ counter_plus (serverStreamMsgReceived (metrics w))
        (serverStreamMsgReceived m') lvs (recvs_ok (sh_ops handler))
    ∧ histogram_plus (serverHandledHistogram (metrics w))
        (serverHandledHistogram m') lvs
        (Nat.b2n (serverHandledHistogramEnabled (metrics w))).
Proof.
  unfold ServerMetrics_wf, call_labels. destruct w as [m t]. destruct m as [].
  destruct handler as [ops err]. cbn. intros H.
  destruct (splitMethodName (ssi_FullMethod info)) as [svc mth] eqn:Es.
  run_server. rewrite Es. cbn.
  match goal with
  | |- context [for_each ?ops (monitoredServerStream_op ?s) ?w] =>
      destruct (monitoredServerStream_run_spec s ops w)
        as (m1 & Hrun & Hst & Hh & He & Ho & Hhi & Hsent & Hrecv)
  end.
  unfold monitoredServerStream_run in Hrun. rewrite Hrun. destruct m1 as []. cbn in *. subst.
  case_histograms; cbn.
  all: eexists; split; [rewrite <- ?app_assoc; reflexivity|]; cbn.
  all: split_and!; try done.
  all: try apply counter_plus_Inc; try apply histogram_plus_Observe;
       try apply histogram_plus_refl.
Qed.

(** ** The client side *)

Lemma ClientMetrics_wf_parts (m : ClientMetrics) :
  ClientMetrics_wf m ↔
  histogram_ok (clientHandledHistogramEnabled m) (clientHandledHistogram m) = true
  ∧ histogram_ok (clientStreamRecvHistogramEnabled m)
      (clientStreamRecvHistogram m) = true
  ∧ histogram_ok (clientStreamSendHistogramEnabled m)
      (clientStreamSendHistogram m) = true
  ∧ histogram_ok (clientMsgSizeReceivedHistogramEnabled m)
      (clientMsgSizeReceivedHistogram m) = true
  ∧ histogram_ok (clientMsgSizeSentHistogramEnabled m)
      (clientMsgSizeSentHistogram m) = true.
Proof.
  unfold ClientMetrics_wf. rewrite !andb_true_iff. tauto.
Qed.

Local Ltac run_client :=
  cbv [UnaryClientInterceptor StreamClientInterceptor
       monitoredClientStream_SendMsg monitoredClientStream_RecvMsg
       monitoredClientStream_op
       newClientReporter clientReporter_ReceivedMessage
       clientReporter_Handled clientReporter_SentMessage
       clientReporter_SendMessageTimer clientReporter_ReceiveMessageTimer
       timer_ObserveDuration
       external emit modify_metrics get_metrics modify get when deref observe
       mbind M_bind mret M_ret panic exec];
  cbn;
  rewrite ?bool_decide_eq_true_2 by done;
  rewrite ?bool_decide_eq_false_2 by done;
  cbn.

Local Ltac client_start w H :=
  let m := fresh "m" in
  let t := fresh "t" in
  destruct w as [m t]; destruct m as []; cbn;
  intros H; apply ClientMetrics_wf_parts in H; cbn in H;
  destruct H as (Hh & Hr & Hs & Hzr & Hzs).

Local Ltac client_finish :=
  eexists; (split; [rewrite <- ?app_assoc; reflexivity|]); cbn;
  split_and!; try done;
  try (apply ClientMetrics_wf_parts; by cbn);
  try apply counter_plus_Inc; try apply counter_plus_refl;
  try apply histogram_plus_Observe; try apply histogram_plus_refl.

Lemma UnaryClientInterceptor_run {Req : Type} (method : string) (req : Req)
    (invoker : string → Req → option error) (w : World ClientMetrics) :
  ClientMetrics_wf (metrics w) →
  let err := invoker method req in
  let code := Status_Code (status_FromError err).1 in
  let lvs := call_labels Unary method in
  ∃ m',
    UnaryClientInterceptor method req invoker w
    = Some (err,
            {| metrics := m';
               trace := trace w
                 ++ [EvNewReporter Unary method; EvSentMessage; EvInvoker]
                 ++ (if err is None then [EvReceivedMessage] else [])
                 ++ [EvHandled code] |})
    ∧ ClientMetrics_wf m'
    ∧ same_flags (metrics w) m'
    ∧ counter_plus (clientStartedCounter (metrics w)) (clientStartedCounter m')
        lvs 1
    ∧ counter_plus (clientStreamMsgSent (metrics w)) (clientStreamMsgSent m')
        lvs 1
    ∧ counter_plus (clientStreamMsgReceived (metrics w))
        (clientStreamMsgReceived m') lvs (if err is None then 1 else 0)
    ∧ counter_plus (clientHandledCounter (metrics w)) (clientHandledCounter m')
        (lvs ++ [Code_String code]) 1
    ∧ histogram_plus (clientHandledHistogram (metrics w))
        (clientHandledHistogram m') lvs
        (Nat.b2n (clientHandledHistogramEnabled (metrics w))).
Proof.
  unfold call_labels, same_flags. client_start w H.
  destruct (splitMethodName method) as [svc mth] eqn:Es.
  destruct (invoker method req) as [e|] eqn:Ei; [destruct e|].
  all: destruct clientHandledHistogramEnabled0;
    [destruct clientHandledHistogram0; [|discriminate Hh]|].
  all: run_client; rewrite Es, Ei; cbn.
  all: client_finish.
Qed.

Lemma StreamClientInterceptor_run {CS : Type} (desc : StreamDesc)
    (method : string) (streamer : StreamDesc → string → CS * option error)
    (w : World ClientMetrics) :
  ClientMetrics_wf (metrics w) →
  let err := (streamer desc method).2 in
  let code := Status_Code (status_FromError err).1 in
  let rpcType := clientStreamType desc in
  let lvs := call_labels rpcType method in
  let failed := if err is None then 0 else 1 in
  ∃ m',
    StreamClientInterceptor desc method streamer w
    = Some (StreamClientInterceptor_result (call_reporter rpcType method)
              (streamer desc method),
            {| metrics := m';
               trace := trace w
                 ++ [EvNewReporter rpcType method; EvStreamer]
                 ++ (if err is None then [] else [EvHandled code]) |})
    ∧ ClientMetrics_wf m'
    ∧ same_flags (metrics w) m'
    ∧ counter_plus (clientStartedCounter (metrics w)) (clientStartedCounter m')
        lvs 1
    ∧ clientStreamMsgSent m' = clientStreamMsgSent (metrics w)
    ∧ clientStreamMsgReceived m' = clientStreamMsgReceived (metrics w)
    ∧ counter_plus (clientHandledCounter (metrics w)) (clientHandledCounter m')
        (lvs ++ [Code_String code]) failed
    ∧ histogram_plus (clientHandledHistogram (metrics w))
        (clientHandledHistogram m') lvs
        (failed * Nat.b2n (clientHandledHistogramEnabled (metrics w))).
Proof.
  unfold call_labels, same_flags, StreamClientInterceptor_result, call_reporter.
  client_start w H.
  destruct (splitMethodName method) as [svc mth] eqn:Es.
  destruct (streamer desc method) as [cs [e|]] eqn:Ei; [destruct e|].
  all: destruct clientHandledHistogramEnabled0;
    [destruct clientHandledHistogram0; [|discriminate Hh]|].
  all: run_client; rewrite Es, Ei; cbn.
  all: client_finish.
Qed.

Lemma monitoredClientStream_op_run {CS : Type} (s : monitoredClientStream CS)
    (op : StreamOp) (w : World ClientMetrics) :
  ClientMetrics_wf (metrics w) →
  let lvs := clientReporter_labels (mcs_monitor s) in
  ∃ m',
    monitoredClientStream_op s op w
    = Some (tt, {| metrics := m'; trace := trace w ++ client_op_events op |})
    ∧ ClientMetrics_wf m'
    ∧ same_flags (metrics w) m'
    ∧ clientStartedCounter m' = clientStartedCounter (metrics w)
    ∧ counter_plus (clientStreamMsgSent (metrics w)) (clientStreamMsgSent m')
        lvs (Nat.b2n (is_send op && op_ok op))
    ∧ counter_plus (clientStreamMsgReceived (metrics w))
        (clientStreamMsgReceived m') lvs (Nat.b2n (is_recv op && op_ok op))
    ∧ histogram_plus (clientStreamSendHistogram (metrics w))
        (clientStreamSendHistogram m') lvs
        (Nat.b2n (is_send op && clientStreamSendHistogramEnabled (metrics w)))
    ∧ histogram_plus (clientStreamRecvHistogram (metrics w))
        (clientStreamRecvHistogram m') lvs
        (Nat.b2n (is_recv op && clientStreamRecvHistogramEnabled (metrics w))).
Proof.
  unfold same_flags. client_start w H.
  destruct s as [cs r].
  destruct op as [[e|]|[e|]]; try destruct e.
  all: destruct clientHandledHistogramEnabled0;
    [destruct clientHandledHistogram0; [|discriminate Hh]|].
  all: destruct clientStreamSendHistogramEnabled0;
    [destruct clientStreamSendHistogram0; [|discriminate Hs]|].
  all: destruct clientStreamRecvHistogramEnabled0;
    [destruct clientStreamRecvHistogram0; [|discriminate Hr]|].
  all: run_client.
  all: client_finish.
Qed.

Lemma same_flags_trans (m1 m2 m3 : ClientMetrics) :
  same_flags m1 m2 → same_flags m2 m3 → same_flags m1 m3.
Proof. unfold same_flags. intuition congruence. Qed.

Lemma monitoredClientStream_run_spec {CS : Type} (s : monitoredClientStream CS)
    (ops : list StreamOp) (w : World ClientMetrics) :
  ClientMetrics_wf (metrics w) →
  let lvs := clientReporter_labels (mcs_monitor s) in
  ∃ m',
    monitoredClientStream_run s ops w
    = Some (tt, {| metrics := m';
                   trace := trace w ++ concat (client_op_events <$> ops) |})
    ∧ ClientMetrics_wf m'
    ∧ same_flags (metrics w) m'
    ∧ clientStartedCounter m' = clientStartedCounter (metrics w)
    ∧ counter_plus (clientStreamMsgSent (metrics w)) (clientStreamMsgSent m')
        lvs (sends_ok ops)
    ∧ counter_plus (clientStreamMsgReceived (metrics w))
        (clientStreamMsgReceived m') lvs (recvs_ok ops)
    ∧ histogram_plus (clientStreamSendHistogram (metrics w))
        (clientStreamSendHistogram m') lvs
        (sends ops * Nat.b2n (clientStreamSendHistogramEnabled (metrics w)))
    ∧ histogram_plus (clientStreamRecvHistogram (metrics w))
        (clientStreamRecvHistogram m') lvs
        (recvs ops * Nat.b2n (clientStreamRecvHistogramEnabled (metrics w))).
Proof.
  intros Hwf lvs. revert w Hwf. induction ops as [|op ops IH]; intros w Hwf.
  - exists (metrics w). destruct w as [m t]. cbn. rewrite app_nil_r.
    split_and!; try done; try apply counter_plus_refl;
      apply histogram_plus_refl.
  - destruct (monitoredClientStream_op_run s op w Hwf)
      as (m1 & Hrun & Hwf1 & Hfl & Hst & Hsent & Hrecv & Hsh & Hrh).
    destruct (IH {| metrics := m1; trace := trace w ++ client_op_events op |} Hwf1)
      as (m2 & Hrun2 & Hwf2 & Hfl2 & Hst2 & Hsent2 & Hrecv2 & Hsh2 & Hrh2).
    exists m2. cbn [metrics trace] in *. split.
    { unfold monitoredClientStream_run in *. cbn.
      unfold mbind, M_bind at 1. rewrite Hrun, Hrun2.
      by rewrite <- app_assoc. }
    split_and!; try congruence; eauto using same_flags_trans.
    + unfold sends_ok. rewrite count_ops_cons.
      eapply counter_plus_trans; eauto.
    + unfold recvs_ok. rewrite count_ops_cons.
      eapply counter_plus_trans; eauto.
    + unfold sends. rewrite count_ops_cons.
      destruct Hfl as (_ & _ & Hf & _). rewrite Hf in Hsh2.
      replace ((Nat.b2n (is_send op) + count_ops is_send ops)
               * Nat.b2n (clientStreamSendHistogramEnabled (metrics w)))
        with (Nat.b2n (is_send op
                       && clientStreamSendHistogramEnabled (metrics w))
              + sends ops
                * Nat.b2n (clientStreamSendHistogramEnabled (metrics w))).
      * eapply histogram_plus_trans; eauto.
      * unfold sends.
        destruct (is_send op), (clientStreamSendHistogramEnabled (metrics w));
          cbn; lia.
    + unfold recvs. rewrite count_ops_cons.
      destruct Hfl as (_ & Hf & _). rewrite Hf in Hrh2.
      replace ((Nat.b2n (is_recv op) + count_ops is_recv ops)
               * Nat.b2n (clientStreamRecvHistogramEnabled (metrics w)))
        with (Nat.b2n (is_recv op
                       && clientStreamRecvHistogramEnabled (metrics w))
              + recvs ops
                * Nat.b2n (clientStreamRecvHistogramEnabled (metrics w))).
      * eapply histogram_plus_trans; eauto.
      * unfold recvs.
        destruct (is_recv op), (clientStreamRecvHistogramEnabled (metrics w));
          cbn; lia.
Qed.

Lemma calls_Handled_client_ops (ops : list StreamOp) :
  calls is_Handled (concat (client_op_events <$> ops)) = recvs_failed ops.
Proof.
  induction ops as [|op ops IH]; [done|].
  unfold recvs_failed in *. rewrite count_ops_cons, <- IH. cbn [fmap list_fmap concat].
  rewrite calls_app. f_equal.
  destruct op as [[e|]|[e|]]; try destruct e; reflexivity.
Qed.

Lemma calls_ObserveDuration_client_ops (ops : list StreamOp) :
  calls is_ObserveDuration (concat (client_op_events <$> ops)) = length ops.
Proof.
  induction ops as [|op ops IH]; [done|].
  cbn [fmap list_fmap concat length]. rewrite calls_app, IH.
  destruct op as [[e|]|[e|]]; try destruct e; reflexivity.
Qed.

Lemma calls_Handled_server_ops (ops : list StreamOp) :
  calls is_Handled (concat (server_op_events <$> ops)) = 0.
Proof.
  induction ops as [|op ops IH]; [done|].
  cbn [fmap list_fmap concat]. rewrite calls_app, IH.
  destruct op as [[e|]|[e|]]; reflexivity.
Qed.


(** ** Pre-registration *)

Lemma for_each_modify {W A : Type} (l : list A) (f : A → W → W) (w : W) :
  for_each l (λ a w, Some (tt, f a w)) w = Some (tt, foldl (λ w a, f a w) w l).
Proof.
  revert w. induction l as [|a l IH]; intros w; [done|].
  cbn. unfold mbind, M_bind. by rewrite IH.
Qed.

Lemma counter_extends_refl (v : CounterVec) : counter_extends v v.
Proof. by unfold counter_extends. Qed.

Lemma counter_extends_trans (v1 v2 v3 : CounterVec) :
  counter_extends v1 v2 → counter_extends v2 v3 → counter_extends v1 v3.
Proof.
  intros (Hd1 & Hh1 & Hv1) (Hd2 & Hh2 & Hv2). split_and!.
  - congruence.
  - auto.
  - intros lvs. by rewrite Hv2, Hv1.
Qed.

Lemma counter_extends_touch (lvs : LabelValues) (v : CounterVec) :
  counter_extends v (CounterVec_GetMetricWithLabelValues lvs v).
Proof.
  split_and!; [done| |].
  - intros lvs' H. unfold counter_has in *. cbn. apply touch_is_Some. by right.
  - intros lvs'. apply series_value_touch.
Qed.

Lemma counter_has_touch (lvs : LabelValues) (v : CounterVec) :
  counter_has (CounterVec_GetMetricWithLabelValues lvs v) lvs.
Proof. unfold counter_has. cbn. apply touch_is_Some. by left. Qed.

Lemma histogram_extends_refl (h : option HistogramVec) : histogram_extends h h.
Proof. by destruct h. Qed.

Lemma histogram_extends_trans (h1 h2 h3 : option HistogramVec) :
  histogram_extends h1 h2 → histogram_extends h2 h3 → histogram_extends h1 h3.
Proof.
  destruct h1, h2, h3; cbn; try done.
  intros (Hd1 & Hb1 & Hh1 & Hv1) (Hd2 & Hb2 & Hh2 & Hv2). split_and!.
  - congruence.
  - congruence.
  - auto.
  - intros lvs. by rewrite Hv2, Hv1.
Qed.

Lemma ServerMetrics_extends_refl (m : ServerMetrics) : ServerMetrics_extends m m.
Proof.
  unfold ServerMetrics_extends.
  split_and!; auto using counter_extends_refl, histogram_extends_refl.
Qed.

Lemma ServerMetrics_extends_trans (m1 m2 m3 : ServerMetrics) :
  ServerMetrics_extends m1 m2 → ServerMetrics_extends m2 m3 →
  ServerMetrics_extends m1 m3.
Proof.
  intros (A1 & A2 & A3 & A4 & A5 & A6 & A7 & A8)
         (B1 & B2 & B3 & B4 & B5 & B6 & B7 & B8).
  unfold ServerMetrics_extends.
  split_and!; eauto using counter_extends_trans, histogram_extends_trans;
    try congruence.
  intros Hoff. rewrite B8, A8; congruence.
Qed.

Lemma ServerMetrics_extends_wf (m m' : ServerMetrics) :
  ServerMetrics_extends m m' → ServerMetrics_wf m → ServerMetrics_wf m'.
Proof.
  intros (_ & _ & _ & _ & He & _ & Hh & _). unfold ServerMetrics_wf.
  rewrite He.
  destruct (serverHandledHistogramEnabled m), (serverHandledHistogram m),
    (serverHandledHistogram m'); cbn in *; done.
Qed.

Lemma registered_extends (m m' : ServerMetrics) serviceName mInfo :
  ServerMetrics_extends m m' →
  registered m serviceName mInfo → registered m' serviceName mInfo.
Proof.
  intros (A1 & A2 & A3 & A4 & A5 & A6 & A7 & A8) (R1 & R2 & R3 & R4 & R5).
  unfold registered. split_and!.
  - by apply A1.
  - by apply A3.
  - by apply A4.
  - rewrite A5. intros Hen. destruct (R4 Hen) as (h & Hh & Hs).
    rewrite Hh in A7. destruct (serverHandledHistogram m') as [h'|]; [|done].
    exists h'. split; [done|]. destruct A7 as (_ & _ & Hmono & _). auto.
  - intros code. by apply A2.
Qed.

Lemma handled_series_spec (key : Code → LabelValues) (codes : list Code)
    (m : ServerMetrics) :
  let m' := foldl (touch_handled key) m codes in
  serverStartedCounter m' = serverStartedCounter m
  ∧ serverStreamMsgReceived m' = serverStreamMsgReceived m
  ∧ serverStreamMsgSent m' = serverStreamMsgSent m
  ∧ serverHandledHistogramEnabled m' = serverHandledHistogramEnabled m
  ∧ serverHandledHistogramOpts m' = serverHandledHistogramOpts m
  ∧ serverHandledHistogram m' = serverHandledHistogram m
  ∧ counter_extends (serverHandledCounter m) (serverHandledCounter m')
  ∧ ∀ code, code ∈ codes → counter_has (serverHandledCounter m') (key code).
Proof.
  revert m. induction codes as [|c codes IH]; intros m; cbn.
  - split_and!; try done; try apply counter_extends_refl.
    intros code Hin. by apply elem_of_nil in Hin.
  - destruct (IH (touch_handled key m c))
      as (A1 & A2 & A3 & A4 & A5 & A6 & A7 & A8).
    cbn in *. split_and!; try done.
    + eapply counter_extends_trans; [|exact A7].
      apply counter_extends_touch.
    + intros code Hin. apply elem_of_cons in Hin as [->|Hin]; [|by auto].
      destruct A7 as (_ & Hmono & _). apply Hmono, counter_has_touch.
Qed.


Lemma allCodes_complete (code : Code) : code ∈ allCodes.
Proof.
  destruct code; unfold allCodes; repeat (first [by left | right]).
Qed.

Local Ltac run_preRegister :=
  cbv [mbind M_bind modify get when deref mret M_ret panic];
  cbn.

Lemma preRegisterMethod_run (serviceName : string) (mInfo : MethodInfo)
    (m : ServerMetrics) :
  ServerMetrics_wf m →
  ∃ m',
    preRegisterMethod serviceName mInfo m = Some (tt, m')
    ∧ ServerMetrics_extends m m'
    ∧ registered m' serviceName mInfo.
Proof.
  intros Hwf.
  set (lvs := method_labels serviceName mInfo).
  set (m3 :=
    set_serverStreamMsgSent
      (CounterVec_GetMetricWithLabelValues lvs (serverStreamMsgSent m))
      (set_serverStreamMsgReceived
         (CounterVec_GetMetricWithLabelValues lvs (serverStreamMsgReceived m))
         (set_serverStartedCounter
            (CounterVec_GetMetricWithLabelValues lvs (serverStartedCounter m))
            m))).
  set (m4 :=
    match serverHandledHistogramEnabled m, serverHandledHistogram m with
    | true, Some h =>
        set_serverHandledHistogram
          (Some (HistogramVec_GetMetricWithLabelValues lvs h)) m3
    | _, _ => m3
    end).
  pose proof (handled_series_spec (λ code, lvs ++ [Code_String code])
                allCodes m4) as HS.
  cbv zeta in HS. revert HS.
  set (m5 := foldl _ m4 allCodes).
  intros (A1 & A2 & A3 & A4 & A5 & A6 & A7 & A8).
  exists m5. split.
  { subst m5 m4 m3 lvs.
    unfold ServerMetrics_wf, preRegisterMethod, touch_handled in *.
    generalize allCodes as codes. intros codes.
    destruct m as []. cbn in Hwf.
    case_histograms; run_preRegister; by rewrite for_each_modify. }
  unfold ServerMetrics_extends, registered. fold lvs.
  rewrite A1, A2, A3, A4, A5, A6.
  assert (serverHandledCounter m4 = serverHandledCounter m) as Hh4.
  { subst m4 m3. by destruct m as [? ? ? ? [] ? []]. }
  rewrite Hh4 in A7.
  clearbody m5. clear A1 A2 A3 A4 A5 A6 Hh4.
  subst m4 m3. unfold ServerMetrics_wf in Hwf. destruct m as []. cbn in *.
  case_histograms; cbn.
  all: split; split_and!; try done;
       try exact (counter_has_touch _ _);
       try exact (counter_extends_touch _ _);
       try exact (histogram_extends_refl _);
       try (intros code; apply A8, allCodes_complete).
  - intros lvs' Hs. apply touch_is_Some. by right.
  - intros lvs'. apply series_value_touch.
  - intros _. eexists. split; [done|]. cbn. apply touch_is_Some. by left.
Qed.





(** All methods of a service list are registered. *)
Lemma for_each_methods_run (serviceName : string) (methods : list MethodInfo)
    (m : ServerMetrics) :
  ServerMetrics_wf m →
  ∃ m',
    for_each methods (λ mInfo, preRegisterMethod serviceName mInfo) m
    = Some (tt, m')
    ∧ ServerMetrics_extends m m'
    ∧ ∀ mInfo, mInfo ∈ methods → registered m' serviceName mInfo.
Proof.
  revert m. induction methods as [|mi methods IH]; intros m Hwf.
  - exists m. split_and!; [done|apply ServerMetrics_extends_refl|].
    intros mInfo Hin. by apply elem_of_nil in Hin.
  - destruct (preRegisterMethod_run serviceName mi m Hwf) as (m1 & E1 & X1 & R1).
    destruct (IH m1) as (m2 & E2 & X2 & R2).
    { eauto using ServerMetrics_extends_wf. }
    exists m2. split_and!.
    + cbn. unfold mbind, M_bind. by rewrite E1.
    + eauto using ServerMetrics_extends_trans.
    + intros mInfo Hin. apply elem_of_cons in Hin as [->|Hin]; [|by auto].
      eauto using registered_extends.
Qed.


Lemma InitializeMetrics_run (serviceInfo : list (string * ServiceInfo))
    (m : ServerMetrics) :
  ServerMetrics_wf m →
  ∃ m',
    InitializeMetrics serviceInfo m = Some (tt, m')
    ∧ ServerMetrics_extends m m'
    ∧ ∀ serviceName info mInfo,
        (serviceName, info) ∈ serviceInfo → mInfo ∈ Methods info →
        registered m' serviceName mInfo.
Proof.
  revert m. induction serviceInfo as [|[svc info] serviceInfo IH]; intros m Hwf.
  - exists m. split_and!; [done|apply ServerMetrics_extends_refl|].
    intros ? ? ? Hin. by apply elem_of_nil in Hin.
  - destruct (for_each_methods_run svc (Methods info) m Hwf)
      as (m1 & E1 & X1 & R1).
    destruct (IH m1) as (m2 & E2 & X2 & R2).
    { eauto using ServerMetrics_extends_wf. }
    exists m2. split_and!.
    + unfold InitializeMetrics in *. cbn. unfold mbind, M_bind at 1.
      by rewrite E1.
    + eauto using ServerMetrics_extends_trans.
    + intros serviceName info' mInfo Hin Hm.
      apply elem_of_cons in Hin as [[= -> ->]|Hin]; [|by eauto].
      eauto using registered_extends.
Qed.




(** ** The histogram invariant *)

Lemma histogram_ok_spec (enabled : bool) (h : option HistogramVec) :
  histogram_ok enabled h = true ↔ (enabled = true → is_Some h).
Proof.
  destruct enabled, h; cbn; split; try done; eauto.
  intros H. by destruct (H eq_refl).
Qed.

Lemma NewServerMetrics_wf : ServerMetrics_wf NewServerMetrics.
Proof. reflexivity. Qed.

Lemma NewClientMetrics_wf (counterOpts : list CounterOption) :
  ClientMetrics_wf (NewClientMetrics counterOpts).
Proof. reflexivity. Qed.

Lemma EnableHandlingTimeHistogram_wf opts (m : ServerMetrics) :
  ServerMetrics_wf m →
  ServerMetrics_wf (EnableHandlingTimeHistogram opts m).
Proof.
  unfold ServerMetrics_wf, EnableHandlingTimeHistogram.
  by destruct m as [? ? ? ? [] ? []].
Qed.

Local Ltac enable_wf :=
  intros Hwf; apply ClientMetrics_wf_parts in Hwf;
  destruct Hwf as (Hh & Hr & Hs & Hzr & Hzs);
  apply ClientMetrics_wf_parts;
  match goal with
  | m : ClientMetrics |- _ => destruct m as []
  end; cbn in *; split_and!; try done;
  match goal with
  | |- context [negb ?b] => destruct b
  end; cbn; done.

Lemma EnableClientHandlingTimeHistogram_wf opts (m : ClientMetrics) :
  ClientMetrics_wf m →
  ClientMetrics_wf (EnableClientHandlingTimeHistogram opts m).
Proof. unfold EnableClientHandlingTimeHistogram. enable_wf. Qed.

Lemma EnableClientStreamReceiveTimeHistogram_wf opts (m : ClientMetrics) :
  ClientMetrics_wf m →
  ClientMetrics_wf (EnableClientStreamReceiveTimeHistogram opts m).
Proof. unfold EnableClientStreamReceiveTimeHistogram. enable_wf. Qed.

Lemma EnableClientStreamSendTimeHistogram_wf opts (m : ClientMetrics) :
  ClientMetrics_wf m →
  ClientMetrics_wf (EnableClientStreamSendTimeHistogram opts m).
Proof. unfold EnableClientStreamSendTimeHistogram. enable_wf. Qed.

Lemma EnableMsgSizeReceivedBytesHistogram_wf opts (m : ClientMetrics) :
  ClientMetrics_wf m →
  ClientMetrics_wf (EnableMsgSizeReceivedBytesHistogram opts m).
Proof. unfold EnableMsgSizeReceivedBytesHistogram. enable_wf. Qed.

Lemma EnableMsgSizeSentBytesHistogram_wf opts (m : ClientMetrics) :
  ClientMetrics_wf m →
  ClientMetrics_wf (EnableMsgSizeSentBytesHistogram opts m).
Proof. unfold EnableMsgSizeSentBytesHistogram. enable_wf. Qed.

Lemma exec_Some {W A : Type} (c : M W A) (w w' : W) (a : A) :
  c w = Some (a, w') → exec c w = Some w'.
Proof. unfold exec. by intros ->. Qed.

Lemma ServerMetrics_reachable_wf (m : ServerMetrics) :
  ServerMetrics_reachable m → ServerMetrics_wf m.
Proof.
  induction 1 as [|opts m _ IH|Req Resp req info handler m t w' _ IH E
                  |SS ss info handler m t w' _ IH E|serviceInfo m m' _ IH E].
  - apply NewServerMetrics_wf.
  - by apply EnableHandlingTimeHistogram_wf.
  - destruct (UnaryServerInterceptor_run req info handler
                {| metrics := m; trace := t |} IH) as (m1 & E1 & Hwf & _).
    apply exec_Some in E1. rewrite E1 in E. by injection E as <-.
  - destruct (StreamServerInterceptor_run ss info handler
                {| metrics := m; trace := t |} IH) as (m1 & E1 & Hwf & _).
    apply exec_Some in E1. rewrite E1 in E. by injection E as <-.
  - destruct (InitializeMetrics_run serviceInfo m IH) as (m1 & E1 & X & _).
    apply exec_Some in E1. rewrite E1 in E. injection E as <-.
    eauto using ServerMetrics_extends_wf.
Qed.

Lemma ClientMetrics_reachable_wf (m : ClientMetrics) :
  ClientMetrics_reachable m → ClientMetrics_wf m.
Proof.
  induction 1 as [counterOpts|opts m _ IH|opts m _ IH|opts m _ IH|opts m _ IH
                  |opts m _ IH|Req method req invoker m t w' _ IH E
                  |CS desc method streamer m t w' _ IH E
                  |CS s ops m t w' _ IH E].
  - apply NewClientMetrics_wf.
  - by apply EnableClientHandlingTimeHistogram_wf.
  - by apply EnableClientStreamReceiveTimeHistogram_wf.
  - by apply EnableClientStreamSendTimeHistogram_wf.
  - by apply EnableMsgSizeReceivedBytesHistogram_wf.
  - by apply EnableMsgSizeSentBytesHistogram_wf.
  - destruct (UnaryClientInterceptor_run method req invoker
                {| metrics := m; trace := t |} IH) as (m1 & E1 & Hwf & _).
    apply exec_Some in E1. rewrite E1 in E. by injection E as <-.
  - destruct (StreamClientInterceptor_run desc method streamer
                {| metrics := m; trace := t |} IH) as (m1 & E1 & Hwf & _).
    apply exec_Some in E1. rewrite E1 in E. by injection E as <-.
  - destruct (monitoredClientStream_run_spec s ops
                {| metrics := m; trace := t |} IH) as (m1 & E1 & Hwf & _).
    apply exec_Some in E1. rewrite E1 in E. by injection E as <-.
Qed.

(** C10: a fresh registry has every histogram flag off; in every server
    or client registry reachable through the public operations, a
    histogram whose flag is on has its vector, and [Describe] and
    [Collect] run without a nil dereference, whatever was sent on the
    channel before. *)
Theorem enabled_histograms_exist
    (ms : ServerMetrics) (mc : ClientMetrics)
    (counterOpts : list CounterOption)
    (descs : list Desc) (samples : list Metric) :
  ServerMetrics_reachable ms →
  ClientMetrics_reachable mc →
  (ServerMetrics_enabled NewServerMetrics = 0
   ∧ ClientMetrics_enabled (NewClientMetrics counterOpts) = 0)
  ∧ (ServerMetrics_wf ms
     ∧ (serverHandledHistogramEnabled ms = true →
        is_Some (serverHandledHistogram ms))
     ∧ no_panic (ServerMetrics_Describe ms) descs
     ∧ no_panic (ServerMetrics_Collect ms) samples)
  ∧ (ClientMetrics_wf mc
     ∧ (clientHandledHistogramEnabled mc = true →
        is_Some (clientHandledHistogram mc))
     ∧ (clientStreamRecvHistogramEnabled mc = true →
        is_Some (clientStreamRecvHistogram mc))
     ∧ (clientStreamSendHistogramEnabled mc = true →
        is_Some (clientStreamSendHistogram mc))
     ∧ (clientMsgSizeReceivedHistogramEnabled mc = true →
        is_Some (clientMsgSizeReceivedHistogram mc))
     ∧ (clientMsgSizeSentHistogramEnabled mc = true →
        is_Some (clientMsgSizeSentHistogram mc))
     ∧ no_panic (ClientMetrics_Describe mc) descs
     ∧ no_panic (ClientMetrics_Collect mc) samples).
Proof.
  intros Hs Hc.
  apply ServerMetrics_reachable_wf in Hs.
  apply ClientMetrics_reachable_wf in Hc.
  split; [done|]. split.
  - split_and!; [done|by apply histogram_ok_spec| |]; unfold no_panic.
    + by rewrite ServerMetrics_Describe_families.
    + by rewrite ServerMetrics_Collect_families.
  - pose proof Hc as Hparts. apply ClientMetrics_wf_parts in Hparts.
    destruct Hparts as (Hh & Hr & Hsd & Hzr & Hzs).
    split_and!; try done; try (by apply histogram_ok_spec); unfold no_panic.
    + by rewrite ClientMetrics_Describe_families.
    + by rewrite ClientMetrics_Collect_families.
Qed.

(** ** One call through an interceptor *)


(** C3 (as amended): a decorated client stream calls [Handled] once for
    every [RecvMsg] to which the wrapped stream answers end-of-stream or
    an error, and at no other time; over the life of the stream that is
    as many calls as there are such answers (so at most one when the
    owner stops reading after the first). *)
Theorem Handled_once_per_failed_RecvMsg {CS : Type}
    (s : monitoredClientStream CS) (ops : list StreamOp)
    (w : World ClientMetrics) :
  ClientMetrics_wf (metrics w) →
  ∃ w',
    exec (monitoredClientStream_run s ops) w = Some w'
    ∧ trace w' = trace w ++ concat (client_op_events <$> ops)
    ∧ calls is_Handled (trace w') = calls is_Handled (trace w) + recvs_failed ops.
Proof.
  intros Hwf.
  destruct (monitoredClientStream_run_spec s ops w Hwf) as (m' & E & _).
  eexists. split; [exact (exec_Some _ _ _ _ E)|]. cbn [metrics trace].
  split; [done|]. by rewrite calls_app, calls_Handled_client_ops.
Qed.

(** C4 (as amended): a unary call whose handler or invoker returns an
    error with status [NotFound] counts the handled series of (Unary,
    service, method, NotFound) up by one, on the server and on the
    client.  On the server no sent series changes.  On the client the
    sent series of the call goes up by one, since the request is counted
    before the invoker runs, and no received series changes. *)
Theorem unary_call_not_found {Req Resp CReq : Type}
    (req : Req) (info : UnaryServerInfo) (handler : Req → Resp * option error)
    (resp : Resp) (msg : string)
    (method : string) (creq : CReq) (invoker : string → CReq → option error)
    (ws : World ServerMetrics) (wc : World ClientMetrics) :
  ServerMetrics_wf (metrics ws) →
  ClientMetrics_wf (metrics wc) →
  handler req = (resp, Some (statusError NotFound msg)) →
  invoker method creq = Some (statusError NotFound msg) →
  (∃ ws',
     UnaryServerInterceptor req info handler ws
     = Some ((resp, Some (statusError NotFound msg)), ws')
     ∧ counter_plus (serverHandledCounter (metrics ws))
         (serverHandledCounter (metrics ws'))
         (call_labels Unary (usi_FullMethod info) ++ [Code_String NotFound]) 1
     ∧ counter_plus (serverStreamMsgSent (metrics ws))
         (serverStreamMsgSent (metrics ws'))
         (call_labels Unary (usi_FullMethod info)) 0)
  ∧ (∃ wc',
       UnaryClientInterceptor method creq invoker wc
       = Some (Some (statusError NotFound msg), wc')
       ∧ counter_plus (clientHandledCounter (metrics wc))
           (clientHandledCounter (metrics wc'))
           (call_labels Unary method ++ [Code_String NotFound]) 1
       ∧ counter_plus (clientStreamMsgSent (metrics wc))
           (clientStreamMsgSent (metrics wc')) (call_labels Unary method) 1
       ∧ counter_plus (clientStreamMsgReceived (metrics wc))
           (clientStreamMsgReceived (metrics wc')) (call_labels Unary method) 0).
Proof.
  intros Hs Hc Hh Hi. split.
  - destruct (UnaryServerInterceptor_run req info handler ws Hs)
      as (m' & E & _ & _ & _ & _ & Hhandled & Hsent & _).
    rewrite Hh in E, Hhandled, Hsent. cbn in *. eauto.
  - destruct (UnaryClientInterceptor_run method creq invoker wc Hc)
      as (m' & E & _ & _ & _ & Hsent & Hrecv & Hhandled & _).
    rewrite Hi in E, Hhandled, Hrecv. cbn in *. eauto 10.
Qed.

(** C5: from a registry whose enabled histograms exist, the unary client
    interceptor makes the reporter, records a sent message, calls the
    invoker, records a received message exactly when the invoker returned
    no error, calls [Handled] with [OK] for no error, with the code of the
    status the error carries, and with [Unknown] for an error without
    status; it makes no other call and returns the invoker's error as it
    is. *)
Theorem UnaryClientInterceptor_calls {Req : Type} (method : string) (req : Req)
    (invoker : string → Req → option error) (w : World ClientMetrics) :
  ClientMetrics_wf (metrics w) →
  let err := invoker method req in
  let code :=
    match err with
    | None => OK
    | Some (statusError c _) => c
    | Some _ => Unknown
    end in
  ∃ m',
    UnaryClientInterceptor method req invoker w
    = Some (err,
            {| metrics := m';
               trace := trace w
                 ++ [EvNewReporter Unary method; EvSentMessage; EvInvoker]
                 ++ (if err is None then [EvReceivedMessage] else [])
                 ++ [EvHandled code] |}).
Proof.
  intros Hwf.
  destruct (UnaryClientInterceptor_run method req invoker w Hwf) as (m' & E & _).
  exists m'. rewrite E. cbn.
  by destruct (invoker method req) as [[]|].
Qed.

(** C6: on a decorated stream, server or client, the sent series of the
    call goes up by the number of sends that succeeded and the received
    series by the number of receives that succeeded; nothing is counted
    for a send or receive that failed.  On the client the timer's
    [ObserveDuration] is called once per operation whatever its outcome,
    and an enabled send (receive) histogram gets one observation per send
    (receive) attempted. *)
Theorem stream_message_counters {SS CS : Type}
    (ss : monitoredServerStream SS) (cs : monitoredClientStream CS)
    (ops : list StreamOp)
    (ws : World ServerMetrics) (wc : World ClientMetrics) :
  ClientMetrics_wf (metrics wc) →
  (∃ ws',
     exec (monitoredServerStream_run ss ops) ws = Some ws'
     ∧ counter_plus (serverStreamMsgSent (metrics ws))
         (serverStreamMsgSent (metrics ws'))
         (serverReporter_labels (mss_monitor ss)) (sends_ok ops)
     ∧ counter_plus (serverStreamMsgReceived (metrics ws))
         (serverStreamMsgReceived (metrics ws'))
         (serverReporter_labels (mss_monitor ss)) (recvs_ok ops))
  ∧ (∃ wc',
       exec (monitoredClientStream_run cs ops) wc = Some wc'
       ∧ counter_plus (clientStreamMsgSent (metrics wc))
           (clientStreamMsgSent (metrics wc'))
           (clientReporter_labels (mcs_monitor cs)) (sends_ok ops)
       ∧ counter_plus (clientStreamMsgReceived (metrics wc))
           (clientStreamMsgReceived (metrics wc'))
           (clientReporter_labels (mcs_monitor cs)) (recvs_ok ops)
       ∧ calls is_ObserveDuration (trace wc')
         = calls is_ObserveDuration (trace wc) + length ops
       ∧ histogram_plus (clientStreamSendHistogram (metrics wc))
           (clientStreamSendHistogram (metrics wc'))
           (clientReporter_labels (mcs_monitor cs))
           (sends ops * Nat.b2n (clientStreamSendHistogramEnabled (metrics wc)))
       ∧ histogram_plus (clientStreamRecvHistogram (metrics wc))
           (clientStreamRecvHistogram (metrics wc'))
           (clientReporter_labels (mcs_monitor cs))
           (recvs ops * Nat.b2n (clientStreamRecvHistogramEnabled (metrics wc)))).
Proof.
  intros Hc. split.
  - destruct (monitoredServerStream_run_spec ss ops ws)
      as (m' & E & _ & _ & _ & _ & _ & Hsent & Hrecv).
    eexists. split; [exact (exec_Some _ _ _ _ E)|]. by cbn.
  - destruct (monitoredClientStream_run_spec cs ops wc Hc)
      as (m' & E & _ & _ & _ & Hsent & Hrecv & Hsh & Hrh).
    eexists. split; [exact (exec_Some _ _ _ _ E)|]. cbn [metrics trace].
    split_and!; try done.
    by rewrite calls_app, calls_ObserveDuration_client_ops.
Qed.

(** ** Further properties of the interceptors *)

(** X1: from a registry whose enabled histogram exists, the unary server
    interceptor makes the reporter, records a received message, calls the
    handler, calls [Handled] with [OK] for no error, the code of the
    status the error carries, or [Unknown] for an error without status,
    and only then, and only when the handler returned no error, records a
    sent message; it returns the handler's response and error as they
    are. *)
Theorem UnaryServerInterceptor_calls {Req Resp : Type} (req : Req)
    (info : UnaryServerInfo) (handler : Req → Resp * option error)
    (w : World ServerMetrics) :
  ServerMetrics_wf (metrics w) →
  let err := (handler req).2 in
  let code :=
    match err with
    | None => OK
    | Some (statusError c _) => c
    | Some _ => Unknown
    end in
  ∃ m',
    UnaryServerInterceptor req info handler w
    = Some (handler req,
            {| metrics := m';
               trace := trace w
                 ++ [EvNewReporter Unary (usi_FullMethod info);
                     EvReceivedMessage; EvHandler; EvHandled code]
                 ++ (if err is None then [EvSentMessage] else []) |}).
Proof.
  intros Hwf.
  destruct (UnaryServerInterceptor_run req info handler w Hwf) as (m' & E & _).
  exists m'. rewrite E. by destruct (handler req).2 as [[]|].
Qed.

(** X2: from a registry whose enabled histogram exists, the streaming
    server interceptor makes a reporter of the shape the stream flags
    give, calls the handler on the decorated stream, and calls [Handled]
    once the handler has returned, with the code of the handler's error;
    the handler's sends and receives come in between and none of them
    calls [Handled].  It returns the handler's error as it is. *)
Theorem StreamServerInterceptor_calls {SS : Type} (ss : SS)
    (info : StreamServerInfo) (handler : StreamHandler)
    (w : World ServerMetrics) :
  ServerMetrics_wf (metrics w) →
  let code :=
    match sh_err handler with
    | None => OK
    | Some (statusError c _) => c
    | Some _ => Unknown
    end in
  ∃ m',
    StreamServerInterceptor ss info handler w
    = Some (sh_err handler,
            {| metrics := m';
               trace := trace w
                 ++ [EvNewReporter (streamRpcType info) (ssi_FullMethod info);
                     EvHandler]
                 ++ concat (server_op_events <$> sh_ops handler)
                 ++ [EvHandled code] |})
    ∧ calls is_Handled (concat (server_op_events <$> sh_ops handler)) = 0.
Proof.
  intros Hwf.
  destruct (StreamServerInterceptor_run ss info handler w Hwf) as (m' & E & _).
  exists m'. rewrite E. split; [|apply calls_Handled_server_ops].
  by destruct (sh_err handler) as [[]|].
Qed.

(** X3: from a registry whose enabled histograms exist, the streaming
    client interceptor makes a reporter of the shape the stream flags give
    and calls the streamer.  When the streamer fails it calls [Handled]
    with the code of the error and returns no stream and the error as it
    is.  When the streamer succeeds it makes no further call and returns,
    without error, a decorated stream that wraps the streamer's stream and
    reports under the label values of the call. *)
Theorem StreamClientInterceptor_calls {CS : Type} (desc : StreamDesc)
    (method : string) (streamer : StreamDesc → string → CS * option error)
    (w : World ClientMetrics) :
  ClientMetrics_wf (metrics w) →
  ∃ res m' t',
    StreamClientInterceptor desc method streamer w
    = Some (res, {| metrics := m';
                    trace := trace w
                      ++ [EvNewReporter (clientStreamType desc) method;
                          EvStreamer] ++ t' |})
    ∧ match (streamer desc method).2 with
      | Some e =>
          res = (None, Some e)
          ∧ t' = [EvHandled (match e with statusError c _ => c | _ => Unknown end)]
      | None =>
          t' = []
          ∧ ∃ s, res = (Some s, None)
                 ∧ mcs_ClientStream s = (streamer desc method).1
                 ∧ clientReporter_labels (mcs_monitor s)
                   = call_labels (clientStreamType desc) method
      end.
Proof.
  intros Hwf.
  destruct (StreamClientInterceptor_run desc method streamer w Hwf)
    as (m' & E & _).
  eexists _, m', _. rewrite E. split; [reflexivity|].
  unfold StreamClientInterceptor_result.
  destruct (streamer desc method) as [cs [e|]]; cbn.
  - by destruct e.
  - split; [done|]. by eexists.
Qed.

Lemma monitoredServerStream_SendMsg_run {SS : Type}
    (s : monitoredServerStream SS) (inner : option error)
    (w : World ServerMetrics) :
  ∃ m',
    monitoredServerStream_SendMsg s inner w
    = Some (inner,
            {| metrics := m';
               trace := trace w ++ server_op_events (OpSendMsg inner) |}).
Proof.
  destruct s as [ss r], w as [m t], m as [], inner as [e|]; run_server.
  all: eexists; rewrite <- ?app_assoc; reflexivity.
Qed.

Lemma monitoredServerStream_RecvMsg_run {SS : Type}
    (s : monitoredServerStream SS) (inner : option error)
    (w : World ServerMetrics) :
  ∃ m',
    monitoredServerStream_RecvMsg s inner w
    = Some (inner,
            {| metrics := m';
               trace := trace w ++ server_op_events (OpRecvMsg inner) |}).
Proof.
  destruct s as [ss r], w as [m t], m as [], inner as [e|]; run_server.
  all: eexists; rewrite <- ?app_assoc; reflexivity.
Qed.

Lemma monitoredClientStream_SendMsg_run {CS : Type}
    (s : monitoredClientStream CS) (inner : option error)
    (w : World ClientMetrics) :
  ClientMetrics_wf (metrics w) →
  ∃ m',
    monitoredClientStream_SendMsg s inner w
    = Some (inner,
            {| metrics := m';
               trace := trace w ++ client_op_events (OpSendMsg inner) |}).
Proof.
  client_start w H. destruct s as [cs r]. destruct inner as [e|].
  all: destruct clientStreamSendHistogramEnabled0;
    [destruct clientStreamSendHistogram0; [|discriminate Hs]|].
  all: run_client.
  all: eexists; rewrite <- ?app_assoc; reflexivity.
Qed.

Lemma monitoredClientStream_RecvMsg_run {CS : Type}
    (s : monitoredClientStream CS) (inner : option error)
    (w : World ClientMetrics) :
  ClientMetrics_wf (metrics w) →
  ∃ m',
    monitoredClientStream_RecvMsg s inner w
    = Some (inner,
            {| metrics := m';
               trace := trace w ++ client_op_events (OpRecvMsg inner) |}).
Proof.
  client_start w H. destruct s as [cs r].
  destruct inner as [e|]; try destruct e.
  all: destruct clientHandledHistogramEnabled0;
    [destruct clientHandledHistogram0; [|discriminate Hh]|].
  all: destruct clientStreamRecvHistogramEnabled0;
    [destruct clientStreamRecvHistogram0; [|discriminate Hr]|].
  all: run_client.
  all: eexists; rewrite <- ?app_assoc; reflexivity.
Qed.

(** X4: the stream decorators hand back what the wrapped stream answers:
    [SendMsg] and [RecvMsg], on the server and on the client, return the
    inner error (or nil) as it is.  A send records a sent message exactly
    when the inner send returned nil, and never calls [Handled], not even
    when it fails.  On the client the timer is made before the inner call
    and stopped right after it, before anything is counted. *)
Theorem stream_decorators_transparent {SS CS : Type}
    (ss : monitoredServerStream SS) (cs : monitoredClientStream CS)
    (inner : option error)
    (ws : World ServerMetrics) (wc : World ClientMetrics) :
  ClientMetrics_wf (metrics wc) →
  (∃ m',
     monitoredServerStream_SendMsg ss inner ws
     = Some (inner,
             {| metrics := m';
                trace := trace ws ++ [EvInnerSendMsg]
                  ++ (if inner is None then [EvSentMessage] else []) |}))
  ∧ (∃ m',
       monitoredServerStream_RecvMsg ss inner ws
       = Some (inner,
               {| metrics := m';
                  trace := trace ws ++ [EvInnerRecvMsg]
                    ++ (if inner is None then [EvReceivedMessage] else []) |}))
  ∧ (∃ m',
       monitoredClientStream_SendMsg cs inner wc
       = Some (inner,
               {| metrics := m';
                  trace := trace wc
                    ++ [EvSendMessageTimer; EvInnerSendMsg; EvObserveDuration]
                    ++ (if inner is None then [EvSentMessage] else []) |}))
  ∧ (∃ m' last,
       monitoredClientStream_RecvMsg cs inner wc
       = Some (inner,
               {| metrics := m';
                  trace := trace wc
                    ++ [EvReceiveMessageTimer; EvInnerRecvMsg;
                        EvObserveDuration; last] |})
       ∧ (inner = None ↔ last = EvReceivedMessage)
       ∧ (inner ≠ None ↔ is_Handled last = true)).
Proof.
  intros Hc. split_and!.
  - destruct (monitoredServerStream_SendMsg_run ss inner ws) as (m' & E).
    exists m'. by rewrite E.
  - destruct (monitoredServerStream_RecvMsg_run ss inner ws) as (m' & E).
    exists m'. by rewrite E.
  - destruct (monitoredClientStream_SendMsg_run cs inner wc Hc) as (m' & E).
    exists m'. by rewrite E.
  - destruct (monitoredClientStream_RecvMsg_run cs inner wc Hc) as (m' & E).
    eexists m', _. rewrite E. split; [reflexivity|].
    destruct inner as [[]|]; cbn; split; split; done.
Qed.

(** X5: end-of-stream counts as success only for a read.  [RecvMsg]
    reports an inner [io.EOF] with [Handled(OK)]; the unary client
    interceptor and the streaming client interceptor report the same
    [io.EOF], returned by the invoker or the streamer, with
    [Handled(Unknown)], as any error without status. *)
Theorem EOF_is_OK_only_for_RecvMsg {CS Req : Type}
    (cs : monitoredClientStream CS)
    (method : string) (req : Req) (invoker : string → Req → option error)
    (desc : StreamDesc) (stream : CS)
    (streamer : StreamDesc → string → CS * option error)
    (w : World ClientMetrics) :
  ClientMetrics_wf (metrics w) →
  invoker method req = Some io_EOF →
  streamer desc method = (stream, Some io_EOF) →
  (∃ m',
     monitoredClientStream_RecvMsg cs (Some io_EOF) w
     = Some (Some io_EOF,
             {| metrics := m';
                trace := trace w
                  ++ [EvReceiveMessageTimer; EvInnerRecvMsg; EvObserveDuration;
                      EvHandled OK] |}))
  ∧ (∃ m',
       UnaryClientInterceptor method req invoker w
       = Some (Some io_EOF,
               {| metrics := m';
                  trace := trace w
                    ++ [EvNewReporter Unary method; EvSentMessage; EvInvoker;
                        EvHandled Unknown] |}))
  ∧ (∃ m',
       StreamClientInterceptor desc method streamer w
       = Some ((None, Some io_EOF),
               {| metrics := m';
                  trace := trace w
                    ++ [EvNewReporter (clientStreamType desc) method;
                        EvStreamer; EvHandled Unknown] |})).
Proof.
  intros Hc Hi Hs. split_and!.
  - destruct (monitoredClientStream_RecvMsg_run cs (Some io_EOF) w Hc)
      as (m' & E).
    exists m'. by rewrite E.
  - destruct (UnaryClientInterceptor_run method req invoker w Hc)
      as (m' & E & _).
    exists m'. rewrite E, Hi. reflexivity.
  - destruct (StreamClientInterceptor_run desc method streamer w Hc)
      as (m' & E & _).
    exists m'. rewrite E, Hs. reflexivity.
Qed.

Lemma calls_NewReporter_client_ops (ops : list StreamOp) :
  calls is_NewReporter (concat (client_op_events <$> ops)) = 0.
Proof.
  induction ops as [|op ops IH]; [done|].
  cbn [fmap list_fmap concat]. rewrite calls_app, IH.
  destruct op as [[e|]|[e|]]; try destruct e; reflexivity.
Qed.

(** X6: a streaming client call as a whole.  When the streamer succeeds,
    the interceptor returns a decorated stream, and whatever the owner
    then does on it, the call has one reporter and its started series is
    one higher; its sent and received series, under the same label
    values, are higher by the sends and receives that succeeded; and
    [Handled] was called once per receive that returned end-of-stream or
    an error.  So a stream read up to its first failing receive is
    reported once, and a stream that is never read to its end is never
    reported. *)
Theorem client_stream_call {CS : Type} (desc : StreamDesc) (method : string)
    (streamer : StreamDesc → string → CS * option error)
    (ops : list StreamOp) (w : World ClientMetrics) :
  ClientMetrics_wf (metrics w) →
  (streamer desc method).2 = None →
  let lvs := call_labels (clientStreamType desc) method in
  ∃ s w1 w2,
    StreamClientInterceptor desc method streamer w = Some ((Some s, None), w1)
    ∧ exec (monitoredClientStream_run s ops) w1 = Some w2
    ∧ calls is_NewReporter (trace w2) = calls is_NewReporter (trace w) + 1
    ∧ calls is_Handled (trace w2) = calls is_Handled (trace w) + recvs_failed ops
    ∧ counter_plus (clientStartedCounter (metrics w))
        (clientStartedCounter (metrics w2)) lvs 1
    ∧ counter_plus (clientStreamMsgSent (metrics w))
        (clientStreamMsgSent (metrics w2)) lvs (sends_ok ops)
    ∧ counter_plus (clientStreamMsgReceived (metrics w))
        (clientStreamMsgReceived (metrics w2)) lvs (recvs_ok ops).
Proof.
  intros Hwf Hok lvs.
  destruct (StreamClientInterceptor_run desc method streamer w Hwf)
    as (m1 & E1 & Hwf1 & _ & Hst1 & Hsent1 & Hrecv1 & _).
  rewrite Hok in E1. unfold StreamClientInterceptor_result in E1.
  rewrite Hok in E1.
  set (s := {| mcs_ClientStream := (streamer desc method).1;
               mcs_monitor := call_reporter (clientStreamType desc) method |})
    in E1.
  pose (w1 := {| metrics := m1;
                 trace := trace w
                   ++ [EvNewReporter (clientStreamType desc) method;
                       EvStreamer] ++ [] |}).
  destruct (monitoredClientStream_run_spec s ops w1 Hwf1)
    as (m2 & E2 & _ & _ & Hst2 & Hsent2 & Hrecv2 & _).
  exists s, w1, {| metrics := m2;
                   trace := trace w1 ++ concat (client_op_events <$> ops) |}.
  split; [exact E1|]. split; [exact (exec_Some _ _ _ _ E2)|].
  subst w1. cbn [metrics trace] in *.
  split_and!.
  - rewrite !calls_app, calls_NewReporter_client_ops.
    change (calls is_NewReporter [EvNewReporter _ _; EvStreamer]) with 1.
    change (calls is_NewReporter []) with 0. lia.
  - rewrite !calls_app, calls_Handled_client_ops.
    change (calls is_Handled [EvNewReporter _ _; EvStreamer]) with 0.
    change (calls is_Handled []) with 0. lia.
  - by rewrite Hst2.
  - rewrite Hsent1 in Hsent2. exact Hsent2.
  - rewrite Hrecv1 in Hrecv2. exact Hrecv2.
Qed.

(** X7: the handled series is labelled with the code of the call's
    outcome.  The unary server, streaming server and unary client
    interceptors count up by one the handled series of the call for the
    code of the returned error ([OK] for nil, [Unknown] for an error
    without status) and no other handled series; the streaming client
    interceptor does the same when the streamer fails and counts nothing
    when it succeeds. *)
Theorem handled_series_has_code_of_error {Req Resp SS CReq CS : Type}
    (req : Req) (uinfo : UnaryServerInfo) (uhandler : Req → Resp * option error)
    (ss : SS) (sinfo : StreamServerInfo) (shandler : StreamHandler)
    (method : string) (creq : CReq) (invoker : string → CReq → option error)
    (desc : StreamDesc) (streamer : StreamDesc → string → CS * option error)
    (ws : World ServerMetrics) (wc : World ClientMetrics) :
  ServerMetrics_wf (metrics ws) →
  ClientMetrics_wf (metrics wc) →
  (∃ ws',
     exec (UnaryServerInterceptor req uinfo uhandler) ws = Some ws'
     ∧ counter_plus (serverHandledCounter (metrics ws))
         (serverHandledCounter (metrics ws'))
         (call_labels Unary (usi_FullMethod uinfo)
            ++ [Code_String (grpc_Code (uhandler req).2)]) 1)
  ∧ (∃ ws',
       exec (StreamServerInterceptor ss sinfo shandler) ws = Some ws'
       ∧ counter_plus (serverHandledCounter (metrics ws))
           (serverHandledCounter (metrics ws'))
           (call_labels (streamRpcType sinfo) (ssi_FullMethod sinfo)
              ++ [Code_String (grpc_Code (sh_err shandler))]) 1)
  ∧ (∃ wc',
       exec (UnaryClientInterceptor method creq invoker) wc = Some wc'
       ∧ counter_plus (clientHandledCounter (metrics wc))
           (clientHandledCounter (metrics wc'))
           (call_labels Unary method
              ++ [Code_String (grpc_Code (invoker method creq))]) 1)
  ∧ (∃ wc',
       exec (StreamClientInterceptor desc method streamer) wc = Some wc'
       ∧ counter_plus (clientHandledCounter (metrics wc))
           (clientHandledCounter (metrics wc'))
           (call_labels (clientStreamType desc) method
              ++ [Code_String (grpc_Code (streamer desc method).2)])
           (if (streamer desc method).2 is None then 0 else 1)).
Proof.
  intros Hs Hc. split_and!.
  - destruct (UnaryServerInterceptor_run req uinfo uhandler ws Hs)
      as (m' & E & _ & _ & _ & _ & Hh & _).
    eexists. split; [exact (exec_Some _ _ _ _ E)|]. exact Hh.
  - destruct (StreamServerInterceptor_run ss sinfo shandler ws Hs)
      as (m' & E & _ & _ & _ & Hh & _).
    eexists. split; [exact (exec_Some _ _ _ _ E)|]. exact Hh.
  - destruct (UnaryClientInterceptor_run method creq invoker wc Hc)
      as (m' & E & _ & _ & _ & _ & _ & Hh & _).
    eexists. split; [exact (exec_Some _ _ _ _ E)|]. cbn [metrics].
    by destruct (invoker method creq) as [[]|].
  - destruct (StreamClientInterceptor_run desc method streamer wc Hc)
      as (m' & E & _ & _ & _ & _ & _ & Hh & _).
    eexists. split; [exact (exec_Some _ _ _ _ E)|]. cbn [metrics].
    by destruct (streamer desc method).2 as [[]|].
Qed.

(** X8: a streaming server call as a whole: besides the started series,
    the sent and received series of the call, under the label values the
    interceptor derived from the stream info, are higher by the sends and
    receives of the handler that succeeded, and the handling-time
    histogram, when enabled, has one more observation for the call. *)
Theorem server_stream_call {SS : Type} (ss : SS) (info : StreamServerInfo)
    (handler : StreamHandler) (w : World ServerMetrics) :
  ServerMetrics_wf (metrics w) →
  let lvs := call_labels (streamRpcType info) (ssi_FullMethod info) in
  ∃ w',
    exec (StreamServerInterceptor ss info handler) w = Some w'
    ∧ counter_plus (serverStartedCounter (metrics w))
        (serverStartedCounter (metrics w')) lvs 1
    ∧ counter_plus (serverStreamMsgSent (metrics w))
        (serverStreamMsgSent (metrics w')) lvs (sends_ok (sh_ops handler))
    ∧ counter_plus (serverStreamMsgReceived (metrics w))
        (serverStreamMsgReceived (metrics w')) lvs (recvs_ok (sh_ops handler))
    ∧ histogram_plus (serverHandledHistogram (metrics w))
        (serverHandledHistogram (metrics w')) lvs
        (Nat.b2n (serverHandledHistogramEnabled (metrics w))).
Proof.
  intros Hwf lvs.
  destruct (StreamServerInterceptor_run ss info handler w Hwf)
    as (m' & E & _ & _ & Hst & _ & Hsent & Hrecv & Hh).
  eexists. split; [exact (exec_Some _ _ _ _ E)|]. by cbn [metrics].
Qed.

(** ** Further properties of enabling *)

Local Ltac enable_algebra :=
  intros; 
  match goal with
  | m : ServerMetrics |- _ => destruct m as []
  | m : ClientMetrics |- _ => destruct m as []
  end; cbn;
  repeat match goal with
  | |- context [if negb ?b then _ else _] => is_var b; destruct b; cbn
  end; repeat split; reflexivity.

(** X9: enabling a histogram touches nothing but that histogram: each of
    the six enabling operations keeps the four counters with their
    series, and the five client operations commute with each other, so
    the order in which histograms are enabled does not matter. *)
Theorem Enable_histograms_independent :
  (keeps_server_counters EnableHandlingTimeHistogram
   ∧ keeps_client_counters EnableClientHandlingTimeHistogram
   ∧ keeps_client_counters EnableClientStreamReceiveTimeHistogram
   ∧ keeps_client_counters EnableClientStreamSendTimeHistogram
   ∧ keeps_client_counters EnableMsgSizeReceivedBytesHistogram
   ∧ keeps_client_counters EnableMsgSizeSentBytesHistogram)
  ∧ (commute EnableClientHandlingTimeHistogram
       EnableClientStreamReceiveTimeHistogram
     ∧ commute EnableClientHandlingTimeHistogram
         EnableClientStreamSendTimeHistogram
     ∧ commute EnableClientHandlingTimeHistogram
         EnableMsgSizeReceivedBytesHistogram
     ∧ commute EnableClientHandlingTimeHistogram
         EnableMsgSizeSentBytesHistogram
     ∧ commute EnableClientStreamReceiveTimeHistogram
         EnableClientStreamSendTimeHistogram
     ∧ commute EnableClientStreamReceiveTimeHistogram
         EnableMsgSizeReceivedBytesHistogram
     ∧ commute EnableClientStreamReceiveTimeHistogram
         EnableMsgSizeSentBytesHistogram
     ∧ commute EnableClientStreamSendTimeHistogram
         EnableMsgSizeReceivedBytesHistogram
     ∧ commute EnableClientStreamSendTimeHistogram
         EnableMsgSizeSentBytesHistogram
     ∧ commute EnableMsgSizeReceivedBytesHistogram
         EnableMsgSizeSentBytesHistogram).
Proof.
  unfold keeps_server_counters, keeps_client_counters, commute,
    EnableHandlingTimeHistogram, EnableClientHandlingTimeHistogram,
    EnableClientStreamReceiveTimeHistogram,
    EnableClientStreamSendTimeHistogram, EnableMsgSizeReceivedBytesHistogram,
    EnableMsgSizeSentBytesHistogram.
  split.
  - refine (conj _ (conj _ (conj _ (conj _ (conj _ _))))); enable_algebra.
  - refine (conj _ (conj _ (conj _ (conj _ (conj _ (conj _ (conj _ (conj _
             (conj _ _))))))))); enable_algebra.
Qed.




Lemma series_metrics_empty (d : Desc) : series_metrics d ∅ = [].
Proof. unfold series_metrics. by rewrite map_to_list_empty. Qed.

Local Ltac enable_collect :=
  match goal with
  | H : ClientMetrics_wf ?m |- _ =>
      apply ClientMetrics_wf_parts in H;
      destruct H as (Hch & Hcr & Hcs & Hczr & Hczs);
      destruct m as []; cbn in Hch, Hcr, Hcs, Hczr, Hczs
  end;
  unfold EnableClientHandlingTimeHistogram,
    EnableClientStreamReceiveTimeHistogram,
    EnableClientStreamSendTimeHistogram, EnableMsgSizeReceivedBytesHistogram,
    EnableMsgSizeSentBytesHistogram; cbn;
  case_histograms; run_collector;
  rewrite ?series_metrics_empty, ?app_nil_r; reflexivity.

(** X11: enabling a histogram adds a descriptor and no sample.  On a
    server registry whose histogram flag is off, [Describe] after
    [EnableHandlingTimeHistogram] sends the descriptors it sent before
    followed by the one of the new histogram, named by the accumulated
    options; when the flag was on it sends the same as before.  [Collect]
    sends the same samples before and after each of the six enabling
    operations. *)
Theorem Enable_adds_descriptor_no_sample
    (ms : ServerMetrics) (mc : ClientMetrics) (opts : list HistogramOption)
    (descs : list Desc) (samples : list Metric) :
  ServerMetrics_wf ms →
  ClientMetrics_wf mc →
  ServerMetrics_Describe (EnableHandlingTimeHistogram opts ms) descs
  = Some (tt,
          descs ++ (Family_desc <$> ServerMetrics_families ms)
          ++ (if serverHandledHistogramEnabled ms then []
              else [ {| fqName :=
                          Name (apply_options opts
                                  (serverHandledHistogramOpts ms));
                        help :=
                          Help (apply_options opts
                                  (serverHandledHistogramOpts ms));
                        variableLabels :=
                          ["grpc_type"; "grpc_service"; "grpc_method"] |} ]))
  ∧ ServerMetrics_Collect (EnableHandlingTimeHistogram opts ms) samples
    = ServerMetrics_Collect ms samples
  ∧ ClientMetrics_Collect (EnableClientHandlingTimeHistogram opts mc) samples
    = ClientMetrics_Collect mc samples
  ∧ ClientMetrics_Collect (EnableClientStreamReceiveTimeHistogram opts mc)
      samples
    = ClientMetrics_Collect mc samples
  ∧ ClientMetrics_Collect (EnableClientStreamSendTimeHistogram opts mc) samples
    = ClientMetrics_Collect mc samples
  ∧ ClientMetrics_Collect (EnableMsgSizeReceivedBytesHistogram opts mc) samples
    = ClientMetrics_Collect mc samples
  ∧ ClientMetrics_Collect (EnableMsgSizeSentBytesHistogram opts mc) samples
    = ClientMetrics_Collect mc samples.
Proof.
  intros Hs Hc. split_and!.
  - unfold ServerMetrics_wf, EnableHandlingTimeHistogram in *.
    destruct ms as []. cbn in Hs. rename Hs into H.
    case_histograms; run_collector; by rewrite <- ?app_assoc.
  - unfold ServerMetrics_wf, EnableHandlingTimeHistogram in *.
    destruct ms as []. cbn in Hs. rename Hs into H.
    case_histograms; run_collector;
      rewrite ?series_metrics_empty, ?app_nil_r; reflexivity.
  - enable_collect.
  - enable_collect.
  - enable_collect.
  - enable_collect.
  - enable_collect.
Qed.

(** ** Further properties of pre-registration *)

Lemma series_touched_nil (s : gmap LabelValues nat) : series_touched [] s s.
Proof.
  intros lvs. destruct (s !! lvs); [done|].
  case_decide as H; [|done]. by apply elem_of_nil in H.
Qed.

Lemma series_touched_touch (k : LabelValues) (s : gmap LabelValues nat) :
  series_touched [k] s (touch k s).
Proof.
  intros lvs. unfold touch. destruct (s !! k) eqn:Ek.
  - destruct (s !! lvs) eqn:El; [done|].
    case_decide as H; [|done]. apply list_elem_of_singleton in H. congruence.
  - destruct (decide (lvs = k)) as [->|Hne].
    + rewrite lookup_insert_eq, Ek. case_decide as H; [done|].
      exfalso. apply H. by left.
    + rewrite lookup_insert_ne by congruence.
      destruct (s !! lvs); [done|]. case_decide as H; [|done].
      apply list_elem_of_singleton in H. congruence.
Qed.

Lemma series_touched_app (ks1 ks2 : list LabelValues)
    (s s1 s2 : gmap LabelValues nat) :
  series_touched ks1 s s1 → series_touched ks2 s1 s2 →
  series_touched (ks1 ++ ks2) s s2.
Proof.
  intros H1 H2 lvs. rewrite H2, H1. destruct (s !! lvs); [done|].
  destruct (decide (lvs ∈ ks1)) as [Hin1|Hout1].
  - rewrite decide_True; [done|]. apply elem_of_app. by left.
  - destruct (decide (lvs ∈ ks2)) as [Hin2|Hout2].
    + rewrite decide_True; [done|]. apply elem_of_app. by right.
    + rewrite decide_False; [done|]. rewrite elem_of_app. by intros [|].
Qed.

Lemma series_touched_unique (ks ks' : list LabelValues)
    (s s1 s2 : gmap LabelValues nat) :
  (∀ k, k ∈ ks ↔ k ∈ ks') →
  series_touched ks s s1 → series_touched ks' s s2 → s1 = s2.
Proof.
  intros Heq H1 H2. apply map_eq. intros lvs. rewrite H1, H2.
  destruct (s !! lvs); [done|].
  destruct (decide (lvs ∈ ks)) as [Hin|Hout].
  - rewrite decide_True; [done|]. by apply Heq.
  - rewrite decide_False; [done|]. intros Hin. by apply Hout, Heq.
Qed.



Lemma counter_touched_nil (v : CounterVec) : counter_touched [] v v.
Proof. split; [done|apply series_touched_nil]. Qed.

Lemma counter_touched_app (ks1 ks2 : list LabelValues) (v v1 v2 : CounterVec) :
  counter_touched ks1 v v1 → counter_touched ks2 v1 v2 →
  counter_touched (ks1 ++ ks2) v v2.
Proof.
  intros [D1 S1] [D2 S2]. split; [congruence|].
  eauto using series_touched_app.
Qed.

Lemma counter_touched_touch (k : LabelValues) (v : CounterVec) :
  counter_touched [k] v (CounterVec_GetMetricWithLabelValues k v).
Proof. split; [done|apply series_touched_touch]. Qed.

Lemma counter_touched_unique (ks ks' : list LabelValues) (v v1 v2 : CounterVec) :
  (∀ k, k ∈ ks ↔ k ∈ ks') →
  counter_touched ks v v1 → counter_touched ks' v v2 → v1 = v2.
Proof.
  intros Heq [D1 S1] [D2 S2]. destruct v1 as [d1 s1], v2 as [d2 s2].
  cbn in *. f_equal; [congruence|].
  eauto using series_touched_unique.
Qed.

Lemma histogram_touched_nil (enabled : bool) (h : option HistogramVec) :
  histogram_ok enabled h = true → histogram_touched [] enabled h h.
Proof.
  destruct enabled, h; cbn; try done.
  intros _. split_and!; try done. apply series_touched_nil.
Qed.

Lemma histogram_touched_app (ks1 ks2 : list LabelValues) (enabled : bool)
    (h h1 h2 : option HistogramVec) :
  histogram_touched ks1 enabled h h1 → histogram_touched ks2 enabled h1 h2 →
  histogram_touched (ks1 ++ ks2) enabled h h2.
Proof.
  destruct enabled; cbn; [|congruence].
  destruct h, h1, h2; try done.
  intros (D1 & B1 & S1) (D2 & B2 & S2). split_and!; try congruence.
  eauto using series_touched_app.
Qed.

Lemma histogram_touched_unique (ks ks' : list LabelValues) (enabled : bool)
    (h h1 h2 : option HistogramVec) :
  (∀ k, k ∈ ks ↔ k ∈ ks') →
  histogram_touched ks enabled h h1 → histogram_touched ks' enabled h h2 →
  h1 = h2.
Proof.
  intros Heq. destruct enabled; cbn; [|congruence].
  destruct h, h1 as [[d1 b1 s1]|], h2 as [[d2 b2 s2]|]; try done.
  cbn. intros (D1 & B1 & S1) (D2 & B2 & S2). f_equal.
  f_equal; [congruence|congruence|]. eauto using series_touched_unique.
Qed.

Lemma ServerMetrics_touched_nil (m : ServerMetrics) :
  ServerMetrics_wf m → ServerMetrics_touched [] m m.
Proof.
  intros Hwf. unfold ServerMetrics_touched.
  split_and!; try done; try apply counter_touched_nil.
  by apply histogram_touched_nil.
Qed.

Lemma ServerMetrics_touched_app (ms1 ms2 : list (string * MethodInfo))
    (m m1 m2 : ServerMetrics) :
  ServerMetrics_touched ms1 m m1 → ServerMetrics_touched ms2 m1 m2 →
  ServerMetrics_touched (ms1 ++ ms2) m m2.
Proof.
  intros (A1 & A2 & A3 & A4 & A5 & A6 & A7) (B1 & B2 & B3 & B4 & B5 & B6 & B7).
  unfold ServerMetrics_touched, method_keys, handled_keys.
  rewrite fmap_app, bind_app. rewrite A5 in B7.
  split_and!; try congruence;
    eauto using counter_touched_app, histogram_touched_app.
Qed.

Lemma ServerMetrics_touched_unique (ms ms' : list (string * MethodInfo))
    (m m1 m2 : ServerMetrics) :
  (∀ p, p ∈ ms ↔ p ∈ ms') →
  ServerMetrics_touched ms m m1 → ServerMetrics_touched ms' m m2 → m1 = m2.
Proof.
  intros Heq (A1 & A2 & A3 & A4 & A5 & A6 & A7)
    (B1 & B2 & B3 & B4 & B5 & B6 & B7).
  assert (∀ k, k ∈ method_keys ms ↔ k ∈ method_keys ms') as Hk.
  { intros k. unfold method_keys. rewrite !list_elem_of_fmap.
    split; intros (p & -> & Hp); exists p; (split; [done|]); by apply Heq. }
  assert (∀ k, k ∈ handled_keys ms ↔ k ∈ handled_keys ms') as Hhk.
  { intros k. unfold handled_keys. rewrite !list_elem_of_bind.
    split; intros (p & Hkp & Hp); exists p; (split; [done|]); by apply Heq. }
  destruct m1 as [], m2 as []. cbn in *. f_equal;
    eauto using counter_touched_unique, histogram_touched_unique;
    congruence.
Qed.

Lemma handled_series_touched (key : Code → LabelValues) (codes : list Code)
    (m : ServerMetrics) :
  counter_touched (key <$> codes) (serverHandledCounter m)
    (serverHandledCounter (foldl (touch_handled key) m codes)).
Proof.
  revert m. induction codes as [|c codes IH]; intros m; cbn.
  - apply counter_touched_nil.
  - change (key c :: (key <$> codes)) with ([key c] ++ (key <$> codes)).
    eapply counter_touched_app; [|apply IH].
    destruct m as []. apply counter_touched_touch.
Qed.

Lemma method_keys_singleton (serviceName : string) (mInfo : MethodInfo) :
  method_keys [(serviceName, mInfo)] = [method_labels serviceName mInfo].
Proof. reflexivity. Qed.

Lemma handled_keys_singleton (serviceName : string) (mInfo : MethodInfo) :
  handled_keys [(serviceName, mInfo)]
  = (λ code, method_labels serviceName mInfo ++ [Code_String code])
      <$> allCodes.
Proof.
  unfold handled_keys.
  change [(serviceName, mInfo)] with ([(serviceName, mInfo)] ++ []).
  rewrite bind_app. cbn [mbind list_bind]. by rewrite !app_nil_r.
Qed.

Lemma preRegisterMethod_touched (serviceName : string) (mInfo : MethodInfo)
    (m : ServerMetrics) :
  ServerMetrics_wf m →
  ∃ m',
    preRegisterMethod serviceName mInfo m = Some (tt, m')
    ∧ ServerMetrics_touched [(serviceName, mInfo)] m m'.
Proof.
  intros Hwf.
  set (lvs := method_labels serviceName mInfo).
  set (m3 :=
    set_serverStreamMsgSent
      (CounterVec_GetMetricWithLabelValues lvs (serverStreamMsgSent m))
      (set_serverStreamMsgReceived
         (CounterVec_GetMetricWithLabelValues lvs (serverStreamMsgReceived m))
         (set_serverStartedCounter
            (CounterVec_GetMetricWithLabelValues lvs (serverStartedCounter m))
            m))).
  set (m4 :=
    match serverHandledHistogramEnabled m, serverHandledHistogram m with
    | true, Some h =>
        set_serverHandledHistogram
          (Some (HistogramVec_GetMetricWithLabelValues lvs h)) m3
    | _, _ => m3
    end).
  pose proof (handled_series_spec (λ code, lvs ++ [Code_String code])
                allCodes m4) as HS.
  pose proof (handled_series_touched (λ code, lvs ++ [Code_String code])
                allCodes m4) as HT.
  cbv zeta in HS. revert HS HT.
  set (m5 := foldl _ m4 allCodes).
  intros (A1 & A2 & A3 & A4 & A5 & A6 & _ & _) HT.
  exists m5. split.
  { subst m5 m4 m3 lvs.
    unfold ServerMetrics_wf, preRegisterMethod, touch_handled in *.
    generalize allCodes as codes. intros codes.
    destruct m as []. cbn in Hwf. rename Hwf into H.
    case_histograms; run_preRegister; by rewrite for_each_modify. }
  unfold ServerMetrics_touched.
  rewrite method_keys_singleton, handled_keys_singleton. fold lvs.
  rewrite A1, A2, A3, A4, A5, A6.
  assert (serverHandledCounter m4 = serverHandledCounter m) as Hh4.
  { subst m4 m3. by destruct m as [? ? ? ? [] ? []]. }
  rewrite Hh4 in HT.
  clearbody m5. clear A1 A2 A3 A4 A5 A6 Hh4.
  subst m4 m3. unfold ServerMetrics_wf in Hwf. destruct m as []. cbn in *.
  rename Hwf into H.
  case_histograms; cbn.
  all: split_and!; try done; try exact (counter_touched_touch _ _).
  apply series_touched_touch.
Qed.

Lemma for_each_methods_touched (serviceName : string)
    (methods : list MethodInfo) (m : ServerMetrics) :
  ServerMetrics_wf m →
  ∃ m',
    for_each methods (λ mInfo, preRegisterMethod serviceName mInfo) m
    = Some (tt, m')
    ∧ ServerMetrics_touched ((λ mInfo, (serviceName, mInfo)) <$> methods) m m'.
Proof.
  revert m. induction methods as [|mi methods IH]; intros m Hwf.
  - exists m. split; [done|]. by apply ServerMetrics_touched_nil.
  - destruct (preRegisterMethod_run serviceName mi m Hwf) as (m1 & E1 & X1 & _).
    destruct (preRegisterMethod_touched serviceName mi m Hwf)
      as (m1' & E1' & T1).
    rewrite E1 in E1'. injection E1' as <-.
    destruct (IH m1) as (m2 & E2 & T2).
    { eauto using ServerMetrics_extends_wf. }
    exists m2. split.
    + cbn. unfold mbind, M_bind. by rewrite E1.
    + cbn [fmap list_fmap].
      change ((serviceName, mi) :: ((λ mInfo, (serviceName, mInfo)) <$> methods))
        with ([(serviceName, mi)]
              ++ ((λ mInfo, (serviceName, mInfo)) <$> methods)).
      eauto using ServerMetrics_touched_app.
Qed.

Lemma InitializeMetrics_touched (serviceInfo : list (string * ServiceInfo))
    (m : ServerMetrics) :
  ServerMetrics_wf m →
  ∃ m',
    InitializeMetrics serviceInfo m = Some (tt, m')
    ∧ ServerMetrics_touched (listed_methods serviceInfo) m m'.
Proof.
  revert m. induction serviceInfo as [|[svc info] serviceInfo IH]; intros m Hwf.
  - exists m. split; [done|]. by apply ServerMetrics_touched_nil.
  - destruct (for_each_methods_run svc (Methods info) m Hwf)
      as (m1 & E1 & X1 & _).
    destruct (for_each_methods_touched svc (Methods info) m Hwf)
      as (m1' & E1' & T1).
    rewrite E1 in E1'. injection E1' as <-.
    destruct (IH m1) as (m2 & E2 & T2).
    { eauto using ServerMetrics_extends_wf. }
    exists m2. split.
    + unfold InitializeMetrics in *. cbn. unfold mbind, M_bind at 1.
      by rewrite E1.
    + unfold listed_methods in *.
      change ((svc, info) :: serviceInfo) with ([(svc, info)] ++ serviceInfo).
      rewrite bind_app. eapply ServerMetrics_touched_app; [|exact T2].
      cbn [mbind list_bind]. by rewrite app_nil_r.
Qed.

Lemma listed_methods_elem (serviceInfo : list (string * ServiceInfo))
    (p : string * MethodInfo) :
  p ∈ listed_methods serviceInfo ↔
  ∃ info, (p.1, info) ∈ serviceInfo ∧ p.2 ∈ Methods info.
Proof.
  unfold listed_methods. rewrite list_elem_of_bind. split.
  - intros ([svc info] & Hin & Hentry). apply list_elem_of_fmap in Hin.
    destruct Hin as (mi & -> & Hmi). by exists info.
  - intros (info & Hentry & Hmi). exists (p.1, info). split; [|done].
    apply list_elem_of_fmap. exists p.2. split; [by destruct p|done].
Qed.

(** X12: the registry that [InitializeMetrics] leaves does not depend on
    the order in which the services are visited: for two orders of the
    same entries the result is the same registry.  (The source ranges
    over a map, whose order of iteration is not fixed.) *)
Theorem InitializeMetrics_order_independent
    (serviceInfo serviceInfo' : list (string * ServiceInfo))
    (m : ServerMetrics) :
  ServerMetrics_wf m →
  serviceInfo ≡ₚ serviceInfo' →
  ∃ m',
    InitializeMetrics serviceInfo m = Some (tt, m')
    ∧ InitializeMetrics serviceInfo' m = Some (tt, m').
Proof.
  intros Hwf Hperm.
  destruct (InitializeMetrics_touched serviceInfo m Hwf) as (m1 & E1 & T1).
  destruct (InitializeMetrics_touched serviceInfo' m Hwf) as (m2 & E2 & T2).
  exists m1. split; [done|]. rewrite E2. do 2 f_equal.
  symmetry. eapply ServerMetrics_touched_unique; [|exact T1|exact T2].
  intros p. rewrite !listed_methods_elem.
  by setoid_rewrite Hperm.
Qed.









Lemma NewServerMetrics_no_series (opts : list HistogramOption) :
  ServerMetrics_no_series NewServerMetrics
  ∧ ServerMetrics_no_series (EnableHandlingTimeHistogram opts NewServerMetrics).
Proof.
  unfold ServerMetrics_no_series. split; cbn; split_and!; try done.
  by intros h [= <-].
Qed.


(** ** Descriptors under traffic *)

Lemma ServerMetrics_same_descs_refl (m : ServerMetrics) :
  ServerMetrics_same_descs m m.
Proof. by unfold ServerMetrics_same_descs. Qed.

Lemma ServerMetrics_same_descs_trans (m1 m2 m3 : ServerMetrics) :
  ServerMetrics_same_descs m1 m2 → ServerMetrics_same_descs m2 m3 →
  ServerMetrics_same_descs m1 m3.
Proof. unfold ServerMetrics_same_descs. intuition congruence. Qed.

Lemma ClientMetrics_same_descs_refl (m : ClientMetrics) :
  ClientMetrics_same_descs m m.
Proof. by unfold ClientMetrics_same_descs, same_flags. Qed.

Lemma ClientMetrics_same_descs_trans (m1 m2 m3 : ClientMetrics) :
  ClientMetrics_same_descs m1 m2 → ClientMetrics_same_descs m2 m3 →
  ClientMetrics_same_descs m1 m3.
Proof.
  unfold ClientMetrics_same_descs.
  intros (A1 & A2 & A3 & A4 & A5 & A6 & A7 & A8 & A9 & A10)
         (B1 & B2 & B3 & B4 & B5 & B6 & B7 & B8 & B9 & B10).
  split_and!; try congruence. eauto using same_flags_trans.
Qed.

Lemma ServerMetrics_Describe_same_descs (m m' : ServerMetrics)
    (ch : list Desc) :
  ServerMetrics_same_descs m m' →
  ServerMetrics_Describe m' ch = ServerMetrics_Describe m ch.
Proof.
  unfold ServerMetrics_same_descs, histogram_desc.
  destruct m as [], m' as []. cbn.
  intros (D1 & D2 & D3 & D4 & -> & Hh).
  destruct serverHandledHistogramEnabled0; run_collector;
    rewrite D1, D2, D3, D4; [|done].
  destruct serverHandledHistogram0, serverHandledHistogram1;
    cbn in Hh; try done. by injection Hh as ->.
Qed.

Lemma ClientMetrics_Describe_same_descs (m m' : ClientMetrics)
    (ch : list Desc) :
  ClientMetrics_same_descs m m' →
  ClientMetrics_Describe m' ch = ClientMetrics_Describe m ch.
Proof.
  unfold ClientMetrics_same_descs, same_flags, histogram_desc.
  destruct m as [], m' as []. cbn.
  intros (D1 & D2 & D3 & D4 & (-> & -> & -> & -> & ->)
          & H1 & H2 & H3 & H4 & H5).
  repeat match goal with
  | H : _ <$> ?a = _ <$> ?b |- _ =>
      destruct a, b; cbn in H; try discriminate H;
      [injection H as H|]
  end.
  all: run_collector; rewrite D1, D2, D3, D4.
  all: repeat match goal with
  | |- context [if ?b then _ else _] => is_var b; destruct b; cbn
  end.
  all: congruence.
Qed.

Lemma UnaryServerInterceptor_descs {Req Resp : Type} (req : Req)
    (info : UnaryServerInfo) (handler : Req → Resp * option error)
    (w : World ServerMetrics) :
  ServerMetrics_wf (metrics w) →
  ∃ w',
    exec (UnaryServerInterceptor req info handler) w = Some w'
    ∧ ServerMetrics_same_descs (metrics w) (metrics w').
Proof.
  unfold ServerMetrics_wf, ServerMetrics_same_descs.
  destruct w as [m t]. destruct m as []. cbn. intros H.
  destruct (handler req) as [resp err] eqn:Eh.
  destruct (splitMethodName (usi_FullMethod info)) as [svc mth] eqn:Es.
  case_histograms; destruct err as [e|]; run_server; rewrite Es, Eh; cbn.
  all: eexists; split; [reflexivity|]; cbn; by split_and!.
Qed.

Lemma monitoredServerStream_run_descs {SS : Type}
    (s : monitoredServerStream SS) (ops : list StreamOp)
    (w : World ServerMetrics) :
  ∃ m',
    monitoredServerStream_run s ops w
    = Some (tt, {| metrics := m';
                   trace := trace w ++ concat (server_op_events <$> ops) |})
    ∧ ServerMetrics_same_descs (metrics w) m'.
Proof.
  revert w. induction ops as [|op ops IH]; intros w.
  - exists (metrics w). destruct w as [m t]. cbn. rewrite app_nil_r.
    split; [done|apply ServerMetrics_same_descs_refl].
  - assert (∃ m1,
              monitoredServerStream_op s op w
              = Some (tt, {| metrics := m1;
                             trace := trace w ++ server_op_events op |})
              ∧ ServerMetrics_same_descs (metrics w) m1) as (m1 & E1 & D1).
    { unfold ServerMetrics_same_descs.
      destruct s as [ss r], w as [m t], m as [], op as [[e|]|[e|]];
        run_server.
      all: eexists; split; [rewrite <- ?app_assoc; reflexivity|]; cbn.
      all: by split_and!. }
    destruct (IH {| metrics := m1; trace := trace w ++ server_op_events op |})
      as (m2 & E2 & D2).
    exists m2. cbn [metrics trace] in *. split.
    + unfold monitoredServerStream_run in *. cbn.
      unfold mbind, M_bind at 1. rewrite E1, E2. by rewrite <- app_assoc.
    + eauto using ServerMetrics_same_descs_trans.
Qed.

Lemma StreamServerInterceptor_descs {SS : Type} (ss : SS)
    (info : StreamServerInfo) (handler : StreamHandler)
    (w : World ServerMetrics) :
  ServerMetrics_wf (metrics w) →
  ∃ w',
    exec (StreamServerInterceptor ss info handler) w = Some w'
    ∧ ServerMetrics_same_descs (metrics w) (metrics w').
Proof.
  unfold ServerMetrics_wf. destruct w as [m t]. destruct m as [].
  destruct handler as [ops err]. cbn. intros H.
  destruct (splitMethodName (ssi_FullMethod info)) as [svc mth] eqn:Es.
  run_server. rewrite Es. cbn.
  match goal with
  | |- context [for_each ?ops (monitoredServerStream_op ?s) ?w] =>
      destruct (monitoredServerStream_run_descs s ops w) as (m1 & Hrun & D);
      destruct (monitoredServerStream_run_spec s ops w)
        as (m1' & Hrun' & _ & _ & He & _ & Hhi & _)
  end.
  rewrite Hrun in Hrun'. injection Hrun' as <-.
  unfold monitoredServerStream_run in Hrun. rewrite Hrun.
  unfold ServerMetrics_same_descs, histogram_desc in *.
  destruct m1 as []. cbn in *. subst.
  destruct D as (D1 & D2 & D3 & D4 & _ & _).
  case_histograms; cbn.
  all: eexists; split; [reflexivity|]; cbn; by split_and!.
Qed.

Lemma InitializeMetrics_descs (serviceInfo : list (string * ServiceInfo))
    (m : ServerMetrics) :
  ServerMetrics_wf m →
  ∃ m',
    InitializeMetrics serviceInfo m = Some (tt, m')
    ∧ ServerMetrics_same_descs m m'.
Proof.
  intros Hwf.
  destruct (InitializeMetrics_touched serviceInfo m Hwf)
    as (m' & E & ([D1 _] & [D2 _] & [D3 _] & [D4 _] & Hen & _ & T)).
  exists m'. split; [done|]. unfold ServerMetrics_same_descs, histogram_desc.
  split_and!; try done.
  unfold histogram_touched in T.
  destruct (serverHandledHistogramEnabled m); [|by rewrite T].
  destruct (serverHandledHistogram m), (serverHandledHistogram m');
    try done. cbn. destruct T as (-> & _). done.
Qed.

Lemma UnaryClientInterceptor_descs {Req : Type} (method : string) (req : Req)
    (invoker : string → Req → option error) (w : World ClientMetrics) :
  ClientMetrics_wf (metrics w) →
  ∃ w',
    exec (UnaryClientInterceptor method req invoker) w = Some w'
    ∧ ClientMetrics_same_descs (metrics w) (metrics w').
Proof.
  unfold ClientMetrics_same_descs, same_flags. client_start w H.
  destruct (splitMethodName method) as [svc mth] eqn:Es.
  destruct (invoker method req) as [e|] eqn:Ei; [destruct e|].
  all: destruct clientHandledHistogramEnabled0;
    [destruct clientHandledHistogram0; [|discriminate Hh]|].
  all: run_client; rewrite Es, Ei; cbn.
  all: eexists; split; [reflexivity|]; cbn; by split_and!.
Qed.

Lemma StreamClientInterceptor_descs {CS : Type} (desc : StreamDesc)
    (method : string) (streamer : StreamDesc → string → CS * option error)
    (w : World ClientMetrics) :
  ClientMetrics_wf (metrics w) →
  ∃ w',
    exec (StreamClientInterceptor desc method streamer) w = Some w'
    ∧ ClientMetrics_same_descs (metrics w) (metrics w').
Proof.
  unfold ClientMetrics_same_descs, same_flags. client_start w H.
  destruct (splitMethodName method) as [svc mth] eqn:Es.
  destruct (streamer desc method) as [cs [e|]] eqn:Ei; [destruct e|].
  all: destruct clientHandledHistogramEnabled0;
    [destruct clientHandledHistogram0; [|discriminate Hh]|].
  all: run_client; rewrite Es, Ei; cbn.
  all: eexists; split; [reflexivity|]; cbn; by split_and!.
Qed.

Lemma monitoredClientStream_run_descs {CS : Type}
    (s : monitoredClientStream CS) (ops : list StreamOp)
    (w : World ClientMetrics) :
  ClientMetrics_wf (metrics w) →
  ∃ w',
    exec (monitoredClientStream_run s ops) w = Some w'
    ∧ ClientMetrics_same_descs (metrics w) (metrics w').
Proof.
  revert w. induction ops as [|op ops IH]; intros w Hwf.
  - exists w. split; [done|apply ClientMetrics_same_descs_refl].
  - destruct (monitoredClientStream_op_run s op w Hwf)
      as (m1 & E1 & Hwf1 & _).
    assert (∃ w1, exec (monitoredClientStream_op s op) w = Some w1
                  ∧ ClientMetrics_same_descs (metrics w) (metrics w1))
      as (w1 & X1 & D1).
    { clear E1 Hwf1 IH. revert Hwf.
      unfold ClientMetrics_same_descs, same_flags. client_start w H.
      destruct s as [cs r].
      destruct op as [[e|]|[e|]]; try destruct e.
      all: destruct clientHandledHistogramEnabled0;
        [destruct clientHandledHistogram0; [|discriminate Hh]|].
      all: destruct clientStreamSendHistogramEnabled0;
        [destruct clientStreamSendHistogram0; [|discriminate Hs]|].
      all: destruct clientStreamRecvHistogramEnabled0;
        [destruct clientStreamRecvHistogram0; [|discriminate Hr]|].
      all: run_client.
      all: eexists; split; [reflexivity|]; cbn; by split_and!. }
    rewrite (exec_Some _ _ _ _ E1) in X1. injection X1 as <-.
    destruct (IH {| metrics := m1; trace := trace w ++ client_op_events op |}
                Hwf1) as (w2 & X2 & D2).
    exists w2. split.
    + unfold monitoredClientStream_run, exec in *. cbn.
      unfold mbind, M_bind at 1. rewrite E1. exact X2.
    + eauto using ClientMetrics_same_descs_trans.
Qed.

(** X16: traffic never changes what [Describe] sends.  From a registry
    whose enabled histograms exist, after a unary or streaming call
    through the server interceptors, after [InitializeMetrics], after a
    unary or streaming call through the client interceptors and after any
    run of a decorated client stream, [Describe] sends exactly the
    descriptors it sent before. *)
Theorem Describe_unchanged_by_traffic {Req Resp SS CReq CS : Type}
    (req : Req) (uinfo : UnaryServerInfo) (uhandler : Req → Resp * option error)
    (ss : SS) (sinfo : StreamServerInfo) (shandler : StreamHandler)
    (serviceInfo : list (string * ServiceInfo))
    (method : string) (creq : CReq) (invoker : string → CReq → option error)
    (desc : StreamDesc) (streamer : StreamDesc → string → CS * option error)
    (cs : monitoredClientStream CS) (ops : list StreamOp)
    (ws : World ServerMetrics) (wc : World ClientMetrics) (ch : list Desc) :
  ServerMetrics_wf (metrics ws) →
  ClientMetrics_wf (metrics wc) →
  (∃ ws', exec (UnaryServerInterceptor req uinfo uhandler) ws = Some ws'
          ∧ ServerMetrics_Describe (metrics ws') ch
            = ServerMetrics_Describe (metrics ws) ch)
  ∧ (∃ ws', exec (StreamServerInterceptor ss sinfo shandler) ws = Some ws'
            ∧ ServerMetrics_Describe (metrics ws') ch
              = ServerMetrics_Describe (metrics ws) ch)
  ∧ (∃ m', exec (InitializeMetrics serviceInfo) (metrics ws) = Some m'
           ∧ ServerMetrics_Describe m' ch
             = ServerMetrics_Describe (metrics ws) ch)
  ∧ (∃ wc', exec (UnaryClientInterceptor method creq invoker) wc = Some wc'
            ∧ ClientMetrics_Describe (metrics wc') ch
              = ClientMetrics_Describe (metrics wc) ch)
  ∧ (∃ wc', exec (StreamClientInterceptor desc method streamer) wc = Some wc'
            ∧ ClientMetrics_Describe (metrics wc') ch
              = ClientMetrics_Describe (metrics wc) ch)
  ∧ (∃ wc', exec (monitoredClientStream_run cs ops) wc = Some wc'
            ∧ ClientMetrics_Describe (metrics wc') ch
              = ClientMetrics_Describe (metrics wc) ch).
Proof.
  intros Hs Hc. split_and!.
  - destruct (UnaryServerInterceptor_descs req uinfo uhandler ws Hs)
      as (w' & E & D).
    eauto using ServerMetrics_Describe_same_descs.
  - destruct (StreamServerInterceptor_descs ss sinfo shandler ws Hs)
      as (w' & E & D).
    eauto using ServerMetrics_Describe_same_descs.
  - destruct (InitializeMetrics_descs serviceInfo (metrics ws) Hs)
      as (m' & E & D).
    exists m'. split; [exact (exec_Some _ _ _ _ E)|].
    by apply ServerMetrics_Describe_same_descs.
  - destruct (UnaryClientInterceptor_descs method creq invoker wc Hc)
      as (w' & E & D).
    eauto using ClientMetrics_Describe_same_descs.
  - destruct (StreamClientInterceptor_descs desc method streamer wc Hc)
      as (w' & E & D).
    eauto using ClientMetrics_Describe_same_descs.
  - destruct (monitoredClientStream_run_descs cs ops wc Hc) as (w' & E & D).
    eauto using ClientMetrics_Describe_same_descs.
Qed.

End Instrumentation.

(** ** The model on concrete calls *)

Example split_example :
  example_splitMethodName "/pkg.Service/Chat" = ("pkg.Service", "Chat").
Proof. reflexivity. Qed.

(** A unary server call that succeeds, on a fresh registry: started,
    received, sent and handled-with-OK each stand at one. *)
Example unary_server_call_succeeds :
  ∃ w',
    UnaryServerInterceptor example_grpcType_string example_splitMethodName
      tt {| usi_FullMethod := "/pkg.Service/Get" |} (λ _, (tt, None))
      {| metrics := NewServerMetrics; trace := [] |} = Some ((tt, None), w')
    ∧ counter_value (serverStartedCounter (metrics w'))
        ["unary"; "pkg.Service"; "Get"] = 1
    ∧ counter_value (serverStreamMsgReceived (metrics w'))
        ["unary"; "pkg.Service"; "Get"] = 1
    ∧ counter_value (serverStreamMsgSent (metrics w'))
        ["unary"; "pkg.Service"; "Get"] = 1
    ∧ counter_value (serverHandledCounter (metrics w'))
        ["unary"; "pkg.Service"; "Get"; "OK"] = 1
    ∧ trace w' = [EvNewReporter Unary "/pkg.Service/Get"; EvReceivedMessage;
                  EvHandler; EvHandled OK; EvSentMessage].
Proof.
  eexists. split; [vm_compute; reflexivity|].
  repeat split; vm_compute; reflexivity.
Qed.

(** A bidirectional client stream that sends three messages and receives
    two before the peer closes: sent at three, received at two, handled
    with OK at one. *)
Example bidi_client_stream_closes :
  ∃ w',
    exec (monitoredClientStream_run example_grpcType_string
            {| mcs_ClientStream := tt;
               mcs_monitor :=
                 {| cr_rpcType := BidiStream; cr_serviceName := "pkg.Service";
                    cr_methodName := "Chat" |} |}
            [OpSendMsg None; OpRecvMsg None; OpSendMsg None; OpSendMsg None;
             OpRecvMsg None; OpRecvMsg (Some io_EOF)])
      {| metrics := NewClientMetrics example_CounterOption
                      example_counterOptions_apply
                      example_defMsgBytesBuckets [];
         trace := [] |} = Some w'
    ∧ counter_value (clientStreamMsgSent (metrics w'))
        ["bidi_stream"; "pkg.Service"; "Chat"] = 3
    ∧ counter_value (clientStreamMsgReceived (metrics w'))
        ["bidi_stream"; "pkg.Service"; "Chat"] = 2
    ∧ counter_value (clientHandledCounter (metrics w'))
        ["bidi_stream"; "pkg.Service"; "Chat"; "OK"] = 1.
Proof.
  eexists. split; [vm_compute; reflexivity|].
  repeat split; vm_compute; reflexivity.
Qed.


(** C2, counterexample: a descriptor with both streaming flags off is
    given the shape [BidiStream], not [Unary], by both functions. *)
Lemma stream_type_both_flags_off :
  clientStreamType
    {| StreamName := "Get"; ClientStreams := false; ServerStreams := false |}
  ≠ Unary
  ∧ streamRpcType
      {| ssi_FullMethod := "/pkg.Service/Get"; IsClientStream := false;
         IsServerStream := false |}
    ≠ Unary.
Proof. split; discriminate. Qed.

(** C3, counterexample: reading twice from a stream that answers
    end-of-stream both times calls [Handled] twice, and the handled series
    of the call for [OK] stands at two. *)
Lemma RecvMsg_twice_at_EOF_Handled_twice :
  ∃ w',
    exec (monitoredClientStream_run example_grpcType_string
            {| mcs_ClientStream := tt;
               mcs_monitor :=
                 {| cr_rpcType := BidiStream; cr_serviceName := "pkg.Service";
                    cr_methodName := "Chat" |} |}
            [OpRecvMsg (Some io_EOF); OpRecvMsg (Some io_EOF)])
      {| metrics := NewClientMetrics example_CounterOption
                      example_counterOptions_apply
                      example_defMsgBytesBuckets [];
         trace := [] |} = Some w'
    ∧ calls is_Handled (trace w') = 2
    ∧ counter_value (clientHandledCounter (metrics w'))
        ["bidi_stream"; "pkg.Service"; "Chat"; "OK"] = 2
    ∧ ¬ (calls is_Handled (trace w') ≤ 1)%nat.
Proof.
  eexists. split; [vm_compute; reflexivity|].
  split; [vm_compute; reflexivity|]. split; [vm_compute; reflexivity|].
  vm_compute. lia.
Qed.

(** C4, counterexample: on a fresh client registry, a unary call whose
    invoker returns a [NotFound] status leaves the sent series of the call
    at one, not at zero. *)
Lemma UnaryClientInterceptor_not_found_sent :
  ∃ w',
    exec (UnaryClientInterceptor example_grpcType_string
            example_splitMethodName "/pkg.Service/Get" tt
            (λ _ _, Some (statusError NotFound "no such item")))
      {| metrics := NewClientMetrics example_CounterOption
                      example_counterOptions_apply
                      example_defMsgBytesBuckets [];
         trace := [] |} = Some w'
    ∧ counter_value (clientHandledCounter (metrics w'))
        ["unary"; "pkg.Service"; "Get"; "NotFound"] = 1
    ∧ counter_value (clientStreamMsgSent (metrics w'))
        ["unary"; "pkg.Service"; "Get"] = 1
    ∧ counter_value (clientStreamMsgSent (metrics w'))
        ["unary"; "pkg.Service"; "Get"] ≠ 0.
Proof.
  eexists. split; [vm_compute; reflexivity|].
  split; [vm_compute; reflexivity|]. split; [vm_compute; reflexivity|].
  vm_compute. discriminate.
Qed.


(** C3 on a fresh client registry: two messages, then end-of-stream. *)
Lemma Handled_once_per_failed_RecvMsg_witness :
  ClientMetrics_wf
    (NewClientMetrics example_CounterOption example_counterOptions_apply
       example_defMsgBytesBuckets [])
  ∧ ∃ w',
      exec (monitoredClientStream_run example_grpcType_string
              {| mcs_ClientStream := tt;
                 mcs_monitor :=
                   {| cr_rpcType := ServerStream;
                      cr_serviceName := "pkg.Service";
                      cr_methodName := "List" |} |}
              [OpSendMsg None; OpRecvMsg None; OpRecvMsg None;
               OpRecvMsg (Some io_EOF)])
        {| metrics := NewClientMetrics example_CounterOption
                        example_counterOptions_apply
                        example_defMsgBytesBuckets [];
           trace := [] |} = Some w'
      ∧ calls is_Handled (trace w') = 1.
Proof.
  assert (ClientMetrics_wf
            (NewClientMetrics example_CounterOption
               example_counterOptions_apply example_defMsgBytesBuckets []))
    as Hc by reflexivity.
  split; [exact Hc|].
  destruct (Handled_once_per_failed_RecvMsg example_grpcType_string
              {| mcs_ClientStream := tt;
                 mcs_monitor :=
                   {| cr_rpcType := ServerStream;
                      cr_serviceName := "pkg.Service";
                      cr_methodName := "List" |} |}
              [OpSendMsg None; OpRecvMsg None; OpRecvMsg None;
               OpRecvMsg (Some io_EOF)]
              {| metrics := NewClientMetrics example_CounterOption
                              example_counterOptions_apply
                              example_defMsgBytesBuckets [];
                 trace := [] |} Hc)
    as (w' & E & _ & H).
  exists w'. split; [exact E|exact H].
Defined.

(** C4 on fresh registries: a handler and an invoker that answer
    [NotFound]. *)
Lemma unary_call_not_found_witness :
  ServerMetrics_wf NewServerMetrics
  ∧ ClientMetrics_wf
      (NewClientMetrics example_CounterOption example_counterOptions_apply
         example_defMsgBytesBuckets [])
  ∧ (∃ ws',
       UnaryServerInterceptor example_grpcType_string example_splitMethodName
         tt {| usi_FullMethod := "/pkg.Service/Get" |}
         (λ _, (tt, Some (statusError NotFound "no such item")))
         {| metrics := NewServerMetrics; trace := [] |}
       = Some ((tt, Some (statusError NotFound "no such item")), ws')
       ∧ counter_plus (serverStreamMsgSent NewServerMetrics)
           (serverStreamMsgSent (metrics ws'))
           (call_labels example_grpcType_string example_splitMethodName
              Unary "/pkg.Service/Get") 0)
  ∧ (∃ wc',
       UnaryClientInterceptor example_grpcType_string example_splitMethodName
         "/pkg.Service/Get" tt
         (λ _ _, Some (statusError NotFound "no such item"))
         {| metrics := NewClientMetrics example_CounterOption
                         example_counterOptions_apply
                         example_defMsgBytesBuckets [];
            trace := [] |}
       = Some (Some (statusError NotFound "no such item"), wc')
       ∧ counter_plus
           (clientStreamMsgSent
              (NewClientMetrics example_CounterOption
                 example_counterOptions_apply example_defMsgBytesBuckets []))
           (clientStreamMsgSent (metrics wc'))
           (call_labels example_grpcType_string example_splitMethodName
              Unary "/pkg.Service/Get") 1).
Proof.
  assert (ServerMetrics_wf NewServerMetrics) as Hs by reflexivity.
  assert (ClientMetrics_wf
            (NewClientMetrics example_CounterOption
               example_counterOptions_apply example_defMsgBytesBuckets []))
    as Hc by reflexivity.
  split; [exact Hs|]. split; [exact Hc|].
  destruct (unary_call_not_found example_grpcType_string
              example_splitMethodName tt
              {| usi_FullMethod := "/pkg.Service/Get" |}
              (λ _ : unit, (tt, Some (statusError NotFound "no such item")))
              tt "no such item" "/pkg.Service/Get" tt
              (λ _ _, Some (statusError NotFound "no such item"))
              {| metrics := NewServerMetrics; trace := [] |}
              {| metrics := NewClientMetrics example_CounterOption
                              example_counterOptions_apply
                              example_defMsgBytesBuckets [];
                 trace := [] |} Hs Hc eq_refl eq_refl)
    as ((ws' & Es & _ & Hss) & (wc' & Ec & _ & Hcs & _)).
  split; [exists ws'; split; [exact Es|exact Hss]
         |exists wc'; split; [exact Ec|exact Hcs]].
Defined.

(** C5 on a fresh client registry: an invoker that fails with an error
    carrying no status. *)
Lemma UnaryClientInterceptor_calls_witness :
  ClientMetrics_wf
    (NewClientMetrics example_CounterOption example_counterOptions_apply
       example_defMsgBytesBuckets [])
  ∧ ∃ m',
      UnaryClientInterceptor example_grpcType_string example_splitMethodName
        "/pkg.Service/Get" tt (λ _ _, Some (plainError "connection reset"))
        {| metrics := NewClientMetrics example_CounterOption
                        example_counterOptions_apply
                        example_defMsgBytesBuckets [];
           trace := [] |}
      = Some (Some (plainError "connection reset"),
              {| metrics := m';
                 trace := [EvNewReporter Unary "/pkg.Service/Get";
                           EvSentMessage; EvInvoker; EvHandled Unknown] |}).
Proof.
  assert (ClientMetrics_wf
            (NewClientMetrics example_CounterOption
               example_counterOptions_apply example_defMsgBytesBuckets []))
    as Hc by reflexivity.
  split; [exact Hc|].
  exact (UnaryClientInterceptor_calls example_grpcType_string
           example_splitMethodName "/pkg.Service/Get" tt
           (λ _ _, Some (plainError "connection reset"))
           {| metrics := NewClientMetrics example_CounterOption
                           example_counterOptions_apply
                           example_defMsgBytesBuckets [];
              trace := [] |} Hc).
Defined.

(** C6 on a client registry with the send histogram enabled: two sends
    that succeed, one that fails, one receive. *)
Lemma stream_message_counters_witness :
  ClientMetrics_wf
    (EnableClientStreamSendTimeHistogram []
       (NewClientMetrics example_CounterOption example_counterOptions_apply
          example_defMsgBytesBuckets []))
  ∧ ∃ wc',
      exec (monitoredClientStream_run example_grpcType_string
              {| mcs_ClientStream := tt;
                 mcs_monitor :=
                   {| cr_rpcType := BidiStream;
                      cr_serviceName := "pkg.Service";
                      cr_methodName := "Chat" |} |}
              [OpSendMsg None; OpSendMsg (Some (plainError "broken pipe"));
               OpSendMsg None; OpRecvMsg None])
        {| metrics :=
             EnableClientStreamSendTimeHistogram []
               (NewClientMetrics example_CounterOption
                  example_counterOptions_apply example_defMsgBytesBuckets []);
           trace := [] |} = Some wc'
      ∧ counter_plus
          (clientStreamMsgSent
             (EnableClientStreamSendTimeHistogram []
                (NewClientMetrics example_CounterOption
                   example_counterOptions_apply example_defMsgBytesBuckets [])))
          (clientStreamMsgSent (metrics wc'))
          ["bidi_stream"; "pkg.Service"; "Chat"] 2
      ∧ calls is_ObserveDuration (trace wc') = 4.
Proof.
  assert (ClientMetrics_wf
            (EnableClientStreamSendTimeHistogram []
               (NewClientMetrics example_CounterOption
                  example_counterOptions_apply example_defMsgBytesBuckets [])))
    as Hc by reflexivity.
  split; [exact Hc|].
  destruct (stream_message_counters example_grpcType_string
              {| mss_ServerStream := tt;
                 mss_monitor :=
                   {| sr_rpcType := BidiStream;
                      sr_serviceName := "pkg.Service";
                      sr_methodName := "Chat" |} |}
              {| mcs_ClientStream := tt;
                 mcs_monitor :=
                   {| cr_rpcType := BidiStream;
                      cr_serviceName := "pkg.Service";
                      cr_methodName := "Chat" |} |}
              [OpSendMsg None; OpSendMsg (Some (plainError "broken pipe"));
               OpSendMsg None; OpRecvMsg None]
              {| metrics := NewServerMetrics; trace := [] |}
              {| metrics :=
                   EnableClientStreamSendTimeHistogram []
                     (NewClientMetrics example_CounterOption
                        example_counterOptions_apply
                        example_defMsgBytesBuckets []);
                 trace := [] |} Hc)
    as (_ & (wc' & E & Hsent & _ & Hobs & _)).
  exists wc'. split; [exact E|]. split; [exact Hsent|exact Hobs].
Defined.

(** C8 on a server registry with its histogram enabled and a fresh client
    registry: the names [Describe] sends. *)
Lemma Describe_Collect_same_families_witness :
  ServerMetrics_wf (EnableHandlingTimeHistogram [] NewServerMetrics)
  ∧ ClientMetrics_wf
      (NewClientMetrics example_CounterOption example_counterOptions_apply
         example_defMsgBytesBuckets [])
  ∧ ServerMetrics_Describe (EnableHandlingTimeHistogram [] NewServerMetrics) []
    = Some (tt,
            Family_desc <$>
              ServerMetrics_families
                (EnableHandlingTimeHistogram [] NewServerMetrics))
  ∧ length
      (ClientMetrics_families
         (NewClientMetrics example_CounterOption example_counterOptions_apply
            example_defMsgBytesBuckets [])) = 4.
Proof.
  assert (ServerMetrics_wf (EnableHandlingTimeHistogram [] NewServerMetrics))
    as Hs by reflexivity.
  assert (ClientMetrics_wf
            (NewClientMetrics example_CounterOption
               example_counterOptions_apply example_defMsgBytesBuckets []))
    as Hc by reflexivity.
  split; [exact Hs|]. split; [exact Hc|].
  destruct (Describe_Collect_same_families
              (EnableHandlingTimeHistogram [] NewServerMetrics)
              (NewClientMetrics example_CounterOption
                 example_counterOptions_apply example_defMsgBytesBuckets [])
              [] [] Hs Hc)
    as ((HD & _ & _) & (_ & _ & HL)).
  split; [exact HD|exact HL].
Defined.


(** C10 on a server registry with its histogram enabled and a client
    registry with the handling-time histogram enabled. *)
Lemma enabled_histograms_exist_witness :
  ServerMetrics_reachable example_grpcType_string example_splitMethodName
    (EnableHandlingTimeHistogram [] NewServerMetrics)
  ∧ ClientMetrics_reachable example_grpcType_string example_splitMethodName
      example_CounterOption example_counterOptions_apply
      example_defMsgBytesBuckets
      (EnableClientHandlingTimeHistogram []
         (NewClientMetrics example_CounterOption example_counterOptions_apply
            example_defMsgBytesBuckets []))
  ∧ no_panic
      (ServerMetrics_Describe (EnableHandlingTimeHistogram [] NewServerMetrics))
      []
  ∧ no_panic
      (ClientMetrics_Collect
         (EnableClientHandlingTimeHistogram []
            (NewClientMetrics example_CounterOption
               example_counterOptions_apply example_defMsgBytesBuckets [])))
      [].
Proof.
  assert (ServerMetrics_reachable example_grpcType_string
            example_splitMethodName
            (EnableHandlingTimeHistogram [] NewServerMetrics)) as Hs.
  { apply reach_EnableHandlingTimeHistogram, reach_NewServerMetrics. }
  assert (ClientMetrics_reachable example_grpcType_string
            example_splitMethodName example_CounterOption
            example_counterOptions_apply example_defMsgBytesBuckets
            (EnableClientHandlingTimeHistogram []
               (NewClientMetrics example_CounterOption
                  example_counterOptions_apply example_defMsgBytesBuckets [])))
    as Hc.
  { apply reach_EnableClientHandlingTimeHistogram, reach_NewClientMetrics. }
  split; [exact Hs|]. split; [exact Hc|].
  destruct (enabled_histograms_exist example_grpcType_string
              example_splitMethodName example_CounterOption
              example_counterOptions_apply example_defMsgBytesBuckets
              (EnableHandlingTimeHistogram [] NewServerMetrics)
              (EnableClientHandlingTimeHistogram []
                 (NewClientMetrics example_CounterOption
                    example_counterOptions_apply example_defMsgBytesBuckets []))
              [] [] [] Hs Hc)
    as (_ & (_ & _ & HD & _) & (_ & _ & _ & _ & _ & _ & _ & HC)).
  split; [exact HD|exact HC].
Defined.

(** ** The further properties on concrete calls *)

(** X1 on a fresh server registry: a handler that fails with
    [PermissionDenied]. *)
Lemma UnaryServerInterceptor_calls_witness :
  ServerMetrics_wf NewServerMetrics
  ∧ ∃ m',
      UnaryServerInterceptor example_grpcType_string example_splitMethodName
        tt {| usi_FullMethod := "/pkg.Service/Get" |}
        (λ _, (tt, Some (statusError PermissionDenied "denied")))
        {| metrics := NewServerMetrics; trace := [] |}
      = Some ((tt, Some (statusError PermissionDenied "denied")),
              {| metrics := m';
                 trace := [EvNewReporter Unary "/pkg.Service/Get";
                           EvReceivedMessage; EvHandler;
                           EvHandled PermissionDenied] |}).
Proof.
  assert (ServerMetrics_wf NewServerMetrics) as Hs by reflexivity.
  split; [exact Hs|].
  exact (UnaryServerInterceptor_calls example_grpcType_string
           example_splitMethodName tt
           {| usi_FullMethod := "/pkg.Service/Get" |}
           (λ _ : unit, (tt, Some (statusError PermissionDenied "denied")))
           {| metrics := NewServerMetrics; trace := [] |} Hs).
Defined.

(** X2 on a fresh server registry: a handler that receives one message,
    sends one and returns nil. *)
Lemma StreamServerInterceptor_calls_witness :
  ServerMetrics_wf NewServerMetrics
  ∧ ∃ m',
      StreamServerInterceptor example_grpcType_string example_splitMethodName
        tt
        {| ssi_FullMethod := "/pkg.Service/Chat"; IsClientStream := true;
           IsServerStream := true |}
        {| sh_ops := [OpRecvMsg None; OpSendMsg None]; sh_err := None |}
        {| metrics := NewServerMetrics; trace := [] |}
      = Some (None,
              {| metrics := m';
                 trace := [EvNewReporter BidiStream "/pkg.Service/Chat";
                           EvHandler; EvInnerRecvMsg; EvReceivedMessage;
                           EvInnerSendMsg; EvSentMessage; EvHandled OK] |}).
Proof.
  assert (ServerMetrics_wf NewServerMetrics) as Hs by reflexivity.
  split; [exact Hs|].
  destruct (StreamServerInterceptor_calls example_grpcType_string
              example_splitMethodName tt
              {| ssi_FullMethod := "/pkg.Service/Chat"; IsClientStream := true;
                 IsServerStream := true |}
              {| sh_ops := [OpRecvMsg None; OpSendMsg None]; sh_err := None |}
              {| metrics := NewServerMetrics; trace := [] |} Hs)
    as (m' & E & _).
  exists m'. exact E.
Defined.

(** X3 on a fresh client registry: a streamer that succeeds. *)
Lemma StreamClientInterceptor_calls_witness :
  ClientMetrics_wf
    (NewClientMetrics example_CounterOption example_counterOptions_apply
       example_defMsgBytesBuckets [])
  ∧ ∃ s m',
      StreamClientInterceptor example_grpcType_string example_splitMethodName
        {| StreamName := "List"; ClientStreams := false;
           ServerStreams := true |}
        "/pkg.Service/List" (λ _ _, (7, None))
        {| metrics := NewClientMetrics example_CounterOption
                        example_counterOptions_apply
                        example_defMsgBytesBuckets [];
           trace := [] |}
      = Some ((Some s, None),
              {| metrics := m';
                 trace := [EvNewReporter ServerStream "/pkg.Service/List";
                           EvStreamer] |})
      ∧ @mcs_ClientStream nat s = 7.
Proof.
  assert (ClientMetrics_wf
            (NewClientMetrics example_CounterOption
               example_counterOptions_apply example_defMsgBytesBuckets []))
    as Hc by reflexivity.
  split; [exact Hc|].
  destruct (StreamClientInterceptor_calls example_grpcType_string
              example_splitMethodName
              {| StreamName := "List"; ClientStreams := false;
                 ServerStreams := true |}
              "/pkg.Service/List" (λ _ _, (7, None))
              {| metrics := NewClientMetrics example_CounterOption
                              example_counterOptions_apply
                              example_defMsgBytesBuckets [];
                 trace := [] |} Hc)
    as (res & m' & t' & E & (-> & s & -> & Hs & _)).
  exists s, m'. split; [exact E|exact Hs].
Defined.

(** X4 on a client registry with the receive histogram enabled: a send
    that fails. *)
Lemma stream_decorators_transparent_witness :
  ClientMetrics_wf
    (EnableClientStreamReceiveTimeHistogram []
       (NewClientMetrics example_CounterOption example_counterOptions_apply
          example_defMsgBytesBuckets []))
  ∧ ∃ m',
      monitoredClientStream_SendMsg example_grpcType_string
        {| mcs_ClientStream := tt;
           mcs_monitor :=
             {| cr_rpcType := ClientStream; cr_serviceName := "pkg.Service";
                cr_methodName := "Upload" |} |}
        (Some (plainError "broken pipe"))
        {| metrics :=
             EnableClientStreamReceiveTimeHistogram []
               (NewClientMetrics example_CounterOption
                  example_counterOptions_apply example_defMsgBytesBuckets []);
           trace := [] |}
      = Some (Some (plainError "broken pipe"),
              {| metrics := m';
                 trace := [EvSendMessageTimer; EvInnerSendMsg;
                           EvObserveDuration] |}).
Proof.
  assert (ClientMetrics_wf
            (EnableClientStreamReceiveTimeHistogram []
               (NewClientMetrics example_CounterOption
                  example_counterOptions_apply example_defMsgBytesBuckets [])))
    as Hc by reflexivity.
  split; [exact Hc|].
  destruct (stream_decorators_transparent example_grpcType_string
              {| mss_ServerStream := tt;
                 mss_monitor :=
                   {| sr_rpcType := ClientStream;
                      sr_serviceName := "pkg.Service";
                      sr_methodName := "Upload" |} |}
              {| mcs_ClientStream := tt;
                 mcs_monitor :=
                   {| cr_rpcType := ClientStream;
                      cr_serviceName := "pkg.Service";
                      cr_methodName := "Upload" |} |}
              (Some (plainError "broken pipe"))
              {| metrics := NewServerMetrics; trace := [] |}
              {| metrics :=
                   EnableClientStreamReceiveTimeHistogram []
                     (NewClientMetrics example_CounterOption
                        example_counterOptions_apply
                        example_defMsgBytesBuckets []);
                 trace := [] |} Hc)
    as (_ & _ & (m' & E) & _).
  exists m'. exact E.
Defined.

(** X5 on a fresh client registry. *)
Lemma EOF_is_OK_only_for_RecvMsg_witness :
  ClientMetrics_wf
    (NewClientMetrics example_CounterOption example_counterOptions_apply
       example_defMsgBytesBuckets [])
  ∧ (λ (_ : string) (_ : unit), Some io_EOF) "/pkg.Service/Get" tt
    = Some io_EOF
  ∧ (λ (_ : StreamDesc) (_ : string), (tt, Some io_EOF))
      {| StreamName := "Chat"; ClientStreams := true; ServerStreams := true |}
      "/pkg.Service/Get"
    = (tt, Some io_EOF)
  ∧ ∃ m',
      UnaryClientInterceptor example_grpcType_string example_splitMethodName
        "/pkg.Service/Get" tt (λ _ _, Some io_EOF)
        {| metrics := NewClientMetrics example_CounterOption
                        example_counterOptions_apply
                        example_defMsgBytesBuckets [];
           trace := [] |}
      = Some (Some io_EOF,
              {| metrics := m';
                 trace := [EvNewReporter Unary "/pkg.Service/Get";
                           EvSentMessage; EvInvoker; EvHandled Unknown] |}).
Proof.
  assert (ClientMetrics_wf
            (NewClientMetrics example_CounterOption
               example_counterOptions_apply example_defMsgBytesBuckets []))
    as Hc by reflexivity.
  split; [exact Hc|]. split; [reflexivity|]. split; [reflexivity|].
  destruct (EOF_is_OK_only_for_RecvMsg example_grpcType_string
              example_splitMethodName
              {| mcs_ClientStream := tt;
                 mcs_monitor :=
                   {| cr_rpcType := BidiStream;
                      cr_serviceName := "pkg.Service";
                      cr_methodName := "Chat" |} |}
              "/pkg.Service/Get" tt (λ _ _, Some io_EOF)
              {| StreamName := "Chat"; ClientStreams := true;
                 ServerStreams := true |}
              tt (λ _ _, (tt, Some io_EOF))
              {| metrics := NewClientMetrics example_CounterOption
                              example_counterOptions_apply
                              example_defMsgBytesBuckets [];
                 trace := [] |} Hc eq_refl eq_refl)
    as (_ & (m' & E) & _).
  exists m'. exact E.
Defined.

(** X6 on a fresh client registry: a stream that is opened, used for one
    send and never read to its end. *)
Lemma client_stream_call_witness :
  ClientMetrics_wf
    (NewClientMetrics example_CounterOption example_counterOptions_apply
       example_defMsgBytesBuckets [])
  ∧ ((λ (_ : StreamDesc) (_ : string), (tt, @None error))
       {| StreamName := "Chat"; ClientStreams := true; ServerStreams := true |}
       "/pkg.Service/Chat").2 = None
  ∧ ∃ s w1 w2,
      StreamClientInterceptor example_grpcType_string example_splitMethodName
        {| StreamName := "Chat"; ClientStreams := true;
           ServerStreams := true |}
        "/pkg.Service/Chat" (λ _ _, (tt, None))
        {| metrics := NewClientMetrics example_CounterOption
                        example_counterOptions_apply
                        example_defMsgBytesBuckets [];
           trace := [] |}
      = Some ((Some s, None), w1)
      ∧ exec (monitoredClientStream_run example_grpcType_string s
                [OpSendMsg None; OpRecvMsg None]) w1 = Some w2
      ∧ calls is_NewReporter (trace w2) = 1
      ∧ calls is_Handled (trace w2) = 0.
Proof.
  assert (ClientMetrics_wf
            (NewClientMetrics example_CounterOption
               example_counterOptions_apply example_defMsgBytesBuckets []))
    as Hc by reflexivity.
  split; [exact Hc|]. split; [reflexivity|].
  destruct (client_stream_call example_grpcType_string
              example_splitMethodName
              {| StreamName := "Chat"; ClientStreams := true;
                 ServerStreams := true |}
              "/pkg.Service/Chat" (λ _ _, (tt, None))
              [OpSendMsg None; OpRecvMsg None]
              {| metrics := NewClientMetrics example_CounterOption
                              example_counterOptions_apply
                              example_defMsgBytesBuckets [];
                 trace := [] |} Hc eq_refl)
    as (s & w1 & w2 & E1 & E2 & Hn & Hh & _).
  exists s, w1, w2. split; [exact E1|]. split; [exact E2|].
  split; [exact Hn|exact Hh].
Defined.

(** X7 on fresh registries: a handler that fails with [Internal]. *)
Lemma handled_series_has_code_of_error_witness :
  ServerMetrics_wf NewServerMetrics
  ∧ ClientMetrics_wf
      (NewClientMetrics example_CounterOption example_counterOptions_apply
         example_defMsgBytesBuckets [])
  ∧ ∃ ws',
      exec (UnaryServerInterceptor example_grpcType_string
              example_splitMethodName tt
              {| usi_FullMethod := "/pkg.Service/Get" |}
              (λ _, (tt, Some (statusError Internal "bug"))))
        {| metrics := NewServerMetrics; trace := [] |} = Some ws'
      ∧ counter_plus (serverHandledCounter NewServerMetrics)
          (serverHandledCounter (metrics ws'))
          ["unary"; "pkg.Service"; "Get"; "Internal"] 1.
Proof.
  assert (ServerMetrics_wf NewServerMetrics) as Hs by reflexivity.
  assert (ClientMetrics_wf
            (NewClientMetrics example_CounterOption
               example_counterOptions_apply example_defMsgBytesBuckets []))
    as Hc by reflexivity.
  split; [exact Hs|]. split; [exact Hc|].
  destruct (handled_series_has_code_of_error example_grpcType_string
              example_splitMethodName tt
              {| usi_FullMethod := "/pkg.Service/Get" |}
              (λ _ : unit, (tt, Some (statusError Internal "bug")))
              tt
              {| ssi_FullMethod := "/pkg.Service/Chat"; IsClientStream := true;
                 IsServerStream := true |}
              {| sh_ops := []; sh_err := None |}
              "/pkg.Service/Get" tt (λ _ _, None)
              {| StreamName := "Chat"; ClientStreams := true;
                 ServerStreams := true |}
              (λ _ _, (tt, None))
              {| metrics := NewServerMetrics; trace := [] |}
              {| metrics := NewClientMetrics example_CounterOption
                              example_counterOptions_apply
                              example_defMsgBytesBuckets [];
                 trace := [] |} Hs Hc)
    as ((ws' & E & H) & _).
  exists ws'. split; [exact E|exact H].
Defined.

(** X8 on a server registry with the histogram enabled. *)
Lemma server_stream_call_witness :
  ServerMetrics_wf (EnableHandlingTimeHistogram [] NewServerMetrics)
  ∧ ∃ w',
      exec (StreamServerInterceptor example_grpcType_string
              example_splitMethodName tt
              {| ssi_FullMethod := "/pkg.Service/Chat"; IsClientStream := true;
                 IsServerStream := true |}
              {| sh_ops := [OpRecvMsg None; OpSendMsg None; OpSendMsg None];
                 sh_err := None |})
        {| metrics := EnableHandlingTimeHistogram [] NewServerMetrics;
           trace := [] |} = Some w'
      ∧ counter_plus
          (serverStreamMsgSent (EnableHandlingTimeHistogram [] NewServerMetrics))
          (serverStreamMsgSent (metrics w'))
          ["bidi_stream"; "pkg.Service"; "Chat"] 2
      ∧ histogram_plus
          (serverHandledHistogram
             (EnableHandlingTimeHistogram [] NewServerMetrics))
          (serverHandledHistogram (metrics w'))
          ["bidi_stream"; "pkg.Service"; "Chat"] 1.
Proof.
  assert (ServerMetrics_wf (EnableHandlingTimeHistogram [] NewServerMetrics))
    as Hs by reflexivity.
  split; [exact Hs|].
  destruct (server_stream_call example_grpcType_string
              example_splitMethodName tt
              {| ssi_FullMethod := "/pkg.Service/Chat"; IsClientStream := true;
                 IsServerStream := true |}
              {| sh_ops := [OpRecvMsg None; OpSendMsg None; OpSendMsg None];
                 sh_err := None |}
              {| metrics := EnableHandlingTimeHistogram [] NewServerMetrics;
                 trace := [] |} Hs)
    as (w' & E & _ & Hsent & _ & Hh).
  exists w'. split; [exact E|]. split; [exact Hsent|exact Hh].
Defined.

(** X11 on fresh registries. *)
Lemma Enable_adds_descriptor_no_sample_witness :
  ServerMetrics_wf NewServerMetrics
  ∧ ClientMetrics_wf
      (NewClientMetrics example_CounterOption example_counterOptions_apply
         example_defMsgBytesBuckets [])
  ∧ ServerMetrics_Collect (EnableHandlingTimeHistogram [] NewServerMetrics) []
    = ServerMetrics_Collect NewServerMetrics [].
Proof.
  assert (ServerMetrics_wf NewServerMetrics) as Hs by reflexivity.
  assert (ClientMetrics_wf
            (NewClientMetrics example_CounterOption
               example_counterOptions_apply example_defMsgBytesBuckets []))
    as Hc by reflexivity.
  split; [exact Hs|]. split; [exact Hc|].
  destruct (Enable_adds_descriptor_no_sample NewServerMetrics
              (NewClientMetrics example_CounterOption
                 example_counterOptions_apply example_defMsgBytesBuckets [])
              [] [] [] Hs Hc)
    as (_ & E & _).
  exact E.
Defined.

(** X12 on a fresh server registry: two services listed in either
    order. *)
Lemma InitializeMetrics_order_independent_witness :
  ServerMetrics_wf NewServerMetrics
  ∧ [("pkg.A", {| Methods := [{| mi_Name := "Get"; mi_IsClientStream := false;
                                 mi_IsServerStream := false |}] |});
     ("pkg.B", {| Methods := [{| mi_Name := "Chat"; mi_IsClientStream := true;
                                 mi_IsServerStream := true |}] |})]
    ≡ₚ [("pkg.B", {| Methods := [{| mi_Name := "Chat";
                                    mi_IsClientStream := true;
                                    mi_IsServerStream := true |}] |});
        ("pkg.A", {| Methods := [{| mi_Name := "Get";
                                    mi_IsClientStream := false;
                                    mi_IsServerStream := false |}] |})]
  ∧ ∃ m',
      InitializeMetrics example_grpcType_string
        [("pkg.A", {| Methods := [{| mi_Name := "Get";
                                     mi_IsClientStream := false;
                                     mi_IsServerStream := false |}] |});
         ("pkg.B", {| Methods := [{| mi_Name := "Chat";
                                     mi_IsClientStream := true;
                                     mi_IsServerStream := true |}] |})]
        NewServerMetrics = Some (tt, m')
      ∧ InitializeMetrics example_grpcType_string
          [("pkg.B", {| Methods := [{| mi_Name := "Chat";
                                       mi_IsClientStream := true;
                                       mi_IsServerStream := true |}] |});
           ("pkg.A", {| Methods := [{| mi_Name := "Get";
                                       mi_IsClientStream := false;
                                       mi_IsServerStream := false |}] |})]
          NewServerMetrics = Some (tt, m').
Proof.
  assert (ServerMetrics_wf NewServerMetrics) as Hs by reflexivity.
  split; [exact Hs|]. split; [apply perm_swap|].
  exact (InitializeMetrics_order_independent example_grpcType_string
           _ _ NewServerMetrics Hs (perm_swap _ _ _)).
Defined.




(** X16 on fresh registries: after a unary call that fails, the server
    registry describes itself as before. *)
Lemma Describe_unchanged_by_traffic_witness :
  ServerMetrics_wf NewServerMetrics
  ∧ ClientMetrics_wf
      (NewClientMetrics example_CounterOption example_counterOptions_apply
         example_defMsgBytesBuckets [])
  ∧ ∃ ws',
      exec (UnaryServerInterceptor example_grpcType_string
              example_splitMethodName tt
              {| usi_FullMethod := "/pkg.Service/Get" |}
              (λ _, (tt, Some (statusError Internal "bug"))))
        {| metrics := NewServerMetrics; trace := [] |} = Some ws'
      ∧ ServerMetrics_Describe (metrics ws') []
        = ServerMetrics_Describe NewServerMetrics [].
Proof.
  assert (ServerMetrics_wf NewServerMetrics) as Hs by reflexivity.
  assert (ClientMetrics_wf
            (NewClientMetrics example_CounterOption
               example_counterOptions_apply example_defMsgBytesBuckets []))
    as Hc by reflexivity.
  split; [exact Hs|]. split; [exact Hc|].
  destruct (Describe_unchanged_by_traffic example_grpcType_string
              example_splitMethodName tt
              {| usi_FullMethod := "/pkg.Service/Get" |}
              (λ _ : unit, (tt, Some (statusError Internal "bug")))
              tt
              {| ssi_FullMethod := "/pkg.Service/Chat"; IsClientStream := true;
                 IsServerStream := true |}
              {| sh_ops := [OpSendMsg None]; sh_err := None |}
              [("pkg.Service",
                {| Methods := [{| mi_Name := "Get"; mi_IsClientStream := false;
                                  mi_IsServerStream := false |}] |})]
              "/pkg.Service/Get" tt (λ _ _, None)
              {| StreamName := "Chat"; ClientStreams := true;
                 ServerStreams := true |}
              (λ _ _, (tt, None))
              {| mcs_ClientStream := tt;
                 mcs_monitor :=
                   {| cr_rpcType := BidiStream;
                      cr_serviceName := "pkg.Service";
                      cr_methodName := "Chat" |} |}
              [OpSendMsg None; OpRecvMsg (Some io_EOF)]
              {| metrics := NewServerMetrics; trace := [] |}
              {| metrics := NewClientMetrics example_CounterOption
                              example_counterOptions_apply
                              example_defMsgBytesBuckets [];
                 trace := [] |}
              [] Hs Hc)
    as ((ws' & E & H) & _).
  exists ws'. split; [exact E|exact H].
Defined.
